(** * BDC-STAC controller: query building and document assembly

    A shallow embedding of [bdc_stac/controller.py]: the filter compiler of
    [get_collection_items], the role constraint [_add_roles_constraint], the
    electro-optical summary [get_collection_eo], the feature builder
    [make_geojson] and the field parser [parse_fields_parameter].

    Python values are embedded as follows: [str] as [string], [float] as the
    IEEE 754 binary64 numbers of [PrimFloat], a [dict] as an association list
    in insertion order, [None]-able values as [option], and a raised exception
    as the [Raise] branch of [result].  SQLAlchemy expressions are embedded as
    a small syntax of clauses with an evaluation over catalog rows.

    Left out: the memoization of [lru_cache] (the functions are read as
    functions of the catalog), the ordering and paging that [paginate]
    applies to the selected rows ([page] and [limit] are taken as integers),
    and the document assembly of [get_collections], of which only the row
    selection is embedded. *)

From Stdlib Require Import ZArith List String Ascii Bool Floats Uint63 Lia.
Import ListNotations.

Local Open Scope string_scope.
Local Open Scope list_scope.

Infix "+++" := String.append (right associativity, at level 60).

(** ** Python primitives *)

Module Py.

(** The text of the two [abort(400, ...)] calls of the controller. *)
Inductive description :=
| Use_collection_id_or_collections  (* "Invalid parameter. Use collection_id or collections." *)
| Not_a_valid_bbox.                 (* f"{bbox} is not a valid bbox." *)

Inductive exn :=
| Abort (code : Z) (d : description)   (* flask.abort *)
| ValueError
| KeyError (key : string)
| IndexError
| AttributeError.

Inductive result (A : Type) :=
| Ok (a : A)
| Raise (e : exn).
Arguments Ok {A} a.
Arguments Raise {A} e.

Definition bind {A B} (r : result A) (k : A -> result B) : result B :=
  match r with
  | Ok a => k a
  | Raise e => Raise e
  end.

Definition is_ok {A} (r : result A) : bool :=
  match r with Ok _ => true | Raise _ => false end.

(** [s.split(sep)] for a one-character separator. *)
Fixpoint split (sep : ascii) (s : string) : list string :=
  match s with
  | EmptyString => [EmptyString]
  | String c s' =>
      if Ascii.eqb c sep then EmptyString :: split sep s'
      else match split sep s' with
           | [] => [String c EmptyString]
           | w :: ws => String c w :: ws
           end
  end.

(** [sep in s] for a one-character [sep]. *)
Fixpoint contains (sep : ascii) (s : string) : bool :=
  match s with
  | EmptyString => false
  | String c s' => Ascii.eqb c sep || contains sep s'
  end.

(** [s.startswith(p)]. *)
Definition startswith (s p : string) : bool := String.prefix p s.

(** [s[1:]]. *)
Definition tail (s : string) : string :=
  match s with
  | EmptyString => EmptyString
  | String _ s' => s'
  end.

(** [s.rstrip(c)] for a one-character set. *)
Fixpoint rstrip (c : ascii) (s : string) : string :=
  match s with
  | EmptyString => EmptyString
  | String a s' =>
      match rstrip c s' with
      | EmptyString => if Ascii.eqb a c then EmptyString else String a EmptyString
      | r => String a r
      end
  end.

(** [x in l] for a list of strings. *)
Definition mem (x : string) (l : list string) : bool :=
  existsb (String.eqb x) l.

(** JSON-like values held in metadata columns and in produced documents. *)
#[warnings="-register-all"]
Inductive value :=
| VNone
| VBool (b : bool)
| VInt (z : Z)
| VFloat (f : float)
| VStr (s : string)
| VList (l : list value)
| VDict (d : list (string * value)).

Definition dict := list (string * value).

(** Truth value of an object, as [if x:] reads it. *)
Definition truthy (v : value) : bool :=
  match v with
  | VNone => false
  | VBool b => b
  | VInt z => negb (Z.eqb z 0)
  | VFloat f => negb (PrimFloat.eqb f 0%float)
  | VStr s => negb (String.eqb s "")
  | VList l => match l with [] => false | _ => true end
  | VDict d => match d with [] => false | _ => true end
  end.

(** [d.get(k)]. *)
Fixpoint get (d : dict) (k : string) : option value :=
  match d with
  | [] => None
  | (k', v) :: d' => if String.eqb k' k then Some v else get d' k
  end.

(** [d[k] = v]: an existing key keeps its place, a new one goes last. *)
Fixpoint set (d : dict) (k : string) (v : value) : dict :=
  match d with
  | [] => [(k, v)]
  | (k', v') :: d' =>
      if String.eqb k' k then (k', v) :: d' else (k', v') :: set d' k v
  end.

(** [d.update(d')]. *)
Definition update (d d' : dict) : dict :=
  fold_left (fun acc kv => set acc (fst kv) (snd kv)) d' d.

(** A parameter that the handlers pass either as one comma-separated
    string or as a list. *)
Inductive str_or_list :=
| Str (s : string)
| Lst (l : list string).

Definition truthy_str (s : string) : bool := negb (String.eqb s "").

Definition truthy_opt_str (o : option string) : bool :=
  match o with Some s => truthy_str s | None => false end.

Definition truthy_sl (x : str_or_list) : bool :=
  match x with
  | Str s => truthy_str s
  | Lst l => match l with [] => false | _ => true end
  end.

(** [x.split(",") if isinstance(x, str) else x]. *)
Definition as_list (x : str_or_list) : list string :=
  match x with
  | Str s => split "," s
  | Lst l => l
  end.

End Py.
Import Py.

Notation "x <- c1 ;; c2" := (bind c1 (fun x => c2))
  (at level 61, c1 at next level, right associativity).

(** ** The catalog (the tables of [bdc_catalog.models] the controller reads) *)

Definition timestamp := Z.

(** A stored geometry (a WKB element); the controller never looks inside. *)
Definition geometry := string.

Module Collection.
Record t := mk {
  id : Z;
  name : string;
  version : string;
  identifier : string;
  title : string;
  category : string;
  collection_type : string;
  is_public : bool;
  is_available : bool
}.
End Collection.

Module Tile.
Record t := mk {
  id : Z;
  name : string
}.
End Tile.

(** One entry of [Item.assets]: the [href] and the remaining keys. *)
Module Asset.
Record t := mk {
  href : string;
  fields : dict
}.
End Asset.

Module Item.
Record t := mk {
  id : Z;
  name : string;
  collection_id : Z;
  tile_id : option Z;
  start_date : timestamp;
  end_date : timestamp;
  created : timestamp;
  updated : timestamp;
  cloud_cover : option float;
  footprint : option geometry;
  bbox : option geometry;
  metadata_ : option dict;
  assets : option (list (string * Asset.t));
  is_available : bool
}.
End Item.

Module Band.
Record t := mk {
  collection_id : Z;
  collection_name : string;         (* band.collection.name *)
  name : string;
  common_name : option string;
  description : option string;
  min_value : option float;
  max_value : option float;
  nodata : option float;
  scale_mult : option float;
  scale_add : option float;
  data_type : option string;
  properties : dict;                (* band.properties, a mapping *)
  eo_resolutions : option (list float)
}.
End Band.

Module Processor.
Record t := mk {
  item_id : Z;
  name : string;
  facility : string;
  level : Z;
  version : string
}.
End Processor.

Record DB := mkDB {
  db_collections : list Collection.t;
  db_items : list Item.t;
  db_tiles : list Tile.t;
  db_bands : list Band.t;
  db_processors : list Processor.t
}.

(** ** SQL expressions *)

Module Sql.

Inductive geom_field := Item_footprint | Item_bbox.
Inductive date_column := Item_start_date | Item_end_date.
Inductive operator := LE | GE | LT | GT.

(** The columns a property query may address ([create_query_filter]). *)
Inductive query_column :=
| Tile_name
| Item_cloud_cover
| Item_metadata_astext (key : string).

(** Conditions on the [Collection] table alone. *)
#[warnings="-register-all"]
Inductive ccond :=
| Collection_is_available                   (* Collection.is_available.is_(True) *)
| Collection_is_public                      (* Collection.is_public.is_(True) *)
| Collection_identifier_in (l : list string)
| Collection_id_in (l : list Z)
| Collection_name_version_eq (s : string)   (* func.concat(name, "-", version) == s *)
| Literal (b : bool)
| or_ (l : list ccond).

(** Conditions of the item search. *)
#[warnings="-register-all"]
Inductive clause :=
| On_collection (c : ccond)
| Collection_id_eq_Item_collection_id
| Item_is_available
| Item_name_in (l : list string)
| Item_name_like (pattern : string)
| Property (col : query_column) (method : string) (arg : value)
| ST_Intersects_GeoJSON (geojson : string) (f : geom_field)
| ST_Intersects_Envelope (xmin ymin xmax ymax : float) (srid : Z) (f : geom_field)
| Date (col : date_column) (op : operator) (literal : string)
| And (l : list clause)
| Or (l : list clause).

(** What the store decides: the reading of a timestamp literal, the
    PostGIS predicates, [LIKE] and the operators of property queries. *)
Record Store := mkStore {
  to_timestamp : string -> timestamp;
  st_intersects_geojson : string -> option geometry -> bool;
  st_intersects_envelope : float -> float -> float -> float -> Z -> option geometry -> bool;
  like : string -> string -> bool;
  apply_method : string -> value -> value -> bool
}.

Record row := mkRow {
  r_collection : Collection.t;
  r_item : Item.t;
  r_tile : option Tile.t
}.

Definition mem_Z (x : Z) (l : list Z) : bool := existsb (Z.eqb x) l.

Fixpoint cholds (c : ccond) (col : Collection.t) : bool :=
  match c with
  | Collection_is_available => Collection.is_available col
  | Collection_is_public => Collection.is_public col
  | Collection_identifier_in l => mem (Collection.identifier col) l
  | Collection_id_in l => mem_Z (Collection.id col) l
  | Collection_name_version_eq s =>
      String.eqb (Collection.name col +++ "-" +++ Collection.version col) s
  | Literal b => b
  | or_ l => existsb (fun c' => cholds c' col) l
  end.

Definition compare_ts (op : operator) (x y : timestamp) : bool :=
  match op with
  | LE => Z.leb x y
  | GE => Z.geb x y
  | LT => Z.ltb x y
  | GT => Z.gtb x y
  end.

Definition date_of (col : date_column) (i : Item.t) : timestamp :=
  match col with
  | Item_start_date => Item.start_date i
  | Item_end_date => Item.end_date i
  end.

Definition geom_of (f : geom_field) (i : Item.t) : option geometry :=
  match f with
  | Item_footprint => Item.footprint i
  | Item_bbox => Item.bbox i
  end.

Definition column_value (col : query_column) (r : row) : value :=
  match col with
  | Tile_name =>
      match r_tile r with Some t => VStr (Tile.name t) | None => VNone end
  | Item_cloud_cover =>
      match Item.cloud_cover (r_item r) with Some f => VFloat f | None => VNone end
  | Item_metadata_astext key =>
      match Item.metadata_ (r_item r) with
      | Some d => match get d key with Some v => v | None => VNone end
      | None => VNone
      end
  end.

Section Holds.
Variable st : Store.

Fixpoint holds (c : clause) (r : row) : bool :=
  match c with
  | On_collection c' => cholds c' (r_collection r)
  | Collection_id_eq_Item_collection_id =>
      Z.eqb (Collection.id (r_collection r)) (Item.collection_id (r_item r))
  | Item_is_available => Item.is_available (r_item r)
  | Item_name_in l => mem (Item.name (r_item r)) l
  | Item_name_like p => like st (Item.name (r_item r)) p
  | Property col m arg => apply_method st m (column_value col r) arg
  | ST_Intersects_GeoJSON g f => st_intersects_geojson st g (geom_of f (r_item r))
  | ST_Intersects_Envelope x0 y0 x1 y1 srid f =>
      st_intersects_envelope st x0 y0 x1 y1 srid (geom_of f (r_item r))
  | Date col op lit => compare_ts op (date_of col (r_item r)) (to_timestamp st lit)
  | And l => forallb (fun c' => holds c' r) l
  | Or l => existsb (fun c' => holds c' r) l
  end.

(** [.filter] over a [where] list: the conjunction of its clauses. *)
Definition holds_all (where_ : list clause) (r : row) : bool :=
  forallb (fun c => holds c r) where_.
End Holds.

(** The rows of [Collection, Item LEFT OUTER JOIN Tile ON Item.tile_id == Tile.id]. *)
Definition tile_of (db : DB) (i : Item.t) : option Tile.t :=
  match Item.tile_id i with
  | Some tid => find (fun t => Z.eqb (Tile.id t) tid) (db_tiles db)
  | None => None
  end.

Definition rows (db : DB) : list row :=
  flat_map (fun c => map (fun i => mkRow c i (tile_of db i)) (db_items db))
           (db_collections db).

(** The rows a filtered item query selects (before ordering and paging). *)
Definition select (st : Store) (db : DB) (where_ : list clause) : list row :=
  filter (holds_all st where_) (rows db).

(** The rows a filtered collection query selects. *)
Definition select_collections (db : DB) (where_ : list ccond) : list Collection.t :=
  filter (fun c => forallb (fun w => cholds w c) where_) (db_collections db).

End Sql.
Import Sql.

(** ** The controller's environment

    The constants and the extension registry of [bdc_stac.config], the
    headers of the current request, and the library functions the controller
    calls ([float], [str], [urllib.parse.urljoin], [strftime], [shapely]). *)

Record Env := mkEnv {
  BDC_STAC_API_VERSION : string;
  BDC_STAC_BASE_URL : string;
  BDC_STAC_FILE_ROOT : string;
  BDC_STAC_MAX_LIMIT : Z;
  BDC_STAC_USE_FOOTPRINT : bool;
  (** [get_stac_extensions] applied to names: their registered extension URIs. *)
  get_stac_extensions : list string -> list string;
  (** [request.headers] *)
  request_headers : list (string * string);
  (** [float(s)] on a string; [None] stands for [ValueError]. *)
  float_of_str : string -> option float;
  (** [str(x)] *)
  str : value -> string;
  (** [urljoin(base, url)] when neither [base] nor [url] is empty. *)
  urljoin_nonempty : string -> string -> string;
  (** [t.strftime(DATETIME_RFC339)] *)
  strftime : timestamp -> string;
  (** [shapely.geometry.mapping(to_shape(g))] and [to_shape(g).bounds] *)
  shape_mapping : geometry -> value;
  shape_bounds : geometry -> value
}.

(** The arguments of [get_collection_items]. *)
Module Args.
Inductive bbox_entry :=
| Num (f : float)
| Text (s : string).

Inductive bbox_arg :=
| Bbox_str (s : string)
| Bbox_list (l : list bbox_entry).

Record t := mk {
  collection_id : option string;
  roles : option (list string);
  item_id : option string;
  bbox : option bbox_arg;
  datetime : option string;
  ids : option str_or_list;
  collections : option str_or_list;
  intersects : option value;
  page : Z;
  limit : Z;
  query : option (list (string * list (string * value)));
  exclude : list string              (* kwargs.get("exclude", []) *)
}.

(** The defaults of the signature. *)
Definition default : t :=
  mk None None None None None None None None 1 10 None [].

(** The same call with [bbox] left at its default. *)
Definition without_bbox (a : t) : t :=
  mk (collection_id a) (roles a) (item_id a) None (datetime a) (ids a)
     (collections a) (intersects a) (page a) (limit a) (query a) (exclude a).

(** The entries of [bbox], after [bbox.split(",")] when it is a string. *)
Definition bbox_entries (bbox : bbox_arg) : list bbox_entry :=
  match bbox with
  | Bbox_str s => map Text (split "," s)
  | Bbox_list l => l
  end.
End Args.

(** The query handed to [paginate]: whether [Item.assets] is among the
    columns, the [where] list, and the paging arguments.  The join with
    [Tile] and the order (start date descending, then id) are fixed. *)
Record Query := mkQuery {
  q_assets_column : bool;
  q_where : list clause;
  q_page : Z;
  q_per_page : Z;
  q_max_per_page : Z
}.

Definition set_where (q : Query) (where_ : list clause) : Query :=
  mkQuery (q_assets_column q) where_ (q_page q) (q_per_page q) (q_max_per_page q).

(** ** [_add_roles_constraint] *)

Definition _add_roles_constraint (roles : list string) : ccond :=
  let where_ :=
    if negb (mem "*" roles)
    then [if (0 <? List.length roles)%nat then Collection_identifier_in roles else Literal false]
    else [] in
  or_ (Collection_is_public :: where_).

(** ** [create_query_filter] *)

Definition mapping : list (string * string) :=
  [("eq", "__eq__"); ("neq", "__ne__"); ("lt", "__lt__"); ("lte", "__le__");
   ("gt", "__gt__"); ("gte", "__ge__"); ("startsWith", "startswith");
   ("endsWith", "endswith"); ("contains", "contains"); ("in", "in_")].

Definition bdc_properties : list (string * query_column) :=
  [("bdc:tile", Tile_name); ("bdc:tiles", Tile_name); ("eo:cloud_cover", Item_cloud_cover)].

Fixpoint lookup {A} (k : string) (l : list (string * A)) : option A :=
  match l with
  | [] => None
  | (k', a) :: l' => if String.eqb k' k then Some a else lookup k l'
  end.

(** The inner loop over the operators of one property. *)
Fixpoint column_filters (column : string) (_filters : list (string * value))
    (filters : list clause) : result (list clause) :=
  match _filters with
  | [] => Ok filters
  | (op, v) :: rest =>
      match lookup op mapping with
      | None => Raise (KeyError op)
      | Some method =>
          let f :=
            match lookup column bdc_properties with
            | Some col => Property col method v
            | None => Property (Item_metadata_astext column) method v
            end in
          column_filters column rest (filters ++ [f])
      end
  end.

Fixpoint query_filters (query : list (string * list (string * value)))
    (filters : list clause) : result (list clause) :=
  match query with
  | [] => Ok filters
  | (column, _filters) :: rest =>
      filters' <- column_filters column _filters filters ;;
      query_filters rest filters'
  end.

Definition create_query_filter (query : list (string * list (string * value)))
  : result (list clause) :=
  query_filters query [].

(** ** [get_collection_items] *)

(** The branch [if datetime is not None] (the temporal filter). *)
Definition date_filter (datetime : string) : result (list clause) :=
  if contains "/" datetime then
    match split "/" datetime with
    | [time_start; time_end] =>
        if mem time_start [".."; ""] then
          Ok [Or [Date Item_start_date LE time_end; Date Item_end_date LE time_end]]
        else if mem time_end [".."; ""] then
          Ok [Or [Date Item_start_date GE time_start; Date Item_end_date GE time_start]]
        else
          Ok [Or [And [Date Item_start_date GE time_start; Date Item_start_date LE time_end];
                  And [Date Item_end_date GE time_start; Date Item_end_date LE time_end];
                  And [Date Item_start_date LT time_start; Date Item_end_date GT time_end]]]
    | _ => Raise ValueError            (* time_start, time_end = ... does not unpack *)
    end
  else
    Ok [And [Date Item_start_date LE datetime; Date Item_end_date GE datetime]].

Section Controller.
Variable env : Env.

Definition float_of (x : Args.bbox_entry) : option float :=
  match x with
  | Args.Num f => Some f
  | Args.Text s => float_of_str env s
  end.

(** [[float(x) for x in bbox]]; [None] when one entry raises [ValueError]. *)
Fixpoint floats (l : list Args.bbox_entry) : option (list float) :=
  match l with
  | [] => Some []
  | x :: l' =>
      match float_of x with
      | None => None
      | Some f =>
          match floats l' with
          | None => None
          | Some fs => Some (f :: fs)
          end
      end
  end.

(** The branch [elif bbox is not None], with its [try] and [except]. *)
Definition bbox_filter (bbox : Args.bbox_arg) (geom_field : geom_field)
  : result (list clause) :=
  match floats (Args.bbox_entries bbox) with
  | None => Raise (Abort 400 Not_a_valid_bbox)
  | Some b =>
      match nth_error b 0, nth_error b 2 with
      | Some b0, Some b2 =>
          if PrimFloat.eqb b0 b2 then Raise (Abort 400 Not_a_valid_bbox)
          else
            match nth_error b 1, nth_error b 3 with
            | Some b1, Some b3 =>
                if PrimFloat.eqb b1 b3 then Raise (Abort 400 Not_a_valid_bbox)
                else Ok [ST_Intersects_Envelope b0 b1 b2 b3 4326 geom_field]
            | _, _ => Raise IndexError
            end
      | _, _ => Raise IndexError
      end
  end.

(** The four constraints every item search starts from. *)
Definition base_where (roles : list string) : list clause :=
  [Collection_id_eq_Item_collection_id;
   On_collection Collection_is_available;
   Item_is_available;
   On_collection (_add_roles_constraint roles)].

(** [db.session.query(Collection.id).filter(Collection.identifier.in_(collections)).all()],
    read through [c.id for c in rows]. *)
Definition resolve_collections (db : DB) (collections : list string) : list Z :=
  map Collection.id
      (filter (fun c => mem (Collection.identifier c) collections) (db_collections db)).

Definition get_collection_items (db : DB) (a : Args.t) : result Query :=
  let exclude := Args.exclude a in
  let assets_column := negb (mem "assets" exclude) in
  let roles := match Args.roles a with None => [] | Some r => r end in
  let where_ := base_where roles in
  let geom_field := if BDC_STAC_USE_FOOTPRINT env then Item_footprint else Item_bbox in
  where_ <-
    match Args.ids a with
    | Some ids => Ok (where_ ++ [Item_name_in (as_list ids)])
    | None =>
        let collection_id := Args.collection_id a in
        let collections := Args.collections a in
        if truthy_opt_str collection_id
           && match collections with Some c => truthy_sl c | None => false end
        then Raise (Abort 400 Use_collection_id_or_collections)
        else
          let collections :=
            match collection_id with
            | Some c => if truthy_str c then Some (Lst [c]) else collections
            | None => collections
            end in
          let where_ :=
            match collections with
            | Some c =>
                if truthy_sl c
                then where_ ++ [On_collection (Collection_id_in (resolve_collections db (as_list c)))]
                else where_
            | None => where_
            end in
          let where_ :=
            match Args.item_id a with
            | Some item_id => where_ ++ [Item_name_like item_id]
            | None => where_
            end in
          where_ <-
            match Args.query a with
            | Some (kv :: q) =>
                filters <- create_query_filter (kv :: q) ;;
                Ok (where_ ++ filters)
            | _ => Ok where_
            end ;;
          where_ <-
            match Args.intersects a, Args.bbox a with
            | Some g, _ => Ok (where_ ++ [ST_Intersects_GeoJSON (str env g) geom_field])
            | None, Some bbox =>
                f <- bbox_filter bbox geom_field ;;
                Ok (where_ ++ f)
            | None, None => Ok where_
            end ;;
          match Args.datetime a with
          | Some datetime =>
              f <- date_filter datetime ;;
              Ok (where_ ++ f)
          | None => Ok where_
          end
    end ;;
  Ok {| q_assets_column := assets_column;
        q_where := where_;
        q_page := Args.page a;
        q_per_page := Args.limit a;
        q_max_per_page := BDC_STAC_MAX_LIMIT env |}.

(** ** The row selection of [get_collections] and [get_catalog] *)

Definition get_collections_rows (db : DB) (collection_id : option string)
    (roles : option (list string)) : list Collection.t :=
  let roles := match roles with None => [] | Some r => r end in
  let where_ := [Collection_is_available; _add_roles_constraint roles] in
  let where_ :=
    match collection_id with
    | Some c => if truthy_str c then where_ ++ [Collection_name_version_eq c] else where_
    | None => where_
    end in
  select_collections db where_.

Definition get_catalog (db : DB) (roles : option (list string)) : list Collection.t :=
  let roles :=                        (* if not roles: roles = [] *)
    match roles with
    | Some r => match r with [] => [] | _ => r end
    | None => []
    end in
  select_collections db [Collection_is_available; _add_roles_constraint roles].

End Controller.

(** ** [get_collection_eo] *)

Record EO := mkEO {
  eo_gsd : float;               (* "eo:gsd" *)
  eo_bands : list dict          (* "eo:bands" *)
}.

Definition opt_float (o : option float) : value :=
  match o with Some f => VFloat f | None => VNone end.

Definition opt_str (o : option string) : value :=
  match o with Some s => VStr s | None => VNone end.

(** The numeric columns of a band are held as floats, so [float(x)] of a
    column that is not [None] is its value. *)
Definition band_meta (band : Band.t) : dict :=
  update
    [("name", VStr (Band.name band));
     ("common_name", opt_str (Band.common_name band));
     ("description", opt_str (Band.description band));
     ("min", opt_float (Band.min_value band));
     ("max", opt_float (Band.max_value band));
     ("nodata", opt_float (Band.nodata band));
     ("scale", opt_float (Band.scale_mult band));
     ("scale_add", opt_float (Band.scale_add band));
     ("data_type", opt_str (Band.data_type band))]
    (Band.properties band).

Definition no_resolution_warning (band : Band.t) : string :=
  "No resolution configured for " +++ Band.collection_name band
    +++ " - Band " +++ Band.name band.

(** The loop over the bands: the bands kept so far, the running [eo_gsd]
    and the warnings logged so far. *)
Fixpoint eo_loop (bands : list Band.t) (eo_bands : list dict) (eo_gsd : float)
    (log : list string) : result EO * list string :=
  match bands with
  | [] => (Ok (mkEO eo_gsd eo_bands), log)
  | band :: rest =>
      match Band.eo_resolutions band with
      | None => eo_loop rest eo_bands eo_gsd (log ++ [no_resolution_warning band])
      | Some resolutions =>
          let eo_bands := eo_bands ++ [band_meta band] in
          match nth_error resolutions 0 with
          | None => (Raise IndexError, log)
          | Some r0 =>
              if PrimFloat.ltb eo_gsd r0          (* resolutions[0] > eo_gsd *)
              then eo_loop rest eo_bands r0 log
              else eo_loop rest eo_bands eo_gsd log
          end
      end
  end.

(** [Band.query().filter(Band.collection_id == collection_id)] *)
Definition bands_of (db : DB) (collection_id : Z) : list Band.t :=
  filter (fun b => Z.eqb (Band.collection_id b) collection_id) (db_bands db).

(** The result and the warnings written to the application log. *)
Definition get_collection_eo (db : DB) (collection_id : Z) : result EO * list string :=
  eo_loop (bands_of db collection_id) [] 0%float [].

(** ** [get_item_processors] *)

Definition processors_of (db : DB) (item_id : Z) : list Processor.t :=
  filter (fun p => Z.eqb (Processor.item_id p) item_id) (db_processors db).

Definition get_item_processors (db : DB) (item_id : Z) : dict :=
  let step (st : option Processor.t * dict) (proc : Processor.t) :=
    let proc_root :=
      match fst st with
      | None => Some proc
      | Some r => if (Processor.level proc >? Processor.level r)%Z then Some proc else Some r
      end in
    (proc_root, set (snd st) (Processor.facility proc) (VStr (Processor.version proc))) in
  match fold_left step (processors_of db item_id) (None, []) with
  | (Some proc_root, (kv :: obj) as processors_obj) =>
      [("processing:lineage", VStr (Processor.name proc_root));
       ("processing:facility", VStr (Processor.facility proc_root));
       ("processing:level", VInt (Processor.level proc_root));
       ("processing:software", VDict processors_obj)]
  | _ => []
  end.

(** ** [make_geojson] *)

(** A row of the item search, by the labels of its columns.  [assets] is
    [None] when the column was left out of the query. *)
Module Hit.
Record t := mk {
  collection : string;
  collection_type : string;
  category : string;
  item_meta : option dict;
  item : string;
  id : Z;
  collection_id : Z;
  start : timestamp;
  end_ : timestamp;
  created : timestamp;
  updated : timestamp;
  cloud_cover : option float;
  footprint : option geometry;
  bbox : option geometry;
  tile : option string;
  assets : option (option (list (string * Asset.t)))
}.
End Hit.

(** The columns of [get_collection_items] read off a selected row. *)
Definition hit_of (q : Query) (r : row) : Hit.t :=
  let c := r_collection r in
  let i := r_item r in
  {| Hit.collection := Collection.identifier c;
     Hit.collection_type := Collection.collection_type c;
     Hit.category := Collection.category c;
     Hit.item_meta := Item.metadata_ i;
     Hit.item := Item.name i;
     Hit.id := Item.id i;
     Hit.collection_id := Item.collection_id i;
     Hit.start := Item.start_date i;
     Hit.end_ := Item.end_date i;
     Hit.created := Item.created i;
     Hit.updated := Item.updated i;
     Hit.cloud_cover := Item.cloud_cover i;
     Hit.footprint := Item.footprint i;
     Hit.bbox := Item.bbox i;
     Hit.tile := option_map Tile.name (r_tile r);
     Hit.assets := if q_assets_column q then Some (Item.assets i) else None |}.

Record Link := mkLink {
  link_href : string;
  link_rel : string
}.

(** A feature document; a key removed by [pop] is [None]. *)
Record Feature := mkFeature {
  f_type : option string;
  f_id : option string;
  f_collection : option string;
  f_stac_version : option string;
  f_stac_extensions : option (list string);
  f_geometry : option value;
  f_links : option (list Link);
  f_bbox : option value;
  f_assets : option (list (string * Asset.t));
  f_properties : option dict
}.

(** [feature.pop(key, None)] *)
Definition pop (f : Feature) (key : string) : Feature :=
  if String.eqb key "type" then
    mkFeature None (f_id f) (f_collection f) (f_stac_version f) (f_stac_extensions f)
              (f_geometry f) (f_links f) (f_bbox f) (f_assets f) (f_properties f)
  else if String.eqb key "id" then
    mkFeature (f_type f) None (f_collection f) (f_stac_version f) (f_stac_extensions f)
              (f_geometry f) (f_links f) (f_bbox f) (f_assets f) (f_properties f)
  else if String.eqb key "collection" then
    mkFeature (f_type f) (f_id f) None (f_stac_version f) (f_stac_extensions f)
              (f_geometry f) (f_links f) (f_bbox f) (f_assets f) (f_properties f)
  else if String.eqb key "stac_version" then
    mkFeature (f_type f) (f_id f) (f_collection f) None (f_stac_extensions f)
              (f_geometry f) (f_links f) (f_bbox f) (f_assets f) (f_properties f)
  else if String.eqb key "stac_extensions" then
    mkFeature (f_type f) (f_id f) (f_collection f) (f_stac_version f) None
              (f_geometry f) (f_links f) (f_bbox f) (f_assets f) (f_properties f)
  else if String.eqb key "geometry" then
    mkFeature (f_type f) (f_id f) (f_collection f) (f_stac_version f) (f_stac_extensions f)
              None (f_links f) (f_bbox f) (f_assets f) (f_properties f)
  else if String.eqb key "links" then
    mkFeature (f_type f) (f_id f) (f_collection f) (f_stac_version f) (f_stac_extensions f)
              (f_geometry f) None (f_bbox f) (f_assets f) (f_properties f)
  else if String.eqb key "bbox" then
    mkFeature (f_type f) (f_id f) (f_collection f) (f_stac_version f) (f_stac_extensions f)
              (f_geometry f) (f_links f) None (f_assets f) (f_properties f)
  else if String.eqb key "assets" then
    mkFeature (f_type f) (f_id f) (f_collection f) (f_stac_version f) (f_stac_extensions f)
              (f_geometry f) (f_links f) (f_bbox f) None (f_properties f)
  else if String.eqb key "properties" then
    mkFeature (f_type f) (f_id f) (f_collection f) (f_stac_version f) (f_stac_extensions f)
              (f_geometry f) (f_links f) (f_bbox f) (f_assets f) None
  else f.

(** [a or b] on two optional geometries. *)
Definition or_else {A} (a b : option A) : option A :=
  match a with Some _ => a | None => b end.

Section Documents.
Variable env : Env.

(** [request.headers.get(name, default)] *)
Definition header (name default : string) : string :=
  match lookup name (request_headers env) with
  | Some v => v
  | None => default
  end.

Definition resolve_base_file_root_url (_ : unit) : string :=
  header "X-Script-Name" (BDC_STAC_FILE_ROOT env).

Definition resolve_stac_url (_ : unit) : string :=
  rstrip "/" (header "X-Stac-Url" (BDC_STAC_BASE_URL env)).

(** The loop over [ctx.item_meta.keys()]: is there a key that starts
    with [storage:]. *)
Definition has_storage_key (item_meta : dict) : bool :=
  existsb (fun kv => startswith (fst kv) "storage:") item_meta.

Definition _resolve_item_file_root (ctx : Hit.t) : unit -> string :=
  let _fn := resolve_base_file_root_url in
  match Hit.item_meta ctx with
  | Some item_meta => if has_storage_key item_meta then (fun _ => "") else _fn
  | None => _fn
  end.

(** [urllib.parse.urljoin]: an empty base gives the url back, an empty url
    the base. *)
Definition urljoin (base url : string) : string :=
  if String.eqb base "" then url
  else if String.eqb url "" then base
  else urljoin_nonempty env base url.

(** [band["name"] == key] *)
Definition band_named (key : string) (band : dict) : bool :=
  match get band "name" with
  | Some (VStr n) => String.eqb n key
  | _ => false
  end.

(** The body of the loop over [i.assets.items()]. *)
Definition make_asset (base : string) (assets_kwargs : string) (eo : bool)
    (bands : list dict) (kv : string * Asset.t) : string * Asset.t :=
  let (key, v) := kv in
  let href := urljoin base (Asset.href v +++ assets_kwargs) in
  let fields :=
    if eo then
      fold_left (fun fs band =>
                   if band_named key band then set fs "eo:bands" (VList [VDict band]) else fs)
                bands (Asset.fields v)
    else Asset.fields v in
  (key, Asset.mk href fields).

Definition make_links (i : Hit.t) (assets_kwargs : string) : list Link :=
  let root := resolve_stac_url tt in
  [mkLink (root +++ "/collections/" +++ Hit.collection i +++ "/items/" +++ Hit.item i
             +++ assets_kwargs) "self";
   mkLink (root +++ "/collections/" +++ Hit.collection i +++ assets_kwargs) "parent";
   mkLink (root +++ "/collections/" +++ Hit.collection i +++ assets_kwargs) "collection";
   mkLink (root +++ "/") "root"].

(** The body of the loop of [make_geojson] for one row. *)
Definition make_feature (db : DB) (assets_kwargs : string) (exclude : list string)
    (i : Hit.t) : result Feature :=
  geom <- match or_else (Hit.footprint i) (Hit.bbox i) with
          | Some g => Ok (shape_mapping env g)
          | None => Raise AttributeError      (* to_shape(None) *)
          end ;;
  let eo := String.eqb (Hit.category i) "eo" in
  let processors := get_item_processors db (Hit.id i) in
  let extensions :=
    get_stac_extensions env [Hit.category i]
      ++ (match processors with [] => [] | _ => get_stac_extensions env ["processing"] end) in
  let _item_url_resolver := _resolve_item_file_root i in
  let bbox :=
    match Hit.bbox i with
    | Some g => shape_bounds env g
    | None => VList []
    end in
  let properties :=
    [("datetime", VStr (strftime env (Hit.start i)));
     ("start_datetime", VStr (strftime env (Hit.start i)));
     ("end_datetime", VStr (strftime env (Hit.end_ i)));
     ("created", VStr (strftime env (Hit.created i)));
     ("updated", VStr (strftime env (Hit.updated i)))] in
  let properties :=
    update properties (match Hit.item_meta i with Some d => d | None => [] end) in
  let properties := update properties processors in
  let properties :=
    match Hit.tile i with
    | Some t => if truthy_str t then set properties "bdc:tiles" (VList [VStr t]) else properties
    | None => properties
    end in
  let properties :=
    if eo then set properties "eo:cloud_cover" (opt_float (Hit.cloud_cover i))
    else properties in
  bands <- (if eo then
              r <- fst (get_collection_eo db (Hit.collection_id i)) ;;
              Ok (eo_bands r)
            else Ok []) ;;
  assets <- match Hit.assets i with
            | None => Raise AttributeError    (* the column is not in the row *)
            | Some None => Ok None
            | Some (Some []) => Ok None
            | Some (Some l) =>
                Ok (Some (map (make_asset (_item_url_resolver tt) assets_kwargs eo bands) l))
            end ;;
  let extensions :=
    match get properties "storage:platform" with
    | Some v => if truthy v then extensions ++ get_stac_extensions env ["storage"]
                else extensions
    | None => extensions
    end in
  let feature :=
    {| f_type := Some "Feature";
       f_id := Some (Hit.item i);
       f_collection := Some (Hit.collection i);
       f_stac_version := Some (BDC_STAC_API_VERSION env);
       f_stac_extensions := Some extensions;
       f_geometry := Some geom;
       f_links := Some (make_links i assets_kwargs);
       f_bbox := Some bbox;
       f_assets := assets;
       f_properties := Some properties |} in
  Ok (fold_left pop exclude feature).

Fixpoint make_geojson (db : DB) (items : list Hit.t) (assets_kwargs : string)
    (exclude : list string) : result (list Feature) :=
  match items with
  | [] => Ok []
  | i :: rest =>
      feature <- make_feature db assets_kwargs exclude i ;;
      features <- make_geojson db rest assets_kwargs exclude ;;
      Ok (feature :: features)
  end.

End Documents.

(** ** [parse_fields_parameter] *)

(** An entry of the exclude list: a name, or a name with its sub-path. *)
Inductive excluded :=
| Name (left : string)
| Path (left : string) (sub : list string).

Definition parse_field (acc : list string * list excluded) (field : string)
  : list string * list excluded :=
  let (include, exclude) := acc in
  if startswith field "-" then
    let splitter := split "." field in
    let left := tail (hd "" splitter) in
    (include,
     exclude ++ [if (1 <? List.length splitter)%nat then Path left (tl splitter) else Name left])
  else (include ++ [field], exclude).

Definition parse_fields_parameter (fields : option string)
  : list string * list excluded :=
  match fields with
  | None => ([], [])
  | Some fields => fold_left parse_field (split "," fields) ([], [])
  end.

(** ** Vocabulary of the statements *)

(** Does the band carry resolution data. *)
Definition has_resolution (b : Band.t) : bool :=
  match Band.eo_resolutions b with Some _ => true | None => false end.

(** The first resolution entry of every band that has one. *)
Definition first_resolutions (bands : list Band.t) : list float :=
  flat_map (fun b => match Band.eo_resolutions b with
                     | Some (r :: _) => [r]
                     | _ => []
                     end) bands.

(** The asset keys with their hrefs. *)
Definition hrefs (assets : list (string * Asset.t)) : list (string * string) :=
  map (fun kv => (fst kv, Asset.href (snd kv))) assets.

(** The asset keys with their hrefs followed by [suffix]. *)
Definition suffixed_hrefs (suffix : string) (assets : list (string * Asset.t))
  : list (string * string) :=
  map (fun kv => (fst kv, Asset.href (snd kv) +++ suffix)) assets.

(** The steps of [get_collection_items] on the branch without [ids], each
    with the clauses it appends to the [where] list. *)

Definition both_collection_parameters (a : Args.t) : bool :=
  truthy_opt_str (Args.collection_id a)
  && match Args.collections a with Some c => truthy_sl c | None => false end.

(** The value of [collections] after [if collection_id: collections = [collection_id]]. *)
Definition effective_collections (a : Args.t) : option str_or_list :=
  match Args.collection_id a with
  | Some c => if truthy_str c then Some (Lst [c]) else Args.collections a
  | None => Args.collections a
  end.

Definition collection_clauses (db : DB) (a : Args.t) : list clause :=
  match effective_collections a with
  | Some c =>
      if truthy_sl c
      then [On_collection (Collection_id_in (resolve_collections db (as_list c)))]
      else []
  | None => []
  end.

Definition item_clauses (a : Args.t) : list clause :=
  match Args.item_id a with
  | Some item_id => [Item_name_like item_id]
  | None => []
  end.

Definition query_clauses (a : Args.t) : result (list clause) :=
  match Args.query a with
  | Some (kv :: q) => create_query_filter (kv :: q)
  | _ => Ok []
  end.

Definition geom_field_of (env : Env) : geom_field :=
  if BDC_STAC_USE_FOOTPRINT env then Item_footprint else Item_bbox.

Definition spatial_clauses (env : Env) (a : Args.t) : result (list clause) :=
  match Args.intersects a, Args.bbox a with
  | Some g, _ => Ok [ST_Intersects_GeoJSON (str env g) (geom_field_of env)]
  | None, Some bbox => bbox_filter env bbox (geom_field_of env)
  | None, None => Ok []
  end.

Definition date_clauses (a : Args.t) : result (list clause) :=
  match Args.datetime a with
  | Some datetime => date_filter datetime
  | None => Ok []
  end.

Definition roles_of (a : Args.t) : list string :=
  match Args.roles a with None => [] | Some r => r end.

(** Is [name] the identifier of some collection of the catalog. *)
Definition known (db : DB) (name : string) : bool :=
  existsb (fun c => String.eqb (Collection.identifier c) name) (db_collections db).

(** ** A small catalog, used to run the definitions *)

Module Sample.
Local Open Scope Z_scope.

(** The decimal digits of a string read as one number: on timestamps of one
    layout and zone this keeps their order. *)
Fixpoint digits (s : string) (acc : Z) : Z :=
  match s with
  | EmptyString => acc
  | String c s' =>
      let n := Z.of_nat (nat_of_ascii c) in
      if ((48 <=? n) && (n <=? 57))%Z then digits s' (10 * acc + (n - 48)) else digits s' acc
  end.

Fixpoint all_digits (s : string) : bool :=
  match s with
  | EmptyString => true
  | String c s' =>
      let n := Z.of_nat (nat_of_ascii c) in
      ((48 <=? n) && (n <=? 57))%Z && all_digits s'
  end.

Definition store : Store :=
  {| to_timestamp := fun s => digits s 0;
     st_intersects_geojson := fun _ g => match g with Some _ => true | None => false end;
     st_intersects_envelope :=
       fun _ _ _ _ _ g => match g with Some _ => true | None => false end;
     like := String.eqb;
     apply_method := fun _ _ _ => true |}.

Definition registry : list (string * string) :=
  [("eo", "https://stac-extensions.github.io/eo/v1.0.0/schema.json");
   ("sar", "https://stac-extensions.github.io/sar/v1.0.0/schema.json");
   ("processing", "https://stac-extensions.github.io/processing/v1.0.0/schema.json");
   ("storage", "https://stac-extensions.github.io/storage/v1.0.0/schema.json")].

Definition env : Env :=
  {| BDC_STAC_API_VERSION := "1.0.0";
     BDC_STAC_BASE_URL := "http://localhost:5005";
     BDC_STAC_FILE_ROOT := "http://localhost:5001";
     BDC_STAC_MAX_LIMIT := 1000;
     BDC_STAC_USE_FOOTPRINT := false;
     get_stac_extensions :=
       flat_map (fun n => match lookup n registry with Some u => [u] | None => [] end);
     request_headers := [];
     float_of_str :=
       fun s => if truthy_str s && all_digits s
                then Some (PrimFloat.of_uint63 (Uint63.of_Z (digits s 0)))
                else None;
     str := fun _ => "{'type': 'Point', 'coordinates': [-54, -12]}";
     urljoin_nonempty := fun base url => base +++ "/" +++ url;
     strftime := fun _ => "2020-01-01T00:00:00.000000Z";
     shape_mapping := fun g => VStr g;
     shape_bounds := fun _ => VList [VFloat (-55)%float; VFloat (-13)%float; VFloat (-53)%float; VFloat (-11)%float] |}.

Definition collection (id : Z) (name title : string) (is_public : bool) : Collection.t :=
  {| Collection.id := id;
     Collection.name := name;
     Collection.version := "1";
     Collection.identifier := name +++ "-1";
     Collection.title := title;
     Collection.category := "eo";
     Collection.collection_type := "cube";
     Collection.is_public := is_public;
     Collection.is_available := true |}.

(** Two public collections and an internal one, all available. *)
Definition S2 : Collection.t := collection 1 "S2" "Sentinel-2" true.
Definition L8 : Collection.t := collection 2 "L8" "Landsat-8 (internal)" false.
Definition DEM : Collection.t := collection 3 "DEM" "Elevation" true.

Definition tile : Tile.t := {| Tile.id := 100; Tile.name := "23LLG" |}.

Definition B04_asset : Asset.t :=
  {| Asset.href := "s3://bdc/S2/scene_B04.tif";
     Asset.fields := [("type", VStr "image/tiff")] |}.

(** An item of [S2] with a [storage:] key, from 2020-01-01 to 2020-01-16. *)
Definition S2_scene : Item.t :=
  {| Item.id := 10;
     Item.name := "S2_scene";
     Item.collection_id := 1;
     Item.tile_id := Some 100;
     Item.start_date := 20200101000000;
     Item.end_date := 20200116000000;
     Item.created := 20200201000000;
     Item.updated := 20200201000000;
     Item.cloud_cover := Some 10%float;
     Item.footprint := None;
     Item.bbox := Some "POLYGON";
     Item.metadata_ := Some [("storage:platform", VStr "AWS")];
     Item.assets := Some [("B04", B04_asset)];
     Item.is_available := true |}.

(** An item of the internal collection [L8]. *)
Definition L8_scene : Item.t :=
  {| Item.id := 20;
     Item.name := "L8_scene";
     Item.collection_id := 2;
     Item.tile_id := None;
     Item.start_date := 20200301000000;
     Item.end_date := 20200301000000;
     Item.created := 20200401000000;
     Item.updated := 20200401000000;
     Item.cloud_cover := None;
     Item.footprint := Some "POLYGON";
     Item.bbox := None;
     Item.metadata_ := None;
     Item.assets := None;
     Item.is_available := true |}.

Definition band (cid : Z) (cname name : string) (res : option (list float)) : Band.t :=
  {| Band.collection_id := cid;
     Band.collection_name := cname;
     Band.name := name;
     Band.common_name := Some name;
     Band.description := None;
     Band.min_value := Some 0%float;
     Band.max_value := Some 10000%float;
     Band.nodata := Some (-9999)%float;
     Band.scale_mult := Some 1%float;
     Band.scale_add := Some 0%float;
     Band.data_type := Some "int16";
     Band.properties := [];
     Band.eo_resolutions := res |}.

(** [S2] has two bands, with resolutions [30.0] and [10.0]; [L8] has none;
    [DEM] has one without resolution data and one whose first entry is
    negative. *)
Definition B04 : Band.t := band 1 "S2" "B04" (Some [30]%float).
Definition B08 : Band.t := band 1 "S2" "B08" (Some [10]%float).
Definition QA : Band.t := band 3 "DEM" "QA" None.
Definition elevation : Band.t := band 3 "DEM" "elevation" (Some [-5]%float).

Definition db : DB :=
  {| db_collections := [S2; L8; DEM];
     db_items := [S2_scene; L8_scene];
     db_tiles := [tile];
     db_bands := [B04; B08; QA; elevation];
     db_processors := [] |}.

(** A call of [get_collection_items] with the filters that matter here;
    the rest is left at its default. *)
Definition call (collection_id : option string) (ids collections : option str_or_list)
    (bbox : option Args.bbox_arg) (datetime : option string) : Args.t :=
  {| Args.collection_id := collection_id;
     Args.roles := None;
     Args.item_id := None;
     Args.bbox := bbox;
     Args.datetime := datetime;
     Args.ids := ids;
     Args.collections := collections;
     Args.intersects := None;
     Args.page := 1;
     Args.limit := 10;
     Args.query := None;
     Args.exclude := [] |}.

(** An explicit [ids] list together with both collection parameters. *)
Definition ids_and_both_collections : Args.t :=
  call (Some "S2-1") (Some (Lst ["S2_scene"])) (Some (Lst ["L8-1"])) None None.

(** Both collection parameters, no [ids]. *)
Definition both_collections : Args.t :=
  call (Some "S2-1") None (Some (Lst ["L8-1"])) None None.

(** An explicit [ids] list and every other filter. *)
Definition ids_and_filters : Args.t :=
  {| Args.collection_id := None;
     Args.roles := Some ["L8-1"];
     Args.item_id := Some "S2%";
     Args.bbox := Some (Args.Bbox_list [Args.Num 1%float; Args.Num 2%float;
                                        Args.Num 1%float; Args.Num 4%float]);
     Args.datetime := Some "2020-01-01T00:00:00Z/..";
     Args.ids := Some (Str "S2_scene,L8_scene");
     Args.collections := Some (Lst ["S2-1"]);
     Args.intersects := Some (VDict []);
     Args.page := 1;
     Args.limit := 10;
     Args.query := Some [("eo:cloud_cover", [("lte", VInt 50)])];
     Args.exclude := [] |}.

(** A degenerate box ([west == east]) next to an explicit [ids] list. *)
Definition ids_and_flat_bbox : Args.t :=
  call None (Some (Lst ["S2_scene"])) None
       (Some (Args.Bbox_list [Args.Num 1%float; Args.Num 2%float;
                              Args.Num 1%float; Args.Num 4%float]))
       None.

(** A proper box given as a string, with a time range. *)
Definition box_and_range : Args.t :=
  call None None None (Some (Args.Bbox_str "1,2,3,4"))
       (Some "2020-01-01T00:00:00Z/2020-02-01T00:00:00Z").

(** The clause of the range [2020-01-01T00:00:00Z/2020-02-01T00:00:00Z]. *)
Definition january : list clause :=
  [Or [And [Date Item_start_date GE "2020-01-01T00:00:00Z";
            Date Item_start_date LE "2020-02-01T00:00:00Z"];
       And [Date Item_end_date GE "2020-01-01T00:00:00Z";
            Date Item_end_date LE "2020-02-01T00:00:00Z"];
       And [Date Item_start_date LT "2020-01-01T00:00:00Z";
            Date Item_end_date GT "2020-02-01T00:00:00Z"]]].

(** A degenerate box ([south == north]). *)
Definition flat_box : Args.t :=
  call None None None
       (Some (Args.Bbox_list [Args.Num 1%float; Args.Num 2%float;
                              Args.Num 3%float; Args.Num 2%float]))
       None.

(** Identifiers no collection carries, next to an explicit [ids] list. *)
Definition ids_and_unknown_collections : Args.t :=
  call None (Some (Lst ["S2_scene"])) (Some (Lst ["nope-1"])) None None.

(** Identifiers no collection carries. *)
Definition unknown_collections : Args.t :=
  call None None (Some (Str "nope-1,nope-2")) None None.

(** An item whose [storage:platform] is the empty string. *)
Definition blank_platform_scene : Item.t :=
  {| Item.id := 30;
     Item.name := "blank_platform_scene";
     Item.collection_id := 1;
     Item.tile_id := None;
     Item.start_date := 20200101000000;
     Item.end_date := 20200116000000;
     Item.created := 20200201000000;
     Item.updated := 20200201000000;
     Item.cloud_cover := None;
     Item.footprint := None;
     Item.bbox := Some "POLYGON";
     Item.metadata_ := Some [("storage:platform", VStr "")];
     Item.assets := Some [("B04", B04_asset)];
     Item.is_available := true |}.

(** The rows of the two scenes of [S2] as the item search returns them,
    with the [assets] column. *)
Definition blank_platform_hit : Hit.t :=
  hit_of (mkQuery true [] 1 10 1000) (mkRow S2 blank_platform_scene None).

Definition S2_hit : Hit.t :=
  hit_of (mkQuery true [] 1 10 1000) (mkRow S2 S2_scene (Some tile)).

End Sample.

(** ** Further vocabulary *)

(** The number of occurrences of a character. *)
Fixpoint count (sep : ascii) (s : string) : nat :=
  match s with
  | EmptyString => 0
  | String c s' => (if Ascii.eqb c sep then 1 else 0) + count sep s'
  end.

(** The last character of a string. *)
Fixpoint last_char (s : string) : option ascii :=
  match s with
  | EmptyString => None
  | String c EmptyString => Some c
  | String _ s' => last_char s'
  end.

(** [n] slashes. *)
Fixpoint slashes (n : nat) : string :=
  match n with
  | 0 => EmptyString
  | S n' => String "/" (slashes n')
  end.

(** The call [a] with other values for [collection_id] and [collections]. *)
Definition with_collections (a : Args.t) (collection_id : option string)
    (collections : option str_or_list) : Args.t :=
  {| Args.collection_id := collection_id;
     Args.roles := Args.roles a;
     Args.item_id := Args.item_id a;
     Args.bbox := Args.bbox a;
     Args.datetime := Args.datetime a;
     Args.ids := Args.ids a;
     Args.collections := collections;
     Args.intersects := Args.intersects a;
     Args.page := Args.page a;
     Args.limit := Args.limit a;
     Args.query := Args.query a;
     Args.exclude := Args.exclude a |}.

(** The (property, operator, value) triples of a property query, in the
    order the two loops of [create_query_filter] visit them. *)
Definition operators (query : list (string * list (string * value)))
  : list (string * string * value) :=
  flat_map (fun cf => map (fun ov => (fst cf, fst ov, snd ov)) (snd cf)) query.

Definition known_operator (op : string) : bool :=
  match lookup op mapping with Some _ => true | None => false end.

(** The name of an exclude entry followed by the parts of its sub-path. *)
Definition excluded_parts (e : excluded) : list string :=
  match e with
  | Name n => [n]
  | Path n sub => n :: sub
  end.

(** The body of the loop of [get_item_processors]: the state is the root
    so far and the facility-to-version mapping so far. *)
Definition processors_step (st : option Processor.t * dict) (proc : Processor.t)
  : option Processor.t * dict :=
  (match fst st with
   | None => Some proc
   | Some r => if (Processor.level proc >? Processor.level r)%Z then Some proc else Some r
   end,
   set (snd st) (Processor.facility proc) (VStr (Processor.version proc))).

(** The parts of the feature that [make_feature] builds for a row, by the
    names the code gives them. *)

Definition feature_bands (db : DB) (i : Hit.t) : result (list dict) :=
  if String.eqb (Hit.category i) "eo" then
    r <- fst (get_collection_eo db (Hit.collection_id i)) ;;
    Ok (eo_bands r)
  else Ok [].

Definition feature_properties (env : Env) (db : DB) (i : Hit.t) : dict :=
  let properties :=
    [("datetime", VStr (strftime env (Hit.start i)));
     ("start_datetime", VStr (strftime env (Hit.start i)));
     ("end_datetime", VStr (strftime env (Hit.end_ i)));
     ("created", VStr (strftime env (Hit.created i)));
     ("updated", VStr (strftime env (Hit.updated i)))] in
  let properties :=
    update properties (match Hit.item_meta i with Some d => d | None => [] end) in
  let properties := update properties (get_item_processors db (Hit.id i)) in
  let properties :=
    match Hit.tile i with
    | Some t => if truthy_str t then set properties "bdc:tiles" (VList [VStr t]) else properties
    | None => properties
    end in
  if String.eqb (Hit.category i) "eo"
  then set properties "eo:cloud_cover" (opt_float (Hit.cloud_cover i))
  else properties.

Definition feature_extensions (env : Env) (db : DB) (i : Hit.t) : list string :=
  let extensions :=
    get_stac_extensions env [Hit.category i]
      ++ (match get_item_processors db (Hit.id i) with
          | [] => []
          | _ => get_stac_extensions env ["processing"]
          end) in
  match get (feature_properties env db i) "storage:platform" with
  | Some v => if truthy v then extensions ++ get_stac_extensions env ["storage"]
              else extensions
  | None => extensions
  end.

Definition feature_assets (env : Env) (assets_kwargs : string) (i : Hit.t)
    (bands : list dict) (stored : option (list (string * Asset.t)))
  : option (list (string * Asset.t)) :=
  match stored with
  | Some ((_ :: _) as l) =>
      Some (map (make_asset env (_resolve_item_file_root env i tt) assets_kwargs
                            (String.eqb (Hit.category i) "eo") bands) l)
  | _ => None
  end.

Definition built_feature (env : Env) (db : DB) (assets_kwargs : string) (i : Hit.t)
    (g : geometry) (bands : list dict) (stored : option (list (string * Asset.t)))
  : Feature :=
  {| f_type := Some "Feature";
     f_id := Some (Hit.item i);
     f_collection := Some (Hit.collection i);
     f_stac_version := Some (BDC_STAC_API_VERSION env);
     f_stac_extensions := Some (feature_extensions env db i);
     f_geometry := Some (shape_mapping env g);
     f_links := Some (make_links env i assets_kwargs);
     f_bbox := Some match Hit.bbox i with
                    | Some g0 => shape_bounds env g0
                    | None => VList []
                    end;
     f_assets := feature_assets env assets_kwargs i bands stored;
     f_properties := Some (feature_properties env db i) |}.

(** ** More calls and rows to run the definitions on *)

Module More.
Local Open Scope Z_scope.

(** An unknown operator next to a degenerate box. *)
Definition unknown_operator_and_flat_box : Args.t :=
  {| Args.collection_id := None;
     Args.roles := None;
     Args.item_id := None;
     Args.bbox := Some (Args.Bbox_list [Args.Num 1%float; Args.Num 2%float;
                                        Args.Num 1%float; Args.Num 4%float]);
     Args.datetime := None;
     Args.ids := None;
     Args.collections := None;
     Args.intersects := None;
     Args.page := 1;
     Args.limit := 10;
     Args.query := Some [("eo:cloud_cover", [("like", VInt 50)])];
     Args.exclude := [] |}.

(** A degenerate box next to a datetime with two slashes. *)
Definition flat_box_and_two_slashes : Args.t :=
  Sample.call None None None
    (Some (Args.Bbox_list [Args.Num 1%float; Args.Num 2%float;
                           Args.Num 1%float; Args.Num 4%float]))
    (Some "2020/2021/2022").

(** The collections [S2] and [L8] by name, and the role [L8-1]. *)
Definition two_collections : Args.t :=
  {| Args.collection_id := None;
     Args.roles := Some ["L8-1"];
     Args.item_id := None;
     Args.bbox := None;
     Args.datetime := None;
     Args.ids := None;
     Args.collections := Some (Str "S2-1,L8-1");
     Args.intersects := None;
     Args.page := 1;
     Args.limit := 10;
     Args.query := None;
     Args.exclude := [] |}.

(** A band whose free-form properties rename it. *)
Definition renamed_band : Band.t :=
  {| Band.collection_id := 1;
     Band.collection_name := "S2";
     Band.name := "B04";
     Band.common_name := Some "red";
     Band.description := None;
     Band.min_value := None;
     Band.max_value := None;
     Band.nodata := Some (-9999)%float;
     Band.scale_mult := None;
     Band.scale_add := None;
     Band.data_type := None;
     Band.properties := [("name", VStr "red"); ("center_wavelength", VFloat 0.5)];
     Band.eo_resolutions := Some [10%float] |}.

(** Three processing records of the item 10 and one of another item. *)
Definition sen2cor : Processor.t :=
  {| Processor.item_id := 10; Processor.name := "Sen2Cor"; Processor.facility := "INPE";
     Processor.level := 2; Processor.version := "2.8" |}.
Definition cube_builder : Processor.t :=
  {| Processor.item_id := 10; Processor.name := "cube-builder"; Processor.facility := "BDC";
     Processor.level := 4; Processor.version := "1.0" |}.
Definition cube_builder_again : Processor.t :=
  {| Processor.item_id := 10; Processor.name := "cube-builder-2"; Processor.facility := "BDC";
     Processor.level := 4; Processor.version := "1.1" |}.
Definition other_item : Processor.t :=
  {| Processor.item_id := 20; Processor.name := "LaSRC"; Processor.facility := "USGS";
     Processor.level := 9; Processor.version := "3" |}.

(** A row without footprint and without bounding box. *)
Definition no_geometry_hit : Hit.t :=
  {| Hit.collection := "S2-1";
     Hit.collection_type := "cube";
     Hit.category := "sar";
     Hit.item_meta := None;
     Hit.item := "bare";
     Hit.id := 40;
     Hit.collection_id := 1;
     Hit.start := 20200101000000;
     Hit.end_ := 20200101000000;
     Hit.created := 20200101000000;
     Hit.updated := 20200101000000;
     Hit.cloud_cover := None;
     Hit.footprint := None;
     Hit.bbox := None;
     Hit.tile := None;
     Hit.assets := Some None |}.

(** An item of [S2] without a [storage:] key, with a relative href. *)
Definition plain_scene : Item.t :=
  {| Item.id := 50;
     Item.name := "plain_scene";
     Item.collection_id := 1;
     Item.tile_id := Some 100;
     Item.start_date := 20200101000000;
     Item.end_date := 20200116000000;
     Item.created := 20200201000000;
     Item.updated := 20200201000000;
     Item.cloud_cover := None;
     Item.footprint := None;
     Item.bbox := Some "POLYGON";
     Item.metadata_ := Some [("platform", VStr "sentinel-2a");
                             ("eo:cloud_cover", VFloat 99%float);
                             ("datetime", VStr "overridden")];
     Item.assets :=
       Some [("B04", {| Asset.href := "/S2/plain_B04.tif"; Asset.fields := [] |});
             ("thumbnail", {| Asset.href := "/S2/plain.png"; Asset.fields := [] |})];
     Item.is_available := true |}.

Definition plain_hit : Hit.t :=
  hit_of (mkQuery true [] 1 10 1000) (mkRow Sample.S2 plain_scene (Some Sample.tile)).

(** A search that excludes [assets]. *)
Definition without_assets : Args.t :=
  {| Args.collection_id := None;
     Args.roles := None;
     Args.item_id := None;
     Args.bbox := None;
     Args.datetime := None;
     Args.ids := None;
     Args.collections := None;
     Args.intersects := None;
     Args.page := 1;
     Args.limit := 10;
     Args.query := None;
     Args.exclude := ["assets"] |}.

Definition db_with_processors : DB :=
  {| db_collections := db_collections Sample.db;
     db_items := db_items Sample.db;
     db_tiles := db_tiles Sample.db;
     db_bands := db_bands Sample.db;
     db_processors := [sen2cor; other_item; cube_builder; cube_builder_again] |}.

End More.

(** ** The documents of [get_collections] *)

(** The grid reference system of a collection. *)
Module Grs.
Record t := mk {
  name : string;
  crs : value
}.
End Grs.

(** The columns and relations of a collection that only [get_collections]
    reads; they are found by the id of the collection. *)
Module Detail.
Record t := mk {
  description : value;
  keywords : value;
  summaries : value;
  item_assets : value;
  temporal_composition_schema : value;
  providers : list dict;                (* [provider.to_dict()] of each provider *)
  properties : option dict;
  metadata_ : option dict;
  version_predecessor : option Z;
  version_successor : option Z;
  created : timestamp;
  updated : timestamp;
  start_date : option timestamp;
  end_date : option timestamp;
  spatial_extent : option geometry;
  grs : option Grs.t;
  composite_function : option string;   (* the name of the composite function *)
  timeline : option (list timestamp)    (* [time_inst] of each entry *)
}.
End Detail.

Record Catalog := mkCatalog {
  cat_db : DB;
  cat_detail : Z -> Detail.t;
  (** The rows of the quicklook query: the collection id and the names of
      the red, green and blue bands. *)
  cat_quicklook : list (Z * list string)
}.

(** What [get_collections] may raise: an exception of the functions above,
    or the [TypeError] of a value that is neither iterable nor indexed. *)
Inductive raised :=
| Exn (e : exn)
| TypeError.

Inductive outcome (A : Type) :=
| Returns (a : A)
| Raises (e : raised).
Arguments Returns {A} a.
Arguments Raises {A} e.

Definition and_then {A B} (o : outcome A) (k : A -> outcome B) : outcome B :=
  match o with
  | Returns a => k a
  | Raises e => Raises e
  end.

Notation "x <~ c1 ;; c2" := (and_then c1 (fun x => c2))
  (at level 61, c1 at next level, right associativity).

Definition raising {A} (r : result A) : outcome A :=
  match r with
  | Ok a => Returns a
  | Raise e => Raises (Exn e)
  end.

(** A [for] loop that collects one value per element. *)
Fixpoint for_each {A B} (f : A -> outcome B) (l : list A) : outcome (list B) :=
  match l with
  | [] => Returns []
  | a :: l' => b <~ f a ;; bs <~ for_each f l' ;; Returns (b :: bs)
  end.

(** [d.pop(k, default)]: the value and the dictionary that is left. *)
Definition dict_pop (d : dict) (k : string) (default : value) : value * dict :=
  (match get d k with Some v => v | None => default end,
   filter (fun kv => negb (String.eqb (fst kv) k)) d).

(** The elements that [list.extend(v)] appends: those of a list, the keys
    of a dictionary, the characters of a string. *)
Definition iterate (v : value) : outcome (list value) :=
  match v with
  | VList l => Returns l
  | VDict d => Returns (map (fun kv => VStr (fst kv)) d)
  | VStr s => Returns (map (fun c => VStr (String c EmptyString)) (list_ascii_of_string s))
  | _ => Raises TypeError
  end.

(** [v[n]] for [n] below ten. *)
Definition subscript (v : value) (n : nat) : outcome value :=
  match v with
  | VList l =>
      match nth_error l n with
      | Some x => Returns x
      | None => Raises (Exn IndexError)
      end
  | VStr s =>
      match String.get n s with
      | Some c => Returns (VStr (String c EmptyString))
      | None => Raises (Exn IndexError)
      end
  | VDict d => Raises (Exn (KeyError (String (ascii_of_nat (48 + n)) EmptyString)))
  | _ => Raises TypeError
  end.

(** How an f-string prints an optional string. *)
Definition format_str (o : option string) : string :=
  match o with
  | Some s => s
  | None => "None"
  end.

(** [collection_map.get(k)] for a dictionary built from rows by their id:
    the last row of an id is the one kept. *)
Definition map_get (collection_map : list Collection.t) (k : Z) : option Collection.t :=
  find (fun c => Z.eqb (Collection.id c) k) (rev collection_map).

(** [get_collection_crs] reads the grid and the properties of the
    collection. *)
Definition get_collection_crs (grs : option Grs.t) (properties : option dict) : value :=
  match grs with
  | Some g => Grs.crs g
  | None =>
      match properties with
      | Some p => match get p "bdc:crs" with Some v => v | None => VNone end
      | None => VNone
      end
  end.

Definition get_collection_quicklook (cat : Catalog) (collection_id : Z)
  : option (list string) :=
  match find (fun q => Z.eqb (fst q) collection_id) (cat_quicklook cat) with
  | Some quicklook_bands => Some (snd quicklook_bands)
  | None => None
  end.

Section Collections.
Variable env : Env.
(** [dt.fromisoformat(str(t)).strftime("%Y-%m-%d")] *)
Variable day : timestamp -> string.

Definition format_timeline (timeline : option (list timestamp)) : list string :=
  match timeline with
  | None => []
  | Some l => map day l
  end.

Definition _collection_link (collection : Collection.t) (rel : string)
    (qs : option string) : value :=
  VDict [("href", VStr (resolve_stac_url env tt +++ "/collections/"
                          +++ Collection.identifier collection +++ format_str qs));
         ("rel", VStr rel);
         ("type", VStr "application/json");
         ("title", VStr (Collection.title collection))].

(** [collection_extensions] of one row. *)
Definition collection_extensions (r : Collection.t) : list string :=
  (if String.eqb (Collection.collection_type r) "datacube" then ["datacube"] else [])
    ++ (if String.eqb (Collection.category r) "sar" || String.eqb (Collection.category r) "eo"
        then [Collection.category r] else []).

(** [successor], and the collection the predecessor link is built from. *)
Definition successor_of (collection_map : list Collection.t) (d : Detail.t)
  : option Collection.t :=
  match Detail.version_successor d with
  | Some k => map_get collection_map k
  | None => None
  end.

Definition predecessor_of (collection_map : list Collection.t) (d : Detail.t)
  : option Collection.t :=
  match Detail.version_predecessor d with
  | Some k => map_get collection_map k
  | None => None
  end.

(** [extra_links] before the links of the properties are appended. *)
Definition version_links (collection_map : list Collection.t) (assets_kwargs : option string)
    (d : Detail.t) : list value :=
  match successor_of collection_map d with
  | Some successor => [_collection_link successor "successor-version" assets_kwargs]
  | None => []
  end
  ++ match predecessor_of collection_map d with
     | Some predecessor => [_collection_link predecessor "predecessor-version" assets_kwargs]
     | None => []
     end.

(** [successor is not None or (meta and meta.get("deprecated", False))] *)
Definition deprecated_of (successor : option Collection.t) (meta : option dict) : value :=
  match successor with
  | Some _ => VBool true
  | None =>
      match meta with
      | None => VNone
      | Some [] => VDict []
      | Some m => match get m "deprecated" with Some v => v | None => VBool false end
      end
  end.

(** [start] and [end]. *)
Definition temporal_interval (d : Detail.t) : value * value :=
  match Detail.start_date d with
  | Some s =>
      (VStr (strftime env s),
       match Detail.end_date d with
       | Some e => VStr (strftime env e)
       | None => VNone
       end)
  | None => (VNone, VNone)
  end.

(** [bbox] *)
Definition spatial_bbox (d : Detail.t) : value :=
  match Detail.spatial_extent d with
  | Some g => shape_bounds env g
  | None => VList [VNone; VNone; VNone; VNone]
  end.

(** The four links every collection document starts with. *)
Definition own_links (r : Collection.t) (assets_kwargs : option string) : list value :=
  [VDict [("href", VStr (resolve_stac_url env tt +++ "/collections/"
                           +++ Collection.identifier r +++ format_str assets_kwargs));
          ("rel", VStr "self");
          ("type", VStr "application/json");
          ("title", VStr "Link to this document")];
   VDict [("href", VStr (resolve_stac_url env tt +++ "/collections/"
                           +++ Collection.identifier r +++ "/items"
                           +++ format_str assets_kwargs));
          ("rel", VStr "items");
          ("type", VStr "application/json");
          ("title", VStr ("Items of the collection " +++ Collection.identifier r))];
   VDict [("href", VStr (resolve_stac_url env tt +++ "/collections"
                           +++ format_str assets_kwargs));
          ("rel", VStr "parent");
          ("type", VStr "application/json");
          ("title", VStr "Link to catalog collections")];
   VDict [("href", VStr (resolve_stac_url env tt +++ "/" +++ format_str assets_kwargs));
          ("rel", VStr "root");
          ("type", VStr "application/json");
          ("title", VStr "API landing page (root catalog)")]].

(** [[band["name"] for band in collection_eo["eo:bands"]]] *)
Definition band_names (bands : list dict) : outcome (list value) :=
  for_each (fun band =>
              match get band "name" with
              | Some v => Returns v
              | None => Raises (Exn (KeyError "name"))
              end)
           bands.

(** The dictionary [datacube] of a collection of type [cube]. *)
Definition cube_dimensions (d : Detail.t) (bbox proj4text start end_ : value)
    (collection_eo : option EO) : outcome dict :=
  x0 <~ subscript bbox 0 ;;
  x1 <~ subscript bbox 2 ;;
  y0 <~ subscript bbox 1 ;;
  y1 <~ subscript bbox 3 ;;
  let datacube :=
    [("x", VDict [("type", VStr "spatial"); ("axis", VStr "x");
                  ("extent", VList [x0; x1]); ("reference_system", proj4text)]);
     ("y", VDict [("type", VStr "spatial"); ("axis", VStr "y");
                  ("extent", VList [y0; y1]); ("reference_system", proj4text)]);
     ("temporal", VDict [("type", VStr "temporal"); ("extent", VList [start; end_]);
                         ("values", VList (map VStr (format_timeline (Detail.timeline d))))])] in
  match collection_eo with                       (* if category == "eo" *)
  | Some eo =>
      values <~ band_names (eo_bands eo) ;;
      Returns (set datacube "bands" (VDict [("type", VStr "bands"); ("values", VList values)]))
  | None => Returns datacube
  end.

(** The body of the loop of [get_collections] for one row.  The dictionary
    under [collection["properties"]] is the one the later statements
    change, so it is written to the document when they are done. *)
Definition collection_document (cat : Catalog) (collection_map : list Collection.t)
    (assets_kwargs : option string) (r : Collection.t) : outcome dict :=
  let d := cat_detail cat (Collection.id r) in
  let category := Collection.category r in
  let providers := map VDict (Detail.providers d) in
  let successor := successor_of collection_map d in
  let extra_links := version_links collection_map assets_kwargs d in
  let meta := Detail.metadata_ d in
  let deprecated := deprecated_of successor meta in
  let stac_extensions :=
    get_stac_extensions env ["version"; "processing"; "item-assets"]
      ++ get_stac_extensions env (collection_extensions r) in
  let properties :=
    match Detail.properties d with
    | Some ((_ :: _) as p) => p
    | _ => []
    end in
  let collection :=
    [("id", VStr (Collection.identifier r));
     ("type", VStr "Collection");
     ("stac_version", VStr (BDC_STAC_API_VERSION env));
     ("stac_extensions", VList (map VStr stac_extensions));
     ("title", VStr (Collection.title r));
     ("version", VStr (Collection.version r));
     ("deprecated", deprecated);
     ("description", Detail.description d);
     ("keywords", Detail.keywords d);
     ("providers", VList providers);
     ("summaries", Detail.summaries d);
     ("item_assets", Detail.item_assets d);
     ("properties", VDict properties);
     ("bdc:type", VStr (Collection.collection_type r))] in
  let properties := set properties "created" (VStr (strftime env (Detail.created d))) in
  let properties := set properties "updated" (VStr (strftime env (Detail.updated d))) in
  let collection :=
    match Detail.grs d with
    | Some g => set collection "bdc:grs" (VStr (Grs.name g))
    | None => collection
    end in
  let collection :=
    match Detail.composite_function d with
    | Some name => set collection "bdc:composite_function" (VStr name)
    | None => collection
    end in
  let collection := set collection "license" (fst (dict_pop properties "license" (VStr ""))) in
  let properties := snd (dict_pop properties "license" (VStr "")) in
  property_links <~ iterate (fst (dict_pop properties "links" (VList []))) ;;
  let extra_links := extra_links ++ property_links in
  let properties := snd (dict_pop properties "links" (VList [])) in
  let bbox := spatial_bbox d in
  let start := fst (temporal_interval d) in
  let end_ := snd (temporal_interval d) in
  let collection :=
    set collection "extent"
        (VDict [("spatial", VDict [("bbox", VList [bbox])]);
                ("temporal", VDict [("interval", VList [VList [start; end_]])])]) in
  let collection :=
    match get_collection_quicklook cat (Collection.id r) with
    | Some quicklooks => set collection "bdc:bands_quicklook" (VList (map VStr quicklooks))
    | None => collection
    end in
  collection_eo <~ (if String.eqb category "eo"
                    then eo <~ raising (fst (get_collection_eo (cat_db cat) (Collection.id r))) ;;
                         Returns (Some eo)
                    else Returns None) ;;
  let properties :=
    match collection_eo with
    | Some eo => update properties [("eo:gsd", VFloat (eo_gsd eo));
                                    ("eo:bands", VList (map VDict (eo_bands eo)))]
    | None => properties
    end in
  let collection :=
    match meta with
    | Some ((_ :: _) as m) => set collection "bdc:metadata" (VDict m)
    | _ => collection
    end in
  cube <~ (if String.eqb (Collection.collection_type r) "cube"
           then
             let proj4text :=
               get_collection_crs (Detail.grs d)
                 match Detail.properties d with
                 | Some (_ :: _) => Some properties     (* the dictionary changed above *)
                 | stored => stored
                 end in
             datacube <~ cube_dimensions d bbox proj4text start end_ collection_eo ;;
             Returns
               (set (set (set collection "cube:dimensions" (VDict datacube))
                         "bdc:crs" proj4text)
                    "bdc:temporal_composition" (Detail.temporal_composition_schema d),
                stac_extensions ++ get_stac_extensions env ["datacube"])
           else Returns (collection, stac_extensions)) ;;
  let collection := set (fst cube) "stac_extensions" (VList (map VStr (snd cube))) in
  let collection := set collection "properties" (VDict properties) in
  Returns (set collection "links" (VList (own_links r assets_kwargs ++ extra_links))).

(** [collection_map] *)
Definition collection_map (cat : Catalog) (collection_id : option string)
    (roles : option (list string)) : list Collection.t :=
  let result := get_collections_rows (cat_db cat) collection_id roles in
  if truthy_opt_str collection_id && match result with [] => false | _ => true end
  then
    let roles := match roles with None => [] | Some r => r end in
    select_collections (cat_db cat) [Collection_is_available; _add_roles_constraint roles]
  else result.

Definition get_collections (cat : Catalog) (collection_id : option string)
    (roles : option (list string)) (assets_kwargs : option string) : outcome (list dict) :=
  let result := get_collections_rows (cat_db cat) collection_id roles in
  for_each (collection_document cat (collection_map cat collection_id roles) assets_kwargs)
           result.

End Collections.

(** ** Vocabulary of the collection documents *)

(** [r.Collection.properties or {}] *)
Definition stored_properties (d : Detail.t) : dict :=
  match Detail.properties d with
  | Some p => p
  | None => []
  end.

(** The value under [key] of the stored properties, or [default]. *)
Definition stored (d : Detail.t) (key : string) (default : value) : value :=
  match get (stored_properties d) key with
  | Some v => v
  | None => default
  end.

Definition is_eo (r : Collection.t) : bool := String.eqb (Collection.category r) "eo".

Definition is_cube (r : Collection.t) : bool :=
  String.eqb (Collection.collection_type r) "cube".

(** The roles as the controller reads them: no roles are the empty list. *)
Definition roles_or_empty (roles : option (list string)) : list string :=
  match roles with
  | Some r => r
  | None => []
  end.

(** [collection_eo], for a collection of category [eo]. *)
Definition collection_summary (cat : Catalog) (r : Collection.t) : outcome (option EO) :=
  if is_eo r
  then eo <~ raising (fst (get_collection_eo (cat_db cat) (Collection.id r))) ;;
       Returns (Some eo)
  else Returns None.

(** The dictionary under [collection["properties"]] when the document is
    done. *)
Definition document_properties (env : Env) (d : Detail.t) (collection_eo : option EO)
  : dict :=
  let properties :=
    set (set (stored_properties d) "created" (VStr (strftime env (Detail.created d))))
        "updated" (VStr (strftime env (Detail.updated d))) in
  let properties :=
    snd (dict_pop (snd (dict_pop properties "license" (VStr ""))) "links" (VList [])) in
  match collection_eo with
  | Some eo => update properties [("eo:gsd", VFloat (eo_gsd eo));
                                  ("eo:bands", VList (map VDict (eo_bands eo)))]
  | None => properties
  end.

(** Can [list.extend] walk over the value. *)
Definition iterable (v : value) : bool :=
  match v with
  | VList _ | VDict _ | VStr _ => true
  | _ => false
  end.

(** The name a band entry carries: the [name] of its properties, else the
    column. *)
Definition entry_name (band : Band.t) : value :=
  match get (rev (Band.properties band)) "name" with
  | Some v => v
  | None => VStr (Band.name band)
  end.

(** A catalog around the collections of [Sample], to run the listing. *)
Module Listing.
Local Open Scope Z_scope.

(** A collection with nothing but its dates of creation and update. *)
Definition plain : Detail.t :=
  {| Detail.description := VNone;
     Detail.keywords := VNone;
     Detail.summaries := VNone;
     Detail.item_assets := VNone;
     Detail.temporal_composition_schema := VNone;
     Detail.providers := [];
     Detail.properties := None;
     Detail.metadata_ := None;
     Detail.version_predecessor := None;
     Detail.version_successor := None;
     Detail.created := 20200101000000;
     Detail.updated := 20200102000000;
     Detail.start_date := None;
     Detail.end_date := None;
     Detail.spatial_extent := None;
     Detail.grs := None;
     Detail.composite_function := None;
     Detail.timeline := None |}.

(** [S2] is succeeded by the internal [L8] and preceded by [DEM]; it has an
    end date without a start date, a license, a link and a CRS among its
    properties, and metadata that call it not deprecated. *)
Definition S2_detail : Detail.t :=
  {| Detail.description := VStr "Sentinel-2 cube";
     Detail.keywords := VNone;
     Detail.summaries := VNone;
     Detail.item_assets := VNone;
     Detail.temporal_composition_schema := VNone;
     Detail.providers := [];
     Detail.properties :=
       Some [("license", VStr "CC-BY-4.0");
             ("links", VList [VDict [("href", VStr "https://example.org/license");
                                     ("rel", VStr "license")]]);
             ("created", VStr "stale");
             ("bdc:crs", VStr "+proj=aea")];
     Detail.metadata_ := Some [("deprecated", VBool false)];
     Detail.version_predecessor := Some 3;
     Detail.version_successor := Some 2;
     Detail.created := 20200101000000;
     Detail.updated := 20200102000000;
     Detail.start_date := None;
     Detail.end_date := Some 20201231000000;
     Detail.spatial_extent := None;
     Detail.grs := None;
     Detail.composite_function := None;
     Detail.timeline := Some [20200101000000; 20200117000000] |}.

Definition catalog : Catalog :=
  {| cat_db := Sample.db;
     cat_detail := fun id => if id =? 1 then S2_detail else plain;
     cat_quicklook := [(1, ["B04"; "B08"; "B04"])] |}.

Definition day : timestamp -> string := fun _ => "2020-01-01".

End Listing.

(** The anonymous listing of [Listing.catalog], and the listing for the
    role [L8-1]. *)
Definition anonymous_listing : list dict :=
  match get_collections Sample.env Listing.day Listing.catalog None None (Some "") with
  | Returns docs => docs
  | Raises _ => []
  end.

Definition insider_listing : list dict :=
  match get_collections Sample.env Listing.day Listing.catalog None (Some ["L8-1"])
                        (Some "") with
  | Returns docs => docs
  | Raises _ => []
  end.

(** * Properties *)

(** ** Strings *)

Lemma split_not_nil (sep : ascii) (s : string) : split sep s <> [].
Proof.
  induction s as [|c s IH]; simpl; [discriminate|].
  destruct (Ascii.eqb c sep); [discriminate|].
  destruct (split sep s); discriminate.
Qed.

Lemma split_without_sep (sep : ascii) (s : string) :
  contains sep s = false -> split sep s = [s].
Proof.
  induction s as [|c s IH]; simpl; [reflexivity|].
  destruct (Ascii.eqb c sep); simpl; [discriminate|].
  intros H. now rewrite (IH H).
Qed.

Lemma split_at_sep (sep : ascii) (a b : string) :
  contains sep a = false -> split sep (a +++ String sep b) = a :: split sep b.
Proof.
  induction a as [|c a IH]; simpl.
  - intros _. now rewrite Ascii.eqb_refl.
  - destruct (Ascii.eqb c sep); simpl; [discriminate|].
    intros H. now rewrite (IH H).
Qed.

Lemma contains_at_sep (sep : ascii) (a b : string) :
  contains sep (a +++ String sep b) = true.
Proof.
  induction a as [|c a IH]; simpl.
  - now rewrite Ascii.eqb_refl.
  - rewrite IH. apply orb_true_r.
Qed.

Lemma mem_open_false (s : string) :
  s <> ".." -> s <> "" -> mem s [".."; ""] = false.
Proof.
  intros H1 H2. unfold mem; simpl.
  apply String.eqb_neq in H1, H2. now rewrite H1, H2.
Qed.

Lemma mem_In (x : string) (l : list string) : mem x l = true <-> In x l.
Proof.
  unfold mem. rewrite existsb_exists. split.
  - intros [y [Hy E]]. apply String.eqb_eq in E. now subst.
  - intros H. exists x. split; [assumption | apply String.eqb_refl].
Qed.

Lemma mem_Z_In (x : Z) (l : list Z) : mem_Z x l = true <-> In x l.
Proof.
  unfold mem_Z. rewrite existsb_exists. split.
  - intros [y [Hy E]]. apply Z.eqb_eq in E. now subst.
  - intros H. exists x. split; [assumption | apply Z.eqb_refl].
Qed.

(** ** The role constraint *)

(** What [_add_roles_constraint] decides on a collection: public, or named
    by a role list that holds no wildcard. *)
Lemma roles_constraint_holds (roles : list string) (c : Collection.t) :
  cholds (_add_roles_constraint roles) c
  = Collection.is_public c || (negb (mem "*" roles) && mem (Collection.identifier c) roles).
Proof.
  unfold _add_roles_constraint.
  destruct (mem "*" roles); simpl.
  - now rewrite !orb_false_r.
  - destruct roles as [|x roles]; simpl; now rewrite ?orb_false_r.
Qed.

Lemma roles_constraint_without_wildcard (roles : list string) (c : Collection.t) :
  mem "*" roles = false ->
  cholds (_add_roles_constraint roles) c
  = Collection.is_public c || mem (Collection.identifier c) roles.
Proof.
  intros H. now rewrite roles_constraint_holds, H.
Qed.

Lemma roles_constraint_with_wildcard (roles : list string) (c : Collection.t) :
  mem "*" roles = true ->
  cholds (_add_roles_constraint roles) c = Collection.is_public c.
Proof.
  intros H. rewrite roles_constraint_holds, H. simpl. apply orb_false_r.
Qed.

Lemma roles_constraint_empty (c : Collection.t) :
  cholds (_add_roles_constraint []) c = Collection.is_public c.
Proof.
  rewrite roles_constraint_holds. simpl. apply orb_false_r.
Qed.

(** C2, at the input where the code departs from it: under the role list
    [["*"]] the constraint is the public flag alone, so the available but
    internal collection [L8] is not visible and [get_collections] does not
    return it, although the claim (and the docstring of
    [_add_roles_constraint]) gives the wildcard access to every collection. *)
Theorem C2_wildcard_role_hides_internal_collection :
  Collection.is_public Sample.L8 = false
  /\ Collection.is_available Sample.L8 = true
  /\ _add_roles_constraint ["*"] = or_ [Collection_is_public]
  /\ cholds (_add_roles_constraint ["*"]) Sample.L8 = false
  /\ get_collections_rows Sample.db None (Some ["*"]) = [Sample.S2; Sample.DEM]
  /\ get_catalog Sample.db (Some ["*"]) = [Sample.S2; Sample.DEM].
Proof.
  repeat split; reflexivity.
Qed.

(** ** The item search: parameter combination and [ids] *)

(** C1 as stated fails: with an explicit [ids] list, a call that supplies
    both [collection_id] and [collections] is not rejected; it returns the
    query that filters on the item names. *)
Lemma C1_ids_skip_the_combination_check :
  Args.collection_id Sample.ids_and_both_collections = Some "S2-1"
  /\ Args.collections Sample.ids_and_both_collections = Some (Lst ["L8-1"])
  /\ Args.ids Sample.ids_and_both_collections = Some (Lst ["S2_scene"])
  /\ get_collection_items Sample.env Sample.db Sample.ids_and_both_collections
     = Ok {| q_assets_column := true;
             q_where := base_where [] ++ [Item_name_in ["S2_scene"]];
             q_page := 1;
             q_per_page := 10;
             q_max_per_page := 1000 |}
  /\ get_collection_items Sample.env Sample.db Sample.ids_and_both_collections
     <> Raise (Abort 400 Use_collection_id_or_collections).
Proof.
  repeat split; try reflexivity. discriminate.
Qed.

(** C1 (amended): when no explicit [ids] list is supplied and both a
    non-empty [collection_id] and a non-empty [collections] are, the call
    fails with the 400 abort "Use collection_id or collections", whatever the
    other parameters are. *)
Theorem C1_both_collection_parameters_rejected
    (env : Env) (db : DB) (a : Args.t) (collection_id : string)
    (collections : str_or_list) :
  Args.ids a = None ->
  Args.collection_id a = Some collection_id ->
  truthy_str collection_id = true ->
  Args.collections a = Some collections ->
  truthy_sl collections = true ->
  get_collection_items env db a = Raise (Abort 400 Use_collection_id_or_collections).
Proof.
  intros Hids Hc Hct Hcs Hcst.
  unfold get_collection_items.
  rewrite Hids, Hc, Hcs. simpl. now rewrite Hct, Hcst.
Qed.

(** Both parameters, each naming one collection, and no [ids]. *)
Lemma C1_both_collection_parameters_rejected_witness :
  get_collection_items Sample.env Sample.db Sample.both_collections
  = Raise (Abort 400 Use_collection_id_or_collections).
Proof.
  apply (C1_both_collection_parameters_rejected
           Sample.env Sample.db Sample.both_collections "S2-1" (Lst ["L8-1"]));
    reflexivity.
Defined.

(** C4: with an explicit [ids] list the call returns a query whose [where]
    list is the four base constraints (join, collection and item
    availability, role visibility) followed by the membership of the item
    name in [ids]; no other parameter than [roles] enters it, and a row
    satisfies it exactly when those five conditions hold. *)
Theorem C4_ids_override_other_filters
    (env : Env) (st : Store) (db : DB) (a : Args.t) (ids : str_or_list) :
  Args.ids a = Some ids ->
  exists q,
    get_collection_items env db a = Ok q
    /\ q_where q
       = base_where (match Args.roles a with None => [] | Some r => r end)
           ++ [Item_name_in (as_list ids)]
    /\ (forall a',
          Args.ids a' = Args.ids a -> Args.roles a' = Args.roles a ->
          Args.exclude a' = Args.exclude a ->
          Args.page a' = Args.page a -> Args.limit a' = Args.limit a ->
          get_collection_items env db a' = Ok q)
    /\ (forall r,
          holds_all st (q_where q) r
          = (Collection.id (r_collection r) =? Item.collection_id (r_item r))%Z
            && Collection.is_available (r_collection r)
            && Item.is_available (r_item r)
            && cholds (_add_roles_constraint
                         (match Args.roles a with None => [] | Some r => r end))
                      (r_collection r)
            && mem (Item.name (r_item r)) (as_list ids)).
Proof.
  intros Hids.
  eexists. split; [|split; [|split]].
  - unfold get_collection_items. rewrite Hids. simpl. reflexivity.
  - reflexivity.
  - intros a' E1 E2 E3 E4 E5.
    unfold get_collection_items. rewrite E1, E2, E3, E4, E5, Hids. reflexivity.
  - intros r. simpl. unfold holds_all. simpl.
    rewrite andb_true_r, !andb_assoc. reflexivity.
Qed.

(** A call with [ids] and every other filter, a degenerate box among them. *)
Lemma C4_ids_override_other_filters_witness :
  exists q,
    get_collection_items Sample.env Sample.db Sample.ids_and_filters = Ok q
    /\ q_where q = base_where ["L8-1"] ++ [Item_name_in ["S2_scene"; "L8_scene"]].
Proof.
  destruct (C4_ids_override_other_filters
              Sample.env Sample.store Sample.db Sample.ids_and_filters
              (Str "S2_scene,L8_scene") eq_refl) as [q [H1 [H2 _]]].
  exists q. split; [exact H1 | exact H2].
Defined.

(** ** The temporal filter *)

Lemma date_filter_range (time_start time_end : string) :
  contains "/" time_start = false ->
  contains "/" time_end = false ->
  date_filter (time_start +++ "/" +++ time_end)
  = if mem time_start [".."; ""] then
      Ok [Or [Date Item_start_date LE time_end; Date Item_end_date LE time_end]]
    else if mem time_end [".."; ""] then
      Ok [Or [Date Item_start_date GE time_start; Date Item_end_date GE time_start]]
    else
      Ok [Or [And [Date Item_start_date GE time_start; Date Item_start_date LE time_end];
              And [Date Item_end_date GE time_start; Date Item_end_date LE time_end];
              And [Date Item_start_date LT time_start; Date Item_end_date GT time_end]]].
Proof.
  intros H1 H2. unfold date_filter.
  change ("/" +++ time_end) with (String "/" time_end).
  rewrite contains_at_sep, (split_at_sep _ _ _ H1), (split_without_sep _ _ H2).
  reflexivity.
Qed.

(** C3: the predicate the temporal filter puts on an item's interval
    [start, end]: for a single timestamp [t], [start <= t <= end]; for an
    open start ([../T2] or [/T2]), [start <= T2] or [end <= T2]; for an open
    end ([T1/..] or [T1/]), [start >= T1] or [end >= T1]; for a closed range
    [T1/T2], [start] in [T1, T2], or [end] in [T1, T2], or [start < T1] and
    [end > T2].  Timestamps are strings without [/]; a bound is neither [..]
    nor empty. *)
Theorem C3_temporal_range_predicate (st : Store) (r : row) :
  (forall t,
      contains "/" t = false ->
      exists cs,
        date_filter t = Ok cs
        /\ holds_all st cs r
           = (Item.start_date (r_item r) <=? to_timestamp st t)%Z
             && (to_timestamp st t <=? Item.end_date (r_item r))%Z)
  /\ (forall opn T2,
         In opn [".."; ""] -> contains "/" T2 = false ->
         exists cs,
           date_filter (opn +++ "/" +++ T2) = Ok cs
           /\ holds_all st cs r
              = (Item.start_date (r_item r) <=? to_timestamp st T2)%Z
                || (Item.end_date (r_item r) <=? to_timestamp st T2)%Z)
  /\ (forall T1 opn,
         contains "/" T1 = false -> T1 <> ".." -> T1 <> "" -> In opn [".."; ""] ->
         exists cs,
           date_filter (T1 +++ "/" +++ opn) = Ok cs
           /\ holds_all st cs r
              = (to_timestamp st T1 <=? Item.start_date (r_item r))%Z
                || (to_timestamp st T1 <=? Item.end_date (r_item r))%Z)
  /\ (forall T1 T2,
         contains "/" T1 = false -> T1 <> ".." -> T1 <> "" ->
         contains "/" T2 = false -> T2 <> ".." -> T2 <> "" ->
         exists cs,
           date_filter (T1 +++ "/" +++ T2) = Ok cs
           /\ holds_all st cs r
              = ((to_timestamp st T1 <=? Item.start_date (r_item r))%Z
                 && (Item.start_date (r_item r) <=? to_timestamp st T2)%Z)
                || ((to_timestamp st T1 <=? Item.end_date (r_item r))%Z
                    && (Item.end_date (r_item r) <=? to_timestamp st T2)%Z)
                || ((Item.start_date (r_item r) <? to_timestamp st T1)%Z
                    && (to_timestamp st T2 <? Item.end_date (r_item r))%Z)).
Proof.
  repeat split.
  - intros t Ht. eexists. split.
    + unfold date_filter. rewrite Ht. reflexivity.
    + unfold holds_all. simpl. rewrite Z.geb_leb, !andb_true_r. reflexivity.
  - intros opn T2 Hopn HT2.
    assert (Hc : contains "/" opn = false)
      by (destruct Hopn as [<-|[<-|[]]]; reflexivity).
    apply mem_In in Hopn.
    eexists. split.
    + rewrite (date_filter_range _ _ Hc HT2), Hopn. reflexivity.
    + unfold holds_all. simpl. rewrite !orb_false_r, andb_true_r. reflexivity.
  - intros T1 opn HT1 N1 N2 Hopn.
    assert (Hc : contains "/" opn = false)
      by (destruct Hopn as [<-|[<-|[]]]; reflexivity).
    apply mem_In in Hopn.
    eexists. split.
    + rewrite (date_filter_range _ _ HT1 Hc), (mem_open_false _ N1 N2), Hopn. reflexivity.
    + unfold holds_all. simpl.
      rewrite !Z.geb_leb, !orb_false_r, andb_true_r. reflexivity.
  - intros T1 T2 HT1 N1 N2 HT2 M1 M2.
    eexists. split.
    + rewrite (date_filter_range _ _ HT1 HT2), (mem_open_false _ N1 N2),
        (mem_open_false _ M1 M2). reflexivity.
    + unfold holds_all. simpl.
      rewrite !Z.geb_leb, Z.gtb_ltb, !orb_false_r, !andb_true_r, orb_assoc. reflexivity.
Qed.

(** The four readings on the item [S2_scene] (start 2020-01-01, end
    2020-01-16): a timestamp inside the interval, an open start, an open end
    and a closed range that the item spans. *)
Lemma C3_temporal_range_predicate_witness :
  (exists cs,
      date_filter "2020-01-05T00:00:00Z" = Ok cs
      /\ holds_all Sample.store cs (mkRow Sample.S2 Sample.S2_scene None) = true)
  /\ (exists cs,
         date_filter "../2019-12-31T00:00:00Z" = Ok cs
         /\ holds_all Sample.store cs (mkRow Sample.S2 Sample.S2_scene None) = false)
  /\ (exists cs,
         date_filter "2020-01-10T00:00:00Z/" = Ok cs
         /\ holds_all Sample.store cs (mkRow Sample.S2 Sample.S2_scene None) = true)
  /\ (exists cs,
         date_filter "2020-01-05T00:00:00Z/2020-01-06T00:00:00Z" = Ok cs
         /\ holds_all Sample.store cs (mkRow Sample.S2 Sample.S2_scene None) = true).
Proof.
  destruct (C3_temporal_range_predicate
              Sample.store (mkRow Sample.S2 Sample.S2_scene None))
    as [H1 [H2 [H3 H4]]].
  split; [|split; [|split]].
  - exact (H1 "2020-01-05T00:00:00Z" eq_refl).
  - exact (H2 ".." "2019-12-31T00:00:00Z" (or_introl eq_refl) eq_refl).
  - exact (H3 "2020-01-10T00:00:00Z" "" eq_refl
              ltac:(discriminate) ltac:(discriminate) (or_intror (or_introl eq_refl))).
  - exact (H4 "2020-01-05T00:00:00Z" "2020-01-06T00:00:00Z" eq_refl
              ltac:(discriminate) ltac:(discriminate) eq_refl
              ltac:(discriminate) ltac:(discriminate)).
Defined.

(** ** Field selection *)

Lemma contains_append (sep : ascii) (a b : string) :
  contains sep (a +++ b) = contains sep a || contains sep b.
Proof.
  induction a as [|c a IH]; simpl; [reflexivity|].
  now rewrite IH, orb_assoc.
Qed.

Lemma startswith_dash (s : string) : startswith (String "-" s) "-" = true.
Proof.
  unfold startswith. simpl. now destruct s.
Qed.

(** The include list is made of the fields without a leading [-], in order. *)
Lemma parse_fields_include (fields : list string) (acc : list string * list excluded) :
  fst (fold_left parse_field fields acc)
  = fst acc ++ filter (fun f => negb (startswith f "-")) fields.
Proof.
  revert acc. induction fields as [|f fields IH]; intros [inc exc]; simpl.
  - now rewrite app_nil_r.
  - rewrite IH. unfold parse_field.
    destruct (startswith f "-"); simpl; [reflexivity|].
    now rewrite <- app_assoc.
Qed.

(** C8 as stated fails on the empty string: it is not [None], so it is
    split into the single field [""], which lands in the include list. *)
Lemma C8_empty_string_is_a_field :
  parse_fields_parameter (Some "") = ([""], [])
  /\ parse_fields_parameter (Some "") <> ([], []).
Proof.
  split; [reflexivity | discriminate].
Qed.

(** C8 (amended): [parse_fields_parameter] splits the string at commas;
    fields without a leading [-] make the include list, a field with a
    leading [-] is excluded, as a name or, when dotted, as a name with its
    sub-path: ["a,-b,-c.d"] gives include [["a"]] and exclude
    [["b"; ("c", ["d"])]].  Absent input ([None]) gives two empty lists. *)
Theorem C8_parse_fields_parameter :
  parse_fields_parameter (Some "a,-b,-c.d") = (["a"], [Name "b"; Path "c" ["d"]])
  /\ parse_fields_parameter None = ([], [])
  /\ (forall fields,
         fst (parse_fields_parameter (Some fields))
         = filter (fun f => negb (startswith f "-")) (split "," fields))
  /\ (forall name,
         contains "," name = false -> contains "." name = false ->
         parse_fields_parameter (Some ("-" +++ name)) = ([], [Name name]))
  /\ (forall name sub,
         contains "," name = false -> contains "." name = false ->
         contains "," sub = false ->
         parse_fields_parameter (Some ("-" +++ name +++ "." +++ sub))
         = ([], [Path name (split "." sub)])).
Proof.
  split; [reflexivity | split; [reflexivity | split; [|split]]].
  - intros fields. unfold parse_fields_parameter. now rewrite parse_fields_include.
  - intros name Hc Hd. unfold parse_fields_parameter.
    rewrite split_without_sep by (simpl; exact Hc).
    cbn [fold_left]. unfold parse_field.
    change ("-" +++ name) with (String "-" name).
    rewrite startswith_dash, split_without_sep by (simpl; exact Hd). reflexivity.
  - intros name sub Hc Hd Hs. unfold parse_fields_parameter.
    rewrite split_without_sep
      by (change ("-" +++ name +++ "." +++ sub) with (String "-" (name +++ "." +++ sub));
          simpl; rewrite contains_append, Hc; simpl; exact Hs).
    cbn [fold_left]. unfold parse_field.
    change ("-" +++ name +++ "." +++ sub) with (String "-" (name +++ "." +++ sub)).
    rewrite startswith_dash.
    change (String "-" (name +++ "." +++ sub)) with (("-" +++ name) +++ String "." sub).
    rewrite split_at_sep by (simpl; exact Hd).
    destruct (split "." sub) as [|x l] eqn:E; [now apply split_not_nil in E|].
    reflexivity.
Qed.

(** The excluded field [-properties] and the excluded path
    [-properties.eo:cloud_cover]. *)
Lemma C8_parse_fields_parameter_witness :
  parse_fields_parameter (Some "-properties") = ([], [Name "properties"])
  /\ parse_fields_parameter (Some "-properties.eo:cloud_cover")
     = ([], [Path "properties" ["eo:cloud_cover"]]).
Proof.
  destruct C8_parse_fields_parameter as [_ [_ [_ [H1 H2]]]].
  split.
  - exact (H1 "properties" eq_refl eq_refl).
  - exact (H2 "properties" "eo:cloud_cover" eq_refl eq_refl eq_refl).
Defined.

(** ** The item search without [ids] *)

(** The branch without [ids], step by step: the combination check, then the
    clauses of each filter in the order the code appends them. *)
Lemma get_collection_items_steps (env : Env) (db : DB) (a : Args.t) :
  Args.ids a = None ->
  get_collection_items env db a
  = if both_collection_parameters a
    then Raise (Abort 400 Use_collection_id_or_collections)
    else
      qs <- query_clauses a ;;
      sp <- spatial_clauses env a ;;
      dt <- date_clauses a ;;
      Ok {| q_assets_column := negb (mem "assets" (Args.exclude a));
            q_where := base_where (roles_of a) ++ collection_clauses db a
                         ++ item_clauses a ++ qs ++ sp ++ dt;
            q_page := Args.page a;
            q_per_page := Args.limit a;
            q_max_per_page := BDC_STAC_MAX_LIMIT env |}.
Proof.
  intros Hids. unfold get_collection_items. rewrite Hids.
  fold (both_collection_parameters a). fold (roles_of a).
  destruct (both_collection_parameters a); [reflexivity|].
  fold (effective_collections a).
  unfold query_clauses, spatial_clauses, date_clauses, collection_clauses,
    item_clauses, geom_field_of.
  set (w0 := base_where (roles_of a)).
  set (gf := if BDC_STAC_USE_FOOTPRINT env then Item_footprint else Item_bbox).
  set (w1 := match effective_collections a with
             | Some c => if truthy_sl c then _ else _
             | None => _
             end).
  assert (E1 : w1 = w0 ++ match effective_collections a with
                          | Some c =>
                              if truthy_sl c
                              then [On_collection
                                      (Collection_id_in (resolve_collections db (as_list c)))]
                              else []
                          | None => []
                          end).
  { subst w1. destruct (effective_collections a) as [c|];
      [destruct (truthy_sl c)|]; now rewrite ?app_nil_r. }
  rewrite E1. clear E1 w1.
  set (cc := match effective_collections a with Some c => _ | None => _ end).
  destruct (Args.item_id a) as [pat|];
    (destruct (Args.query a) as [[|kv q]|]; simpl;
     [ | destruct (create_query_filter (kv :: q)) as [qs|e]; simpl; [|reflexivity] | ];
     (destruct (Args.intersects a) as [g|]; simpl;
      [ | destruct (Args.bbox a) as [bb|]; simpl;
          [destruct (bbox_filter env bb gf) as [sp|e]; simpl; [|reflexivity] | ] ];
      (destruct (Args.datetime a) as [d|]; simpl;
       [destruct (date_filter d) as [dt|e]; simpl; [|reflexivity] | ];
       rewrite ?app_nil_r, <- ?app_assoc; reflexivity))).
Qed.

(** ** The bounding box *)

(** [bbox_filter] on a box whose first four entries are numbers. *)
Lemma bbox_filter_four (env : Env) (bbox : Args.bbox_arg) (gf : geom_field)
    (b : list float) (west south east north : float) :
  floats env (Args.bbox_entries bbox) = Some b ->
  nth_error b 0 = Some west -> nth_error b 1 = Some south ->
  nth_error b 2 = Some east -> nth_error b 3 = Some north ->
  bbox_filter env bbox gf
  = if PrimFloat.eqb west east || PrimFloat.eqb south north
    then Raise (Abort 400 Not_a_valid_bbox)
    else Ok [ST_Intersects_Envelope west south east north 4326 gf].
Proof.
  intros Hb H0 H1 H2 H3. unfold bbox_filter.
  rewrite Hb, H0, H2, H1, H3.
  destruct (PrimFloat.eqb west east); [reflexivity|].
  destruct (PrimFloat.eqb south north); reflexivity.
Qed.

(** An entry that is not a number is answered with the same 400. *)
Lemma bbox_filter_not_numeric (env : Env) (bbox : Args.bbox_arg) (gf : geom_field) :
  floats env (Args.bbox_entries bbox) = None ->
  bbox_filter env bbox gf = Raise (Abort 400 Not_a_valid_bbox).
Proof.
  intros H. unfold bbox_filter. now rewrite H.
Qed.

(** C5 as stated fails: next to an explicit [ids] list a degenerate box
    ([west == east]) is not looked at, and the call returns a query. *)
Lemma C5_ids_skip_the_bounding_box :
  Args.bbox Sample.ids_and_flat_bbox
  = Some (Args.Bbox_list [Args.Num 1; Args.Num 2; Args.Num 1; Args.Num 4])
  /\ Args.intersects Sample.ids_and_flat_bbox = None
  /\ PrimFloat.eqb 1 1 = true
  /\ get_collection_items Sample.env Sample.db Sample.ids_and_flat_bbox
     = Ok {| q_assets_column := true;
             q_where := base_where [] ++ [Item_name_in ["S2_scene"]];
             q_page := 1;
             q_per_page := 10;
             q_max_per_page := 1000 |}
  /\ get_collection_items Sample.env Sample.db Sample.ids_and_flat_bbox
     <> Raise (Abort 400 Not_a_valid_bbox).
Proof.
  repeat split; try reflexivity. discriminate.
Qed.

(** C5 (amended): take a call without an explicit [ids] list and without an
    intersection geometry, whose other parameters are accepted (the same call
    without the box returns a query), and a box whose entries are numbers,
    the first four being west, south, east and north.  If [west == east] or
    [south == north] the call is rejected with the 400 abort "not a valid
    bbox"; otherwise it returns the same query with one more clause, the
    intersection of the configured geometry field with the envelope of the
    box. *)
Theorem C5_bounding_box_filter
    (env : Env) (db : DB) (a : Args.t) (bbox : Args.bbox_arg)
    (b : list float) (west south east north : float) (q0 : Query) :
  Args.ids a = None ->
  Args.intersects a = None ->
  Args.bbox a = Some bbox ->
  floats env (Args.bbox_entries bbox) = Some b ->
  nth_error b 0 = Some west -> nth_error b 1 = Some south ->
  nth_error b 2 = Some east -> nth_error b 3 = Some north ->
  get_collection_items env db (Args.without_bbox a) = Ok q0 ->
  if PrimFloat.eqb west east || PrimFloat.eqb south north
  then get_collection_items env db a = Raise (Abort 400 Not_a_valid_bbox)
  else exists pre post,
      q_where q0 = pre ++ post
      /\ get_collection_items env db a
         = Ok (set_where q0
                 (pre ++ [ST_Intersects_Envelope west south east north 4326
                            (geom_field_of env)] ++ post)).
Proof.
  intros Hids Hint Hbbox Hb H0 H1 H2 H3 Hq0.
  rewrite get_collection_items_steps in Hq0 by exact Hids.
  rewrite get_collection_items_steps by exact Hids.
  change (both_collection_parameters (Args.without_bbox a))
    with (both_collection_parameters a) in Hq0.
  change (query_clauses (Args.without_bbox a)) with (query_clauses a) in Hq0.
  change (date_clauses (Args.without_bbox a)) with (date_clauses a) in Hq0.
  change (collection_clauses db (Args.without_bbox a))
    with (collection_clauses db a) in Hq0.
  change (item_clauses (Args.without_bbox a)) with (item_clauses a) in Hq0.
  change (roles_of (Args.without_bbox a)) with (roles_of a) in Hq0.
  assert (Hsp0 : spatial_clauses env (Args.without_bbox a) = Ok []).
  { unfold spatial_clauses. simpl. now rewrite Hint. }
  assert (Hsp : spatial_clauses env a
                = if PrimFloat.eqb west east || PrimFloat.eqb south north
                  then Raise (Abort 400 Not_a_valid_bbox)
                  else Ok [ST_Intersects_Envelope west south east north 4326
                             (geom_field_of env)]).
  { unfold spatial_clauses. rewrite Hint, Hbbox.
    now apply bbox_filter_four with (b := b). }
  rewrite Hsp0 in Hq0. rewrite Hsp. clear Hsp Hsp0.
  destruct (both_collection_parameters a); [discriminate|].
  destruct (query_clauses a) as [qs|e]; simpl in *; [|discriminate].
  destruct (date_clauses a) as [dt|e]; simpl in *; [|discriminate].
  injection Hq0 as <-.
  destruct (PrimFloat.eqb west east || PrimFloat.eqb south north); simpl.
  - reflexivity.
  - exists (base_where (roles_of a) ++ collection_clauses db a ++ item_clauses a ++ qs), dt.
    split.
    + simpl. rewrite <- !app_assoc. reflexivity.
    + unfold set_where. simpl. rewrite <- !app_assoc. reflexivity.
Qed.

(** A proper box, given as the string ["1,2,3,4"] next to a time range, adds
    its envelope; the box [1, 2, 3, 2] is rejected. *)
Lemma C5_bounding_box_filter_witness :
  (exists pre post,
      base_where [] ++ Sample.january = pre ++ post
      /\ get_collection_items Sample.env Sample.db Sample.box_and_range
         = Ok (mkQuery true
                 (pre ++ [ST_Intersects_Envelope 1 2 3 4 4326 Item_bbox] ++ post)
                 1 10 1000))
  /\ get_collection_items Sample.env Sample.db Sample.flat_box
     = Raise (Abort 400 Not_a_valid_bbox).
Proof.
  split.
  - exact (C5_bounding_box_filter
             Sample.env Sample.db Sample.box_and_range (Args.Bbox_str "1,2,3,4")
             [1; 2; 3; 4]%float 1 2 3 4
             (mkQuery true (base_where [] ++ Sample.january) 1 10 1000)
             eq_refl eq_refl eq_refl eq_refl eq_refl eq_refl eq_refl eq_refl eq_refl).
  - exact (C5_bounding_box_filter
             Sample.env Sample.db Sample.flat_box
             (Args.Bbox_list [Args.Num 1; Args.Num 2; Args.Num 3; Args.Num 2])
             [1; 2; 3; 2]%float 1 2 3 2
             (mkQuery true (base_where []) 1 10 1000)
             eq_refl eq_refl eq_refl eq_refl eq_refl eq_refl eq_refl eq_refl eq_refl).
Defined.

(** ** The collection filter *)

Lemma rows_collection (db : DB) (r : row) :
  In r (rows db) -> In (r_collection r) (db_collections db).
Proof.
  unfold rows. rewrite in_flat_map. intros [c [Hc Hr]].
  apply in_map_iff in Hr. destruct Hr as [i [<- _]]. exact Hc.
Qed.

Lemma In_resolve_collections (db : DB) (names : list string) (id : Z) :
  In id (resolve_collections db names)
  <-> exists c, In c (db_collections db)
                /\ mem (Collection.identifier c) names = true
                /\ Collection.id c = id.
Proof.
  unfold resolve_collections. rewrite in_map_iff. split.
  - intros [c [E H]]. apply filter_In in H. destruct H as [H1 H2]. now exists c.
  - intros [c [H1 [H2 E]]]. exists c. split; [exact E|]. now apply filter_In.
Qed.

Lemma mem_filter (P : string -> bool) (x : string) (l : list string) :
  P x = true -> mem x (filter P l) = mem x l.
Proof.
  intros HP. unfold mem. induction l as [|y l IH]; simpl; [reflexivity|].
  destruct (String.eqb_spec x y) as [<-|N].
  - rewrite HP. simpl. now rewrite String.eqb_refl.
  - destruct (P y); simpl; [|exact IH].
    apply String.eqb_neq in N. now rewrite N.
Qed.

(** Identifiers that no collection carries do not change the resolved ids. *)
Lemma resolve_collections_known (db : DB) (names : list string) :
  resolve_collections db names = resolve_collections db (filter (known db) names).
Proof.
  unfold resolve_collections. f_equal. apply filter_ext_in.
  intros c Hc. symmetry. apply mem_filter.
  unfold known. apply existsb_exists. exists c. split; [exact Hc | apply String.eqb_refl].
Qed.

Lemma resolve_collections_unmatched (db : DB) (names : list string) :
  (forall c, In c (db_collections db) -> mem (Collection.identifier c) names = false) ->
  resolve_collections db names = [].
Proof.
  intros H. destruct (resolve_collections db names) as [|id l] eqn:E; [reflexivity|].
  assert (Hin : In id (resolve_collections db names)) by (rewrite E; now left).
  apply In_resolve_collections in Hin. destruct Hin as [c [Hc [Hm _]]].
  rewrite (H c Hc) in Hm. discriminate.
Qed.

Lemma NoDup_map_injective {A B} (f : A -> B) (l : list A) (x y : A) :
  NoDup (map f l) -> In x l -> In y l -> f x = f y -> x = y.
Proof.
  induction l as [|a l IH]; simpl; [tauto|].
  intros ND Hx Hy E. inversion ND as [|? ? Hnot ND']; subst.
  destruct Hx as [<-|Hx], Hy as [<-|Hy]; auto.
  - exfalso. apply Hnot. rewrite E. now apply in_map.
  - exfalso. apply Hnot. rewrite <- E. now apply in_map.
Qed.

Lemma filter_nil_iff {A} (f : A -> bool) (l : list A) :
  (forall x, In x l -> f x = false) -> filter f l = [].
Proof.
  induction l as [|a l IH]; simpl; intros H; [reflexivity|].
  rewrite (H a (or_introl eq_refl)). apply IH. intros x Hx. apply H. now right.
Qed.

(** C9 as stated fails: next to an explicit [ids] list the [collections]
    parameter is not read, so identifiers that match nothing neither
    constrain the query nor empty the result. *)
Lemma C9_ids_skip_the_collection_filter :
  Args.collections Sample.ids_and_unknown_collections = Some (Lst ["nope-1"])
  /\ resolve_collections Sample.db ["nope-1"] = []
  /\ get_collection_items Sample.env Sample.db Sample.ids_and_unknown_collections
     = Ok (mkQuery true (base_where [] ++ [Item_name_in ["S2_scene"]]) 1 10 1000)
  /\ ~ In (On_collection (Collection_id_in []))
          (base_where [] ++ [Item_name_in ["S2_scene"]])
  /\ select Sample.store Sample.db (base_where [] ++ [Item_name_in ["S2_scene"]])
     = [mkRow Sample.S2 Sample.S2_scene (Some Sample.tile)].
Proof.
  repeat split; try reflexivity.
  simpl. intros H. repeat destruct H as [H|H]; try discriminate H. exact H.
Qed.

(** C9 (amended): when no explicit [ids] list and no [collection_id] is
    supplied, the identifiers of a non-empty [collections] parameter are
    resolved to the ids of the collections that carry them; identifiers that
    no collection carries are dropped without an error (the outcome is a
    query or an error whatever the catalog holds, and a query when no
    property query, box or datetime is given); the query constrains the
    collection id to the resolved ids, so when no available collection
    carries one of the identifiers no row is selected. *)
Theorem C9_unmatched_collections_are_dropped
    (env : Env) (st : Store) (db : DB) (a : Args.t) (collections : str_or_list) :
  Args.ids a = None ->
  truthy_opt_str (Args.collection_id a) = false ->
  Args.collections a = Some collections ->
  truthy_sl collections = true ->
  resolve_collections db (as_list collections)
  = resolve_collections db (filter (known db) (as_list collections))
  /\ (forall db',
         is_ok (get_collection_items env db' a) = is_ok (get_collection_items env db a))
  /\ (Args.query a = None -> Args.bbox a = None -> Args.datetime a = None ->
      is_ok (get_collection_items env db a) = true)
  /\ (forall q,
         get_collection_items env db a = Ok q ->
         In (On_collection
               (Collection_id_in (resolve_collections db (as_list collections))))
            (q_where q)
         /\ (forall r,
                In r (select st db (q_where q)) ->
                In (Collection.id (r_collection r))
                   (resolve_collections db (as_list collections)))
         /\ ((forall c,
                 In c (db_collections db) ->
                 mem (Collection.identifier c) (as_list collections) = false) ->
             resolve_collections db (as_list collections) = []
             /\ select st db (q_where q) = [])
         /\ (NoDup (map Collection.id (db_collections db)) ->
             (forall c,
                 In c (db_collections db) -> Collection.is_available c = true ->
                 mem (Collection.identifier c) (as_list collections) = false) ->
             select st db (q_where q) = [])).
Proof.
  intros Hids Hcid Hcs Hcst.
  assert (Hboth : both_collection_parameters a = false).
  { unfold both_collection_parameters. now rewrite Hcid. }
  assert (Hcc : forall db0,
             collection_clauses db0 a
             = [On_collection
                  (Collection_id_in (resolve_collections db0 (as_list collections)))]).
  { intros db0. unfold collection_clauses, effective_collections.
    unfold truthy_opt_str in Hcid.
    destruct (Args.collection_id a) as [c|]; [rewrite Hcid|]; now rewrite Hcs, Hcst. }
  split; [apply resolve_collections_known|].
  split; [|split].
  - intros db'. rewrite !get_collection_items_steps by exact Hids. rewrite Hboth.
    destruct (query_clauses a); simpl; [|reflexivity].
    destruct (spatial_clauses env a); simpl; [|reflexivity].
    destruct (date_clauses a); reflexivity.
  - intros Hq Hb Hd. rewrite get_collection_items_steps by exact Hids. rewrite Hboth.
    unfold query_clauses, spatial_clauses, date_clauses. rewrite Hq, Hb, Hd.
    destruct (Args.intersects a); reflexivity.
  - intros q Hq. rewrite get_collection_items_steps in Hq by exact Hids.
    rewrite Hboth in Hq.
    destruct (query_clauses a) as [qs|]; simpl in Hq; [|discriminate].
    destruct (spatial_clauses env a) as [sp|]; simpl in Hq; [|discriminate].
    destruct (date_clauses a) as [dt|]; simpl in Hq; [|discriminate].
    injection Hq as <-.
    match goal with
    | |- context [q_where ?q0] =>
        change (q_where q0)
          with (base_where (roles_of a) ++ collection_clauses db a ++ item_clauses a
                  ++ qs ++ sp ++ dt)
    end.
    rewrite Hcc.
    set (resolved := resolve_collections db (as_list collections)).
    set (cl := On_collection (Collection_id_in resolved)).
    set (w := base_where (roles_of a) ++ [cl] ++ item_clauses a ++ qs ++ sp ++ dt).
    assert (Hin : In cl w).
    { apply in_or_app. right. now left. }
    assert (Hsel : forall r,
               In r (select st db w) ->
               In (r_collection r) (db_collections db)
               /\ Collection.is_available (r_collection r) = true
               /\ In (Collection.id (r_collection r)) resolved).
    { intros r Hr. unfold select in Hr. apply filter_In in Hr. destruct Hr as [Hr Hh].
      unfold holds_all in Hh. rewrite forallb_forall in Hh.
      split; [now apply rows_collection|]. split.
      - apply (Hh (On_collection Collection_is_available)). subst w. simpl. tauto.
      - apply mem_Z_In. exact (Hh cl Hin). }
    split; [exact Hin|]. split; [intros r Hr; now apply Hsel|]. split.
    + intros Hnone. pose proof (resolve_collections_unmatched db _ Hnone) as E.
      split; [exact E|].
      destruct (select st db w) as [|r l] eqn:Es; [reflexivity|].
      destruct (Hsel r) as [_ [_ Hr]]; [now left|].
      fold resolved in E. rewrite E in Hr. destruct Hr.
    + intros ND Hnone.
      destruct (select st db w) as [|r l] eqn:Es; [reflexivity|].
      destruct (Hsel r) as [Hc [Hav Hr]]; [now left|].
      apply In_resolve_collections in Hr. destruct Hr as [c [Hc' [Hm E]]].
      assert (c = r_collection r) by (eapply NoDup_map_injective; eauto).
      subst c. rewrite (Hnone _ Hc Hav) in Hm. discriminate.
Qed.

(** The identifiers [nope-1] and [nope-2], which no collection of the
    sample catalog carries: the call returns a query, and the query selects
    no row. *)
Lemma C9_unmatched_collections_are_dropped_witness :
  is_ok (get_collection_items Sample.env Sample.db Sample.unknown_collections) = true
  /\ (forall q,
         get_collection_items Sample.env Sample.db Sample.unknown_collections = Ok q ->
         select Sample.store Sample.db (q_where q) = []).
Proof.
  destruct (C9_unmatched_collections_are_dropped
              Sample.env Sample.store Sample.db Sample.unknown_collections
              (Str "nope-1,nope-2") eq_refl eq_refl eq_refl eq_refl)
    as [_ [_ [Hok Hq]]].
  split.
  - exact (Hok eq_refl eq_refl eq_refl).
  - intros q E. destruct (Hq q E) as [_ [_ [Hnone _]]].
    apply Hnone. intros c [<-|[<-|[<-|[]]]]; reflexivity.
Defined.

(** ** Comparisons of binary64 numbers *)

Lemma SFcompare_lt_trans (a b c : spec_float) :
  SFcompare a b = Some Lt -> SFcompare b c = Some Lt -> SFcompare a c = Some Lt.
Proof.
  destruct a as [sa|sa| |sa ma ea], b as [sb|sb| |sb mb eb], c as [sc|sc| |sc mc ec];
    simpl; try discriminate; try (intros; reflexivity);
    try (destruct sa; try discriminate; destruct sb; try discriminate; destruct sc;
         try discriminate; auto; fail).
  all: destruct sa, sb, sc; try discriminate; auto.
  all: change (PosDef.Pos.compare_cont Eq) with Pos.compare.
  all: destruct (Z.compare_spec ea eb), (Z.compare_spec eb ec); try discriminate;
       destruct (Z.compare_spec ea ec); try lia; auto; subst.
  all: destruct (Pos.compare_spec ma mb), (Pos.compare_spec mb mc); simpl; try discriminate;
       destruct (Pos.compare_spec ma mc); simpl; try lia; auto.
Qed.

(** Below a number that is not NaN, or above it: what is left of the
    trichotomy when NaN is around. *)
Lemma SFcompare_lt_between (a b c : spec_float) :
  SFcompare a b = Some Lt -> c <> S754_nan ->
  SFcompare a c = Some Lt \/ SFcompare c b = Some Lt.
Proof.
  destruct a as [sa|sa| |sa ma ea], b as [sb|sb| |sb mb eb], c as [sc|sc| |sc mc ec];
    simpl; try discriminate; try congruence;
    try (destruct sa; try discriminate; destruct sb; try discriminate; destruct sc;
         try discriminate; auto; fail).
  all: destruct sa, sb, sc; try discriminate; auto.
  all: change (PosDef.Pos.compare_cont Eq) with Pos.compare.
  all: destruct (Z.compare_spec ea eb); try discriminate;
       destruct (Z.compare_spec ea ec), (Z.compare_spec ec eb); try lia; auto; subst.
  all: destruct (Pos.compare_spec ma mb); simpl; try discriminate;
       destruct (Pos.compare_spec ma mc), (Pos.compare_spec mc mb); simpl;
       try lia; auto.
Qed.

Lemma ltb_trans (a b c : float) :
  PrimFloat.ltb a b = true -> PrimFloat.ltb b c = true -> PrimFloat.ltb a c = true.
Proof.
  rewrite !FloatAxioms.ltb_spec. unfold SFltb.
  destruct (SFcompare (Prim2SF a) (Prim2SF b)) as [[]|] eqn:E1; try discriminate.
  destruct (SFcompare (Prim2SF b) (Prim2SF c)) as [[]|] eqn:E2; try discriminate.
  intros _ _. now rewrite (SFcompare_lt_trans _ _ _ E1 E2).
Qed.

Lemma zero_not_below_is_number (c : float) :
  PrimFloat.leb 0 c = true -> Prim2SF c <> S754_nan.
Proof.
  rewrite FloatAxioms.leb_spec. unfold SFleb. intros H E. rewrite E in H. discriminate.
Qed.

Lemma ltb_between (a b c : float) :
  PrimFloat.leb 0 c = true -> PrimFloat.ltb a b = true ->
  PrimFloat.ltb a c = true \/ PrimFloat.ltb c b = true.
Proof.
  intros Hc. apply zero_not_below_is_number in Hc.
  rewrite !FloatAxioms.ltb_spec. unfold SFltb.
  destruct (SFcompare (Prim2SF a) (Prim2SF b)) as [[]|] eqn:E1; try discriminate.
  intros _. destruct (SFcompare_lt_between _ _ _ E1 Hc) as [E|E]; rewrite E; auto.
Qed.

Lemma ltb_irrefl (a : float) : PrimFloat.ltb a a = false.
Proof.
  rewrite FloatAxioms.ltb_spec. unfold SFltb.
  destruct (Prim2SF a) as [s|s| |s m e]; simpl; try reflexivity.
  - now destruct s.
  - rewrite Z.compare_refl. change (PosDef.Pos.compare_cont Eq) with Pos.compare.
    rewrite Pos.compare_refl. now destruct s.
Qed.

Lemma leb_zero_ltb (g r : float) :
  PrimFloat.leb 0 g = true -> PrimFloat.ltb g r = true -> PrimFloat.leb 0 r = true.
Proof.
  rewrite !FloatAxioms.leb_spec, FloatAxioms.ltb_spec. change (Prim2SF 0) with (S754_zero false).
  unfold SFleb, SFltb.
  destruct (Prim2SF g) as [sg|sg| |sg mg eg], (Prim2SF r) as [sr|sr| |sr mr er]; simpl;
    try discriminate; auto;
    try (destruct sg; try discriminate; destruct sr; try discriminate; auto; fail).
Qed.

Lemma ltb_zero_asym (r : float) :
  PrimFloat.ltb r 0 = true -> PrimFloat.ltb 0 r = false.
Proof.
  rewrite !FloatAxioms.ltb_spec. change (Prim2SF 0) with (S754_zero false). unfold SFltb.
  destruct (Prim2SF r) as [s|s| |s m e]; simpl; auto; destruct s; auto; discriminate.
Qed.

(** ** The electro-optical summary *)

(** The running [eo_gsd] never falls below zero. *)
Lemma eo_loop_floor (bands : list Band.t) :
  forall eo_bands0 g log eo log',
    eo_loop bands eo_bands0 g log = (Ok eo, log') ->
    PrimFloat.leb 0 g = true ->
    PrimFloat.leb 0 (eo_gsd eo) = true.
Proof.
  induction bands as [|band rest IH]; intros acc g log eo log' H Hg; simpl in H.
  - injection H as <- _. exact Hg.
  - destruct (Band.eo_resolutions band) as [res|]; [|now apply (IH _ _ _ _ _ H)].
    destruct res as [|r0 res]; simpl in H; [discriminate|].
    destruct (PrimFloat.ltb g r0) eqn:E.
    + apply (IH _ _ _ _ _ H). now apply leb_zero_ltb with (g := g).
    + now apply (IH _ _ _ _ _ H).
Qed.

(** When every first entry is negative the running [eo_gsd] stays at zero. *)
Lemma eo_loop_negative (bands : list Band.t) :
  forall eo_bands0 log eo log',
    eo_loop bands eo_bands0 0 log = (Ok eo, log') ->
    (forall r, In r (first_resolutions bands) -> PrimFloat.ltb r 0 = true) ->
    eo_gsd eo = 0%float.
Proof.
  induction bands as [|band rest IH]; intros acc log eo log' H Hneg; simpl in H.
  - now injection H as <- _.
  - unfold first_resolutions in Hneg. simpl in Hneg.
    destruct (Band.eo_resolutions band) as [res|].
    + destruct res as [|r0 res]; simpl in H; [discriminate|].
      rewrite (ltb_zero_asym r0) in H by (apply Hneg; simpl; now left).
      apply (IH _ _ _ _ H). intros r Hr. apply Hneg. simpl. now right.
    + apply (IH _ _ _ _ H). intros r Hr. apply Hneg. exact Hr.
Qed.

(** The whole loop, when no band has an empty resolution list: the bands
    kept, the warnings, and the final [eo_gsd] as the greatest of the start
    value and the first entries. *)
Lemma eo_loop_result (bands : list Band.t) :
  Forall (fun b => Band.eo_resolutions b <> Some []) bands ->
  forall eo_bands0 g log,
    PrimFloat.leb 0 g = true ->
    exists g',
      eo_loop bands eo_bands0 g log
      = (Ok (mkEO g' (eo_bands0 ++ map band_meta (filter has_resolution bands))),
         log ++ map no_resolution_warning
                    (filter (fun b => negb (has_resolution b)) bands))
      /\ (g' = g \/ In g' (first_resolutions bands))
      /\ PrimFloat.leb 0 g' = true
      /\ PrimFloat.ltb g' g = false
      /\ (forall r, In r (first_resolutions bands) -> PrimFloat.ltb g' r = false).
Proof.
  induction 1 as [|band rest Hband _ IH]; intros acc g log Hg.
  - exists g. simpl. rewrite !app_nil_r.
    split; [reflexivity|]. split; [now left|]. split; [exact Hg|].
    split; [apply ltb_irrefl | intros r []].
  - assert (Hh : has_resolution band
                 = match Band.eo_resolutions band with Some _ => true | None => false end)
      by reflexivity.
    assert (Hf : first_resolutions (band :: rest)
                 = match Band.eo_resolutions band with
                   | Some (r :: _) => [r]
                   | _ => []
                   end ++ first_resolutions rest) by reflexivity.
    rewrite Hf. simpl. rewrite Hh. clear Hh Hf.
    destruct (Band.eo_resolutions band) as [[|r0 res]|] eqn:Eres; simpl.
    + now contradiction Hband.
    + destruct (PrimFloat.ltb g r0) eqn:E.
      * assert (Hr0 : PrimFloat.leb 0 r0 = true) by now apply leb_zero_ltb with (g := g).
        destruct (IH (acc ++ [band_meta band]) r0 log Hr0)
          as [g' [Hrun [Hmem [Hfloor [Hmono Hub]]]]].
        exists g'. rewrite Hrun, <- app_assoc. simpl.
        split; [reflexivity|]. split; [|split; [exact Hfloor|split]].
        -- destruct Hmem as [->|Hmem]; auto.
        -- destruct (PrimFloat.ltb g' g) eqn:E'; [|reflexivity].
           rewrite (ltb_trans _ _ _ E' E) in Hmono. discriminate.
        -- intros r [Er|Hr]; [subst r; exact Hmono | now apply Hub].
      * destruct (IH (acc ++ [band_meta band]) g log Hg)
          as [g' [Hrun [Hmem [Hfloor [Hmono Hub]]]]].
        exists g'. rewrite Hrun, <- app_assoc. simpl.
        split; [reflexivity|]. split; [|split; [exact Hfloor|split; [exact Hmono|]]].
        -- destruct Hmem as [->|Hmem]; auto.
        -- intros r [Er|Hr]; [subst r | now apply Hub].
           destruct (PrimFloat.ltb g' r0) eqn:E'; [|reflexivity].
           destruct (ltb_between _ _ g Hg E') as [C|C]; congruence.
    + destruct (IH acc g (log ++ [no_resolution_warning band]) Hg)
        as [g' [Hrun [Hmem [Hfloor [Hmono Hub]]]]].
      exists g'. rewrite Hrun, <- app_assoc. simpl.
      split; [reflexivity|]. split; [exact Hmem|]. split; [exact Hfloor|].
      split; [exact Hmono | exact Hub].
Qed.

(** C7 as stated fails: the collection [DEM] has one band with resolution
    data, whose first entry is [-5.0], and the summary gives [eo:gsd = 0.0],
    which is not that entry; the collection [L8] has no band, so there is no
    entry to be the maximum of, and the summary gives [0.0] as well. *)
Lemma C7_gsd_is_not_the_maximum_of_the_entries :
  first_resolutions (bands_of Sample.db 3) = [(-5)%float]
  /\ get_collection_eo Sample.db 3
     = (Ok (mkEO 0 [band_meta Sample.elevation]),
        ["No resolution configured for DEM - Band QA"])
  /\ ~ In 0%float (first_resolutions (bands_of Sample.db 3))
  /\ first_resolutions (bands_of Sample.db 2) = []
  /\ get_collection_eo Sample.db 2 = (Ok (mkEO 0 []), []).
Proof.
  split; [reflexivity|]. split; [reflexivity|]. split; [|split; reflexivity].
  intros [H|[]]. discriminate (f_equal (fun x => PrimFloat.ltb x 0) H).
Qed.

(** C7 (amended): for the bands of a collection, none with an empty
    resolution list, [get_collection_eo] returns, without an error, one entry
    of [eo:bands] per band that has resolution data, in order, one warning
    per band that has none, and as [eo:gsd] the greatest of [0.0] and the
    first resolution entries: it is [0.0] or one of them, it is not below
    [0.0], and no first entry exceeds it.  Two bands with resolutions [30.0]
    and [10.0], in either order, give [eo:gsd = 30.0] and two entries. *)
Theorem C7_eo_summary (db : DB) (collection_id : Z) :
  (Forall (fun b => Band.eo_resolutions b <> Some []) (bands_of db collection_id) ->
   exists eo,
     get_collection_eo db collection_id
     = (Ok eo,
        map no_resolution_warning
            (filter (fun b => negb (has_resolution b)) (bands_of db collection_id)))
     /\ eo_bands eo = map band_meta (filter has_resolution (bands_of db collection_id))
     /\ (eo_gsd eo = 0%float
         \/ In (eo_gsd eo) (first_resolutions (bands_of db collection_id)))
     /\ PrimFloat.leb 0 (eo_gsd eo) = true
     /\ (forall r,
            In r (first_resolutions (bands_of db collection_id)) ->
            PrimFloat.ltb (eo_gsd eo) r = false))
  /\ (forall b1 b2,
         bands_of db collection_id = [b1; b2] ->
         (Band.eo_resolutions b1 = Some [30%float]
          /\ Band.eo_resolutions b2 = Some [10%float])
         \/ (Band.eo_resolutions b1 = Some [10%float]
             /\ Band.eo_resolutions b2 = Some [30%float]) ->
         get_collection_eo db collection_id
         = (Ok (mkEO 30 [band_meta b1; band_meta b2]), [])).
Proof.
  split.
  - intros Hne. unfold get_collection_eo.
    destruct (eo_loop_result _ Hne [] 0%float [] eq_refl)
      as [g' [Hrun [Hmem [Hfloor [_ Hub]]]]].
    eexists. split; [exact Hrun|]. simpl. repeat split; assumption.
  - intros b1 b2 Hb [[H1 H2]|[H1 H2]]; unfold get_collection_eo;
      rewrite Hb; simpl; rewrite H1, H2; reflexivity.
Qed.

(** The collection [S2] of the sample catalog: two bands, with resolutions
    [30.0] and [10.0]. *)
Lemma C7_eo_summary_witness :
  (exists eo,
      get_collection_eo Sample.db 1 = (Ok eo, [])
      /\ eo_bands eo = [band_meta Sample.B04; band_meta Sample.B08]
      /\ (eo_gsd eo = 0%float \/ In (eo_gsd eo) [30%float; 10%float])
      /\ PrimFloat.leb 0 (eo_gsd eo) = true
      /\ (forall r, In r [30%float; 10%float] -> PrimFloat.ltb (eo_gsd eo) r = false))
  /\ get_collection_eo Sample.db 1
     = (Ok (mkEO 30 [band_meta Sample.B04; band_meta Sample.B08]), []).
Proof.
  destruct (C7_eo_summary Sample.db 1) as [H1 H2].
  split.
  - apply H1. repeat constructor; discriminate.
  - apply (H2 Sample.B04 Sample.B08 eq_refl). left. split; reflexivity.
Defined.

(** C10: for a collection without bands, or whose bands all lack resolution
    data, [get_collection_eo] returns [eo:gsd = 0.0] and an empty [eo:bands]
    list; whenever it returns, [eo:gsd] is not below [0.0] (so it is a
    number, not NaN), and it is [0.0] when every first resolution entry is
    negative; it returns whenever no band has an empty resolution list. *)
Theorem C10_eo_gsd_floor (db : DB) (collection_id : Z) :
  (bands_of db collection_id = [] ->
   get_collection_eo db collection_id = (Ok (mkEO 0 []), []))
  /\ (Forall (fun b => Band.eo_resolutions b = None) (bands_of db collection_id) ->
      fst (get_collection_eo db collection_id) = Ok (mkEO 0 []))
  /\ (forall eo,
         fst (get_collection_eo db collection_id) = Ok eo ->
         PrimFloat.leb 0 (eo_gsd eo) = true)
  /\ (forall eo,
         fst (get_collection_eo db collection_id) = Ok eo ->
         (forall r,
             In r (first_resolutions (bands_of db collection_id)) ->
             PrimFloat.ltb r 0 = true) ->
         eo_gsd eo = 0%float)
  /\ (Forall (fun b => Band.eo_resolutions b <> Some []) (bands_of db collection_id) ->
      is_ok (fst (get_collection_eo db collection_id)) = true).
Proof.
  unfold get_collection_eo. split; [|split; [|split; [|split]]].
  - intros ->. reflexivity.
  - intros Hnone.
    assert (Hne : Forall (fun b => Band.eo_resolutions b <> Some [])
                         (bands_of db collection_id)).
    { eapply Forall_impl; [|exact Hnone]. intros b Hb. rewrite Hb. discriminate. }
    destruct (eo_loop_result _ Hne [] 0%float [] eq_refl)
      as [g' [Hrun [Hmem [_ [_ _]]]]].
    assert (Hf : filter has_resolution (bands_of db collection_id) = []).
    { apply filter_nil_iff. intros b Hb. unfold has_resolution.
      rewrite Forall_forall in Hnone. now rewrite (Hnone b Hb). }
    assert (Hr : first_resolutions (bands_of db collection_id) = []).
    { unfold first_resolutions. clear Hrun Hmem Hf Hne.
      induction Hnone as [|b l Hb _ IH]; simpl; [reflexivity|]. now rewrite Hb, IH. }
    rewrite Hrun. simpl. rewrite Hf, Hr in *. simpl.
    destruct Hmem as [->|[]]. reflexivity.
  - intros eo H.
    destruct (eo_loop (bands_of db collection_id) [] 0 []) as [r log] eqn:E.
    simpl in H. subst r. exact (eo_loop_floor _ _ _ _ _ _ E eq_refl).
  - intros eo H Hneg.
    destruct (eo_loop (bands_of db collection_id) [] 0 []) as [r log] eqn:E.
    simpl in H. subst r. exact (eo_loop_negative _ _ _ _ _ E Hneg).
  - intros Hne.
    destruct (eo_loop_result _ Hne [] 0%float [] eq_refl) as [g' [Hrun _]].
    now rewrite Hrun.
Qed.

(** The collection [L8] has no band; the only band of [DEM] with resolution
    data has the first entry [-5.0]. *)
Lemma C10_eo_gsd_floor_witness :
  get_collection_eo Sample.db 2 = (Ok (mkEO 0 []), [])
  /\ PrimFloat.leb 0 (eo_gsd (mkEO 0 [band_meta Sample.elevation])) = true
  /\ eo_gsd (mkEO 0 [band_meta Sample.elevation]) = 0%float.
Proof.
  destruct (C10_eo_gsd_floor Sample.db 2) as [H1 _].
  destruct (C10_eo_gsd_floor Sample.db 3) as [_ [_ [H3 [H4 _]]]].
  split; [exact (H1 eq_refl)|]. split.
  - exact (H3 _ eq_refl).
  - apply (H4 _ eq_refl). intros r [<-|[]]. reflexivity.
Defined.

(** ** Features *)

Lemma append_empty_r (s : string) : s +++ "" = s.
Proof.
  induction s as [|c s IH]; simpl; [reflexivity | now rewrite IH].
Qed.

Lemma urljoin_empty_base (env : Env) (url : string) : urljoin env "" url = url.
Proof.
  reflexivity.
Qed.

(** An item with a [storage:] key gets the constant empty file root. *)
Lemma storage_file_root (env : Env) (i : Hit.t) (item_meta : dict) :
  Hit.item_meta i = Some item_meta ->
  has_storage_key item_meta = true ->
  _resolve_item_file_root env i tt = "".
Proof.
  intros H1 H2. unfold _resolve_item_file_root. now rewrite H1, H2.
Qed.

Ltac pop_cases k :=
  unfold pop;
  repeat match goal with
         | |- context [String.eqb k ?s] =>
             destruct (String.eqb_spec k s); [subst; reflexivity|]
         end;
  reflexivity.

Lemma pop_assets (f : Feature) (k : string) :
  f_assets (pop f k) = if String.eqb k "assets" then None else f_assets f.
Proof.
  pop_cases k.
Qed.

Lemma pop_stac_extensions (f : Feature) (k : string) :
  f_stac_extensions (pop f k)
  = if String.eqb k "stac_extensions" then None else f_stac_extensions f.
Proof.
  pop_cases k.
Qed.

Lemma pop_properties (f : Feature) (k : string) :
  f_properties (pop f k) = if String.eqb k "properties" then None else f_properties f.
Proof.
  pop_cases k.
Qed.

Lemma pops_assets (exclude : list string) (f : Feature) :
  f_assets (fold_left pop exclude f)
  = if mem "assets" exclude then None else f_assets f.
Proof.
  revert f. induction exclude as [|k ex IH]; intros f; [reflexivity|].
  cbn [fold_left].
  change (mem "assets" (k :: ex)) with (String.eqb "assets" k || mem "assets" ex).
  rewrite IH, pop_assets, (String.eqb_sym "assets" k).
  destruct (String.eqb k "assets"), (mem "assets" ex); reflexivity.
Qed.

Lemma pops_stac_extensions (exclude : list string) (f : Feature) :
  f_stac_extensions (fold_left pop exclude f)
  = if mem "stac_extensions" exclude then None else f_stac_extensions f.
Proof.
  revert f. induction exclude as [|k ex IH]; intros f; [reflexivity|].
  cbn [fold_left].
  change (mem "stac_extensions" (k :: ex)) with (String.eqb "stac_extensions" k || mem "stac_extensions" ex).
  rewrite IH, pop_stac_extensions, (String.eqb_sym "stac_extensions" k).
  destruct (String.eqb k "stac_extensions"), (mem "stac_extensions" ex); reflexivity.
Qed.

Lemma pops_properties (exclude : list string) (f : Feature) :
  f_properties (fold_left pop exclude f)
  = if mem "properties" exclude then None else f_properties f.
Proof.
  revert f. induction exclude as [|k ex IH]; intros f; [reflexivity|].
  cbn [fold_left].
  change (mem "properties" (k :: ex)) with (String.eqb "properties" k || mem "properties" ex).
  rewrite IH, pop_properties, (String.eqb_sym "properties" k).
  destruct (String.eqb k "properties"), (mem "properties" ex); reflexivity.
Qed.

(** The hrefs [make_asset] writes under the empty file root. *)
Lemma make_asset_hrefs (env : Env) (assets_kwargs : string) (eo : bool)
    (bands : list dict) (l : list (string * Asset.t)) :
  hrefs (map (make_asset env "" assets_kwargs eo bands) l)
  = suffixed_hrefs assets_kwargs l.
Proof.
  unfold hrefs, suffixed_hrefs. rewrite map_map. apply map_ext.
  intros [key v]. reflexivity.
Qed.

Lemma suffixed_hrefs_empty (l : list (string * Asset.t)) :
  suffixed_hrefs "" l = hrefs l.
Proof.
  unfold hrefs, suffixed_hrefs. apply map_ext. intros kv. now rewrite append_empty_r.
Qed.

(** C6 as stated fails twice.  With the query string
    [?access_token=abc] to preserve, the href of the asset of [S2_scene]
    (whose metadata has the key [storage:platform]) is the stored href with
    that string appended, not the stored href itself.  And an item whose
    [storage:platform] is present but empty gets no storage extension. *)
Lemma C6_query_string_and_blank_platform :
  (exists f a,
      make_geojson Sample.env Sample.db [Sample.S2_hit] "?access_token=abc" [] = Ok [f]
      /\ f_assets f = Some [("B04", a)]
      /\ Asset.href a = "s3://bdc/S2/scene_B04.tif?access_token=abc"
      /\ Asset.href Sample.B04_asset = "s3://bdc/S2/scene_B04.tif"
      /\ Asset.href a <> Asset.href Sample.B04_asset)
  /\ (exists f props,
         make_geojson Sample.env Sample.db [Sample.blank_platform_hit] "" [] = Ok [f]
         /\ f_properties f = Some props
         /\ get props "storage:platform" = Some (VStr "")
         /\ f_stac_extensions f = Some (get_stac_extensions Sample.env ["eo"])
         /\ ~ incl (get_stac_extensions Sample.env ["storage"])
                   (get_stac_extensions Sample.env ["eo"])).
Proof.
  split.
  - eexists. eexists. split; [vm_compute; reflexivity|].
    split; [reflexivity|]. split; [reflexivity|]. split; [reflexivity | discriminate].
  - eexists. eexists. split; [vm_compute; reflexivity|].
    split; [reflexivity|]. split; [reflexivity|]. split; [reflexivity|].
    intros H. specialize (H _ (or_introl eq_refl)).
    destruct H as [H|[]]. discriminate H.
Qed.

(** C6 (amended): for an item whose metadata has a key that starts with
    [storage:], that has a geometry, whose [assets] column was selected, and
    whose band lookup succeeds when its category is [eo], the asset base URL
    resolves to the empty string and [make_geojson] produces a feature in
    which every asset href is the stored href followed by the preserved query
    string [assets_kwargs], with no base-URL prefix: the stored href itself
    when [assets_kwargs] is empty.  The feature's [stac_extensions] list
    includes the storage extension when its properties hold
    [storage:platform] with a value that counts as true. *)
Theorem C6_storage_assets_keep_their_hrefs
    (env : Env) (db : DB) (assets_kwargs : string) (exclude : list string)
    (i : Hit.t) (item_meta : dict) (g : geometry)
    (stored : option (list (string * Asset.t))) :
  Hit.item_meta i = Some item_meta ->
  has_storage_key item_meta = true ->
  or_else (Hit.footprint i) (Hit.bbox i) = Some g ->
  Hit.assets i = Some stored ->
  String.eqb (Hit.category i) "eo" = false
  \/ is_ok (fst (get_collection_eo db (Hit.collection_id i))) = true ->
  _resolve_item_file_root env i tt = ""
  /\ exists f,
      make_geojson env db [i] assets_kwargs exclude = Ok [f]
      /\ (forall assets,
             f_assets f = Some assets ->
             exists l, stored = Some l /\ hrefs assets = suffixed_hrefs assets_kwargs l)
      /\ (assets_kwargs = "" ->
          forall assets,
            f_assets f = Some assets -> exists l, stored = Some l /\ hrefs assets = hrefs l)
      /\ (mem "assets" exclude = false ->
          forall a l, stored = Some (a :: l) -> exists assets, f_assets f = Some assets)
      /\ (forall props v exts,
             f_properties f = Some props ->
             get props "storage:platform" = Some v -> truthy v = true ->
             f_stac_extensions f = Some exts ->
             incl (get_stac_extensions env ["storage"]) exts).
Proof.
  intros Hmeta Hkey Hgeom Hassets Heo.
  pose proof (storage_file_root env i item_meta Hmeta Hkey) as Hroot.
  split; [exact Hroot|].
  assert (Hbands : exists bands,
             (if String.eqb (Hit.category i) "eo"
              then r <- fst (get_collection_eo db (Hit.collection_id i)) ;; Ok (eo_bands r)
              else Ok []) = Ok bands).
  { destruct (String.eqb (Hit.category i) "eo"); [|now exists []].
    destruct Heo as [Heo|Heo]; [discriminate|].
    destruct (fst (get_collection_eo db (Hit.collection_id i))) as [r|e];
      [now exists (eo_bands r) | discriminate]. }
  destruct Hbands as [bands Hbands].
  cbn [make_geojson]. unfold make_feature.
  rewrite Hgeom, Hassets, Hroot. cbn [bind]. rewrite Hbands. cbn [bind].
  set (eo := String.eqb (Hit.category i) "eo").
  set (properties := if eo then _ else _).
  set (extensions := match get properties "storage:platform" with
                     | Some v => _
                     | None => _
                     end).
  set (assets0 := match stored with
                  | Some (a :: l) => Some (map (make_asset env "" assets_kwargs eo bands) (a :: l))
                  | _ => None
                  end).
  assert (Ha : match stored with
               | Some ((_ :: _) as l) =>
                   Ok (Some (map (make_asset env "" assets_kwargs eo bands) l))
               | _ => Ok None
               end = Ok assets0).
  { subst assets0. destruct stored as [[|a l]|]; reflexivity. }
  rewrite Ha. cbn [bind].
  eexists. split; [reflexivity|].
  assert (Hsuff : forall assets,
             f_assets (fold_left pop exclude
                         {| f_type := Some "Feature";
                            f_id := Some (Hit.item i);
                            f_collection := Some (Hit.collection i);
                            f_stac_version := Some (BDC_STAC_API_VERSION env);
                            f_stac_extensions := Some extensions;
                            f_geometry := Some (shape_mapping env g);
                            f_links := Some (make_links env i assets_kwargs);
                            f_bbox := Some match Hit.bbox i with
                                           | Some g0 => shape_bounds env g0
                                           | None => VList []
                                           end;
                            f_assets := assets0;
                            f_properties := Some properties |}) = Some assets ->
             exists l, stored = Some l /\ hrefs assets = suffixed_hrefs assets_kwargs l).
  { intros assets. rewrite pops_assets. cbn [f_assets].
    destruct (mem "assets" exclude); [discriminate|].
    subst assets0. destruct stored as [[|a l]|]; try discriminate.
    intros E. injection E as <-. exists (a :: l). split; [reflexivity|].
    exact (make_asset_hrefs env assets_kwargs eo bands (a :: l)). }
  split; [exact Hsuff|]. split; [|split].
  - intros -> assets E. destruct (Hsuff assets E) as [l [E1 E2]].
    exists l. split; [exact E1|]. now rewrite E2, suffixed_hrefs_empty.
  - intros Hex a l ->. rewrite pops_assets, Hex. cbn [f_assets]. subst assets0.
    eexists. reflexivity.
  - intros props v exts. rewrite pops_properties, pops_stac_extensions.
    cbn [f_properties f_stac_extensions].
    destruct (mem "properties" exclude); [discriminate|].
    destruct (mem "stac_extensions" exclude); [discriminate|].
    intros E Hget Hv E'. injection E as <-. injection E' as <-.
    subst extensions. rewrite Hget, Hv.
    intros x Hx. apply in_or_app. now right.
Qed.

(** The item [S2_scene], whose metadata holds [storage:platform = "AWS"]:
    with no query string to preserve its asset keeps the stored href, and
    the storage extension is listed. *)
Lemma C6_storage_assets_keep_their_hrefs_witness :
  _resolve_item_file_root Sample.env Sample.S2_hit tt = ""
  /\ exists f,
      make_geojson Sample.env Sample.db [Sample.S2_hit] "" [] = Ok [f]
      /\ (forall assets,
             f_assets f = Some assets ->
             exists l,
               Some [("B04", Sample.B04_asset)] = Some l /\ hrefs assets = hrefs l)
      /\ (forall props v exts,
             f_properties f = Some props ->
             get props "storage:platform" = Some v -> truthy v = true ->
             f_stac_extensions f = Some exts ->
             incl ["https://stac-extensions.github.io/storage/v1.0.0/schema.json"] exts).
Proof.
  destruct (C6_storage_assets_keep_their_hrefs
              Sample.env Sample.db "" [] Sample.S2_hit
              [("storage:platform", VStr "AWS")] "POLYGON"
              (Some [("B04", Sample.B04_asset)])
              eq_refl eq_refl eq_refl eq_refl (or_intror eq_refl))
    as [Hroot [f [Hf [_ [Hh [_ Hext]]]]]].
  split; [exact Hroot|].
  exists f. split; [exact Hf|]. split; [exact (Hh eq_refl) | exact Hext].
Defined.

(** * Further properties *)

(** ** Visibility *)

(** X1: what the role constraint decides: a collection is visible when it
    is public, or when the role list holds no wildcard [*] and names its
    identifier.  A role list that holds the wildcard names nothing. *)
Theorem X1_role_constraint_decides (roles : list string) (c : Collection.t) :
  cholds (_add_roles_constraint roles) c
  = Collection.is_public c
    || (negb (mem "*" roles) && mem (Collection.identifier c) roles).
Proof.
  unfold _add_roles_constraint.
  destruct (mem "*" roles); simpl.
  - now rewrite !orb_false_r.
  - destruct roles as [|x roles]; simpl; now rewrite ?orb_false_r.
Qed.

(** X2: the collections that [get_collections] and [get_catalog] select are
    exactly the collections of the catalog that are available, visible
    under the roles and, when a non-empty [collection_id] is given, whose
    name and version joined by [-] equal it; [get_catalog] selects what
    [get_collections] selects without an id, and no roles are read as the
    empty role list. *)
Theorem X2_collection_listing (db : DB) (collection_id : option string)
    (roles : option (list string)) (c : Collection.t) :
  (In c (get_collections_rows db collection_id roles)
   <-> In c (db_collections db)
       /\ Collection.is_available c = true
       /\ (Collection.is_public c = true
           \/ mem "*" (match roles with Some r => r | None => [] end) = false
              /\ In (Collection.identifier c) (match roles with Some r => r | None => [] end))
       /\ (forall s,
              collection_id = Some s -> s <> "" ->
              Collection.name c +++ "-" +++ Collection.version c = s))
  /\ get_catalog db roles = get_collections_rows db None roles
  /\ get_collections_rows db collection_id None
     = get_collections_rows db collection_id (Some []).
Proof.
  split; [|split; [|reflexivity]].
  - unfold get_collections_rows, select_collections.
    set (rs := match roles with Some r => r | None => [] end).
    rewrite filter_In.
    assert (Hvis : cholds (_add_roles_constraint rs) c = true
                   <-> Collection.is_public c = true
                       \/ mem "*" rs = false /\ In (Collection.identifier c) rs).
    { rewrite roles_constraint_holds, orb_true_iff, andb_true_iff, negb_true_iff, mem_In.
      tauto. }
    destruct collection_id as [s|].
    + destruct (String.eqb_spec s "") as [->|Hs].
      * simpl. rewrite !andb_true_iff, Hvis. split.
        -- intros [H1 [H2 [H3 _]]]. repeat split; auto.
           intros s E Hs. injection E as <-. now contradiction Hs.
        -- intros [H1 [H2 [H3 _]]]. auto.
      * unfold truthy_str. pose proof Hs as Hs'. apply String.eqb_neq in Hs'.
        rewrite Hs'. simpl.
        rewrite !andb_true_iff, Hvis, String.eqb_eq. split.
        -- intros [H1 [H2 [H3 [H4 _]]]]. repeat split; auto.
           intros s' E _. now injection E as <-.
        -- intros [H1 [H2 [H3 H4]]]. repeat split; auto.
    + simpl. rewrite !andb_true_iff, Hvis. split.
      * intros [H1 [H2 [H3 _]]]. repeat split; auto. discriminate.
      * intros [H1 [H2 [H3 _]]]. auto.
  - unfold get_catalog, get_collections_rows.
    destruct roles as [[|r rs]|]; reflexivity.
Qed.

(** X3: whatever the arguments, a row that a returned item query selects
    joins an item with its own collection, both available, and the
    collection is visible under the roles: public, or named by a role list
    without wildcard. *)
Theorem X3_item_search_keeps_availability_and_visibility
    (env : Env) (st : Store) (db : DB) (a : Args.t) (q : Query) (r : row) :
  get_collection_items env db a = Ok q ->
  In r (select st db (q_where q)) ->
  In r (rows db)
  /\ Collection.id (r_collection r) = Item.collection_id (r_item r)
  /\ Collection.is_available (r_collection r) = true
  /\ Item.is_available (r_item r) = true
  /\ (Collection.is_public (r_collection r) = true
      \/ mem "*" (roles_of a) = false
         /\ In (Collection.identifier (r_collection r)) (roles_of a)).
Proof.
  intros Hq Hr.
  assert (Hbase : exists rest, q_where q = base_where (roles_of a) ++ rest).
  { destruct (Args.ids a) as [ids|] eqn:Hids.
    - unfold get_collection_items in Hq. rewrite Hids in Hq. cbn [bind] in Hq.
      inversion Hq. now eexists.
    - rewrite get_collection_items_steps in Hq by exact Hids.
      destruct (both_collection_parameters a); [discriminate|].
      destruct (query_clauses a); simpl in Hq; [|discriminate].
      destruct (spatial_clauses env a); simpl in Hq; [|discriminate].
      destruct (date_clauses a); simpl in Hq; [|discriminate].
      inversion Hq. now eexists. }
  destruct Hbase as [rest E]. rewrite E in Hr.
  unfold select in Hr. apply filter_In in Hr. destruct Hr as [Hin Hh].
  unfold holds_all in Hh. rewrite forallb_app in Hh.
  apply andb_true_iff in Hh. destruct Hh as [Hh _]. simpl in Hh.
  rewrite !andb_true_iff in Hh. destruct Hh as [H1 [H2 [H3 [H4 _]]]].
  split; [exact Hin|]. split; [now apply Z.eqb_eq|]. split; [exact H2|].
  split; [exact H3|].
  change (cholds (_add_roles_constraint (roles_of a)) (r_collection r) = true) in H4.
  rewrite roles_constraint_holds, orb_true_iff, andb_true_iff, negb_true_iff, mem_In in H4.
  tauto.
Qed.

(** The search for [S2_scene] by [ids] next to both collection parameters
    selects the one row of that item. *)
Lemma X3_item_search_keeps_availability_and_visibility_witness :
  In (mkRow Sample.S2 Sample.S2_scene (Some Sample.tile)) (rows Sample.db)
  /\ Collection.id Sample.S2 = Item.collection_id Sample.S2_scene
  /\ Collection.is_available Sample.S2 = true
  /\ Item.is_available Sample.S2_scene = true
  /\ (Collection.is_public Sample.S2 = true
      \/ mem "*" [] = false /\ In (Collection.identifier Sample.S2) []).
Proof.
  apply (X3_item_search_keeps_availability_and_visibility
           Sample.env Sample.store Sample.db Sample.ids_and_both_collections
           (mkQuery true (base_where [] ++ [Item_name_in ["S2_scene"]]) 1 10 1000)
           (mkRow Sample.S2 Sample.S2_scene (Some Sample.tile))).
  - reflexivity.
  - simpl. left. reflexivity.
Defined.

(** ** Filters of the item search *)

(** X4: the bounding box is not read when an intersection geometry or an
    explicit [ids] list is supplied: the call returns what it returns
    without the box, even for a box that would be rejected. *)
Theorem X4_bbox_is_not_read (env : Env) (db : DB) (a : Args.t) :
  Args.intersects a <> None \/ Args.ids a <> None ->
  get_collection_items env db a = get_collection_items env db (Args.without_bbox a).
Proof.
  intros H. unfold get_collection_items. cbn [Args.without_bbox Args.ids Args.exclude
    Args.roles Args.collection_id Args.collections Args.item_id Args.query
    Args.intersects Args.bbox Args.datetime Args.page Args.limit].
  destruct (Args.ids a) as [ids|]; [reflexivity|].
  destruct (Args.intersects a) as [g|]; [reflexivity|].
  destruct H as [H|H]; now contradiction H.
Qed.

(** A degenerate box next to [ids]. *)
Lemma X4_bbox_is_not_read_witness :
  get_collection_items Sample.env Sample.db Sample.ids_and_flat_bbox
  = get_collection_items Sample.env Sample.db
      (Args.without_bbox Sample.ids_and_flat_bbox).
Proof.
  apply X4_bbox_is_not_read. right. discriminate.
Defined.

Lemma floats_length (env : Env) (l : list Args.bbox_entry) (b : list float) :
  floats env l = Some b -> List.length b = List.length l.
Proof.
  revert b. induction l as [|x l IH]; intros b; simpl.
  - now intros [= <-].
  - destruct (float_of env x); [|discriminate].
    destruct (floats env l) as [fs|]; [|discriminate].
    intros [= <-]. simpl. now rewrite (IH fs).
Qed.

(** X5: the outcomes of the bounding-box step.  It accepts only a box of at
    least four numbers whose first and third, and second and fourth, entries
    differ, and then gives the one envelope clause of the first four; it
    answers 400 when an entry is not a number or one of the two pairs is
    equal; it raises [IndexError] only on fewer than four numbers; it raises
    nothing else. *)
Theorem X5_bbox_filter_outcomes (env : Env) (bbox : Args.bbox_arg) (gf : geom_field) :
  match bbox_filter env bbox gf with
  | Ok cs =>
      exists b0 b1 b2 b3 rest,
        floats env (Args.bbox_entries bbox) = Some (b0 :: b1 :: b2 :: b3 :: rest)
        /\ PrimFloat.eqb b0 b2 = false /\ PrimFloat.eqb b1 b3 = false
        /\ cs = [ST_Intersects_Envelope b0 b1 b2 b3 4326 gf]
  | Raise (Abort code d) =>
      code = 400%Z /\ d = Not_a_valid_bbox
      /\ (floats env (Args.bbox_entries bbox) = None
          \/ exists b0 b1 b2 rest,
              floats env (Args.bbox_entries bbox) = Some (b0 :: b1 :: b2 :: rest)
              /\ (PrimFloat.eqb b0 b2 = true
                  \/ exists b3 rest', rest = b3 :: rest' /\ PrimFloat.eqb b1 b3 = true))
  | Raise IndexError =>
      exists b,
        floats env (Args.bbox_entries bbox) = Some b
        /\ (List.length (Args.bbox_entries bbox) < 4)%nat
  | Raise _ => False
  end.
Proof.
  unfold bbox_filter.
  destruct (floats env (Args.bbox_entries bbox)) as [b|] eqn:Hb; [|auto].
  pose proof (floats_length env _ _ Hb) as Hlen.
  destruct b as [|b0 [|b1 [|b2 rest]]]; simpl in *;
    try (exists []; split; [reflexivity | lia]);
    try (eexists; split; [reflexivity | lia]).
  destruct (PrimFloat.eqb b0 b2) eqn:E02.
  - split; [reflexivity|]. split; [reflexivity|]. right.
    exists b0, b1, b2, rest. auto.
  - destruct rest as [|b3 rest].
    + simpl in Hlen. eexists. split; [reflexivity | lia].
    + destruct (PrimFloat.eqb b1 b3) eqn:E13.
      * split; [reflexivity|]. split; [reflexivity|]. right.
        exists b0, b1, b2, (b3 :: rest). split; [reflexivity|]. right.
        now exists b3, rest.
      * exists b0, b1, b2, b3, rest. auto.
Qed.

Lemma length_split (sep : ascii) (s : string) :
  List.length (split sep s) = S (count sep s).
Proof.
  induction s as [|c s IH]; simpl; [reflexivity|].
  destruct (Ascii.eqb c sep); simpl.
  - now rewrite IH.
  - destruct (split sep s) as [|w ws]; simpl in *; [discriminate | exact IH].
Qed.

Lemma contains_count (sep : ascii) (s : string) :
  contains sep s = negb (Nat.eqb (count sep s) 0).
Proof.
  induction s as [|c s IH]; simpl; [reflexivity|].
  destruct (Ascii.eqb c sep); simpl; [reflexivity | exact IH].
Qed.

(** X6: the temporal filter accepts a [datetime] with at most one [/], and
    then gives exactly one clause; with two or more [/] the assignment of
    the two bounds fails and it raises [ValueError]. *)
Theorem X6_date_filter_slashes (datetime : string) :
  ((count "/" datetime <= 1)%nat /\ exists c, date_filter datetime = Ok [c])
  \/ ((2 <= count "/" datetime)%nat /\ date_filter datetime = Raise ValueError).
Proof.
  unfold date_filter. rewrite contains_count.
  pose proof (length_split "/" datetime) as Hlen.
  destruct (count "/" datetime) as [|[|n]] eqn:Hc; simpl.
  - left. split; [lia | eexists; reflexivity].
  - left. split; [lia|].
    destruct (split "/" datetime) as [|time_start [|time_end [|x l]]];
      try discriminate.
    change ((time_start =? "..") || ((time_start =? "") || false))
      with (mem time_start [".."; ""]).
    change ((time_end =? "..") || ((time_end =? "") || false))
      with (mem time_end [".."; ""]).
    destruct (mem time_start [".."; ""]); [eexists; reflexivity|].
    destruct (mem time_end [".."; ""]); eexists; reflexivity.
  - right. split; [lia|].
    destruct (split "/" datetime) as [|time_start [|time_end [|x l]]];
      try discriminate; reflexivity.
Qed.

(** The clause [create_query_filter] builds for one triple: the operator is
    known, and the property is one of the indexed aliases or else a key of
    the item metadata read as text. *)
Lemma column_filters_outcome (column : string) (_filters : list (string * value)) :
  forall filters,
    match column_filters column _filters filters with
    | Ok fs =>
        exists new,
          fs = filters ++ new
          /\ Forall2 (fun (cov : string * string * value) f =>
                        exists method,
                          lookup (snd (fst cov)) mapping = Some method
                          /\ f = Property
                                   match lookup (fst (fst cov)) bdc_properties with
                                   | Some col => col
                                   | None => Item_metadata_astext (fst (fst cov))
                                   end method (snd cov))
                     (map (fun ov => (column, fst ov, snd ov)) _filters) new
    | Raise e =>
        exists op v,
          e = KeyError op /\ In (op, v) _filters /\ lookup op mapping = None
    end.
Proof.
  induction _filters as [|[op v] rest IH]; intros filters; cbn [column_filters map fst snd].
  - exists []. split; [now rewrite app_nil_r | constructor].
  - destruct (lookup op mapping) as [method|] eqn:Hop.
    + match goal with
      | |- context [column_filters column rest ?acc] =>
          specialize (IH acc); destruct (column_filters column rest acc) as [fs|e]
      end.
      * destruct IH as [new [E F]]. eexists. split.
        -- rewrite E, <- app_assoc. reflexivity.
        -- constructor; [|exact F]. exists method. cbn [fst snd].
           split; [exact Hop|]. now destruct (lookup column bdc_properties).
      * destruct IH as [op' [v' [E [Hin Hl]]]]. exists op', v'.
        split; [exact E|]. split; [now right | exact Hl].
    + exists op, v. split; [reflexivity|]. split; [now left | exact Hop].
Qed.

(** X7: [create_query_filter] either returns one clause per (property,
    operator, value) triple of the query, in order, each applying the method
    the operator stands for to the indexed column of the property ([bdc:tile],
    [bdc:tiles], [eo:cloud_cover]) or else to the text of that key of the
    item metadata; or it raises [KeyError] on an operator of the query that
    is not one of the ten known. *)
Theorem X7_create_query_filter_outcome (query : list (string * list (string * value))) :
  match create_query_filter query with
  | Ok fs =>
      Forall2 (fun (cov : string * string * value) f =>
                 exists method,
                   lookup (snd (fst cov)) mapping = Some method
                   /\ f = Property
                            match lookup (fst (fst cov)) bdc_properties with
                            | Some col => col
                            | None => Item_metadata_astext (fst (fst cov))
                            end method (snd cov))
              (operators query) fs
  | Raise e =>
      exists column op v,
        e = KeyError op /\ In (column, op, v) (operators query)
        /\ known_operator op = false
  end.
Proof.
  unfold create_query_filter.
  assert (H : forall filters,
             match query_filters query filters with
             | Ok fs =>
                 exists new,
                   fs = filters ++ new
                   /\ Forall2 (fun (cov : string * string * value) f =>
                                 exists method,
                                   lookup (snd (fst cov)) mapping = Some method
                                   /\ f = Property
                                            match lookup (fst (fst cov)) bdc_properties with
                                            | Some col => col
                                            | None => Item_metadata_astext (fst (fst cov))
                                            end method (snd cov))
                              (operators query) new
             | Raise e =>
                 exists column op v,
                   e = KeyError op /\ In (column, op, v) (operators query)
                   /\ known_operator op = false
             end).
  { induction query as [|[column _filters] rest IH]; intros filters.
    - simpl. exists []. split; [now rewrite app_nil_r | constructor].
    - simpl. pose proof (column_filters_outcome column _filters filters) as Hc.
      destruct (column_filters column _filters filters) as [fs|e]; simpl.
      + destruct Hc as [new [E F]]. specialize (IH fs).
        unfold operators in *. simpl.
        destruct (query_filters rest fs) as [fs'|e].
        * destruct IH as [new' [E' F']]. exists (new ++ new'). split.
          -- rewrite E', E, <- app_assoc. reflexivity.
          -- apply Forall2_app; assumption.
        * destruct IH as [c [op [v [E' [Hin Hk]]]]]. exists c, op, v.
          split; [exact E'|]. split; [|exact Hk]. apply in_or_app. now right.
      + destruct Hc as [op [v [E [Hin Hl]]]]. exists column, op, v.
        split; [exact E|]. split.
        * unfold operators. simpl. apply in_or_app. left.
          apply in_map_iff. now exists (op, v).
        * unfold known_operator. now rewrite Hl. }
  specialize (H []).
  destruct (query_filters query []) as [fs|e]; [|exact H].
  destruct H as [new [E F]]. simpl in E. now subst.
Qed.

(** X8: the order in which the item search reports errors when [ids] is
    absent and the two collection parameters are not both given: a failure
    of the property query is raised whatever the box and the datetime are,
    and, when the property query is accepted, a rejected box is reported
    whatever the datetime is. *)
Theorem X8_error_order (env : Env) (db : DB) (a : Args.t) :
  Args.ids a = None ->
  both_collection_parameters a = false ->
  (forall kv q e,
      Args.query a = Some (kv :: q) ->
      create_query_filter (kv :: q) = Raise e ->
      get_collection_items env db a = Raise e)
  /\ (forall bbox e,
         is_ok (query_clauses a) = true ->
         Args.intersects a = None -> Args.bbox a = Some bbox ->
         bbox_filter env bbox (geom_field_of env) = Raise e ->
         get_collection_items env db a = Raise e).
Proof.
  intros Hids Hboth. split.
  - intros kv q e Hq He. rewrite get_collection_items_steps by exact Hids.
    rewrite Hboth. unfold query_clauses. now rewrite Hq, He.
  - intros bbox e Hok Hint Hb He. rewrite get_collection_items_steps by exact Hids.
    rewrite Hboth. destruct (query_clauses a) as [qs|]; [|discriminate]. simpl.
    unfold spatial_clauses. now rewrite Hint, Hb, He.
Qed.

(** A query with the unknown operator [like] next to a degenerate box
    raises [KeyError]; a degenerate box next to a datetime with two slashes
    is answered with the 400 of the box. *)
Lemma X8_error_order_witness :
  get_collection_items Sample.env Sample.db More.unknown_operator_and_flat_box
  = Raise (KeyError "like")
  /\ get_collection_items Sample.env Sample.db More.flat_box_and_two_slashes
     = Raise (Abort 400 Not_a_valid_bbox).
Proof.
  split.
  - apply (proj1 (X8_error_order Sample.env Sample.db
                    More.unknown_operator_and_flat_box eq_refl eq_refl)
             ("eo:cloud_cover", [("like", VInt 50)]) []); reflexivity.
  - apply (proj2 (X8_error_order Sample.env Sample.db
                    More.flat_box_and_two_slashes eq_refl eq_refl)
             (Args.Bbox_list [Args.Num 1; Args.Num 2; Args.Num 1; Args.Num 4]));
      reflexivity.
Defined.

(** X9: a single [collection_id] is the collection filter of the one-element
    list: the call with a non-empty [collection_id] and no [collections]
    returns what the call with [collections = [collection_id]] and no
    [collection_id] returns. *)
Theorem X9_collection_id_is_a_one_element_list
    (env : Env) (db : DB) (a : Args.t) (collection_id : string) :
  truthy_str collection_id = true ->
  get_collection_items env db (with_collections a (Some collection_id) None)
  = get_collection_items env db (with_collections a None (Some (Lst [collection_id]))).
Proof.
  intros H. unfold get_collection_items, with_collections.
  cbn [Args.ids Args.exclude Args.roles Args.collection_id Args.collections
       Args.item_id Args.query Args.intersects Args.bbox Args.datetime
       Args.page Args.limit].
  unfold truthy_opt_str. rewrite H. reflexivity.
Qed.

Lemma X9_collection_id_is_a_one_element_list_witness :
  get_collection_items Sample.env Sample.db
    (with_collections Args.default (Some "S2-1") None)
  = get_collection_items Sample.env Sample.db
      (with_collections Args.default None (Some (Lst ["S2-1"]))).
Proof.
  apply X9_collection_id_is_a_one_element_list. reflexivity.
Defined.

(** X10: the collection filter alone.  In a catalog whose collection ids
    are unique, a call that supplies only a non-empty [collections]
    parameter selects exactly the rows that join an available item with its
    available collection, visible under the roles, whose identifier is one
    of those named. *)
Theorem X10_collection_filter_selects_named_collections
    (env : Env) (st : Store) (db : DB) (a : Args.t) (collections : str_or_list)
    (r : row) :
  NoDup (map Collection.id (db_collections db)) ->
  Args.ids a = None -> Args.collection_id a = None ->
  Args.collections a = Some collections -> truthy_sl collections = true ->
  Args.item_id a = None -> Args.query a = None -> Args.intersects a = None ->
  Args.bbox a = None -> Args.datetime a = None ->
  exists q,
    get_collection_items env db a = Ok q
    /\ (In r (select st db (q_where q))
        <-> In r (rows db)
            /\ Collection.id (r_collection r) = Item.collection_id (r_item r)
            /\ Collection.is_available (r_collection r) = true
            /\ Item.is_available (r_item r) = true
            /\ cholds (_add_roles_constraint (roles_of a)) (r_collection r) = true
            /\ In (Collection.identifier (r_collection r)) (as_list collections)).
Proof.
  intros ND Hids Hcid Hcs Hcst Hitem Hq Hint Hb Hd.
  rewrite get_collection_items_steps by exact Hids.
  unfold both_collection_parameters, query_clauses, spatial_clauses, date_clauses,
    collection_clauses, effective_collections, item_clauses.
  rewrite Hcid, Hcs, Hcst, Hitem, Hq, Hint, Hb, Hd. simpl.
  eexists. split; [reflexivity|]. cbn [q_where].
  unfold select. rewrite filter_In. unfold holds_all. simpl.
  rewrite !andb_true_iff, Z.eqb_eq, mem_Z_In, In_resolve_collections, <- mem_In.
  split.
  - intros [Hin [H1 [H2 [H3 [H4 [[c [Hc [Hm E]]] _]]]]]].
    repeat split; auto.
    assert (c = r_collection r).
    { eapply NoDup_map_injective; eauto. now apply rows_collection. }
    now subst c.
  - intros [Hin [H1 [H2 [H3 [H4 H5]]]]]. repeat split; auto.
    exists (r_collection r). repeat split; auto. now apply rows_collection.
Qed.

(** The collections [S2] and [L8] named in one string, under the role
    [L8-1]: the row of the scene of the internal collection is selected. *)
Lemma X10_collection_filter_selects_named_collections_witness :
  exists q,
    get_collection_items Sample.env Sample.db More.two_collections = Ok q
    /\ In (mkRow Sample.L8 Sample.L8_scene None) (select Sample.store Sample.db (q_where q)).
Proof.
  destruct (X10_collection_filter_selects_named_collections
              Sample.env Sample.store Sample.db More.two_collections
              (Str "S2-1,L8-1") (mkRow Sample.L8 Sample.L8_scene None))
    as [q [Hq Hiff]]; try reflexivity.
  - repeat constructor; simpl; intuition discriminate.
  - exists q. split; [exact Hq|]. apply Hiff.
    repeat split; try reflexivity; simpl; auto.
Defined.

(** ** Field selection, continued *)

Lemma split_parts_without_sep (sep : ascii) (s x : string) :
  In x (split sep s) -> contains sep x = false.
Proof.
  revert x. induction s as [|c s IH]; intros x; simpl.
  - intros [<-|[]]. reflexivity.
  - destruct (Ascii.eqb c sep) eqn:E.
    + intros [<-|H]; [reflexivity | now apply IH].
    + destruct (split sep s) as [|w ws] eqn:Es; simpl.
      * intros [<-|[]]. simpl. now rewrite E.
      * intros [<-|H].
        -- simpl. rewrite E. apply IH. now left.
        -- apply IH. now right.
Qed.

Lemma split_parts_contain (sep c : ascii) (s x : string) :
  contains c s = false -> In x (split sep s) -> contains c x = false.
Proof.
  revert x. induction s as [|a s IH]; intros x; simpl.
  - intros _ [<-|[]]. reflexivity.
  - intros H. apply orb_false_iff in H. destruct H as [Ha Hs].
    destruct (Ascii.eqb a sep).
    + intros [<-|H]; [reflexivity | now apply IH].
    + destruct (split sep s) as [|w ws] eqn:Es; simpl.
      * intros [<-|[]]. simpl. now rewrite Ha.
      * intros [<-|H].
        -- simpl. rewrite Ha. apply IH; [exact Hs | now left].
        -- apply IH; [exact Hs | now right].
Qed.

Lemma contains_tail (c : ascii) (s : string) :
  contains c s = false -> contains c (tail s) = false.
Proof.
  destruct s as [|a s]; simpl; [auto|].
  intros H. now apply orb_false_iff in H.
Qed.

(** The entries of a field list keep three properties through
    [parse_field]. *)
Lemma parse_field_invariant (fields : list string) :
  Forall (fun f => contains "," f = false) fields ->
  forall acc,
    let P (r : list string * list excluded) :=
      Forall (fun f => startswith f "-" = false /\ contains "," f = false) (fst r)
      /\ Forall (fun e =>
                   Forall (fun p => contains "." p = false /\ contains "," p = false)
                          (excluded_parts e)
                   /\ match e with Path _ sub => sub <> [] | Name _ => True end) (snd r) in
    P acc ->
    P (fold_left parse_field fields acc)
    /\ List.length (fst (fold_left parse_field fields acc))
       + List.length (snd (fold_left parse_field fields acc))
       = List.length (fst acc) + List.length (snd acc) + List.length fields.
Proof.
  induction 1 as [|f fields Hf _ IH]; intros [inc exc] P HP;
    cbn [fold_left List.length fst snd].
  - split; [exact HP | lia].
  - assert (Hstep : P (parse_field (inc, exc) f)
                    /\ List.length (fst (parse_field (inc, exc) f))
                       + List.length (snd (parse_field (inc, exc) f))
                       = S (List.length inc + List.length exc)).
    { destruct HP as [Hi He]. unfold parse_field.
      destruct (startswith f "-") eqn:Hs; subst P; cbn [fst snd].
      - split; [|rewrite length_app; simpl; lia].
        split; [exact Hi|]. apply Forall_app. split; [exact He|].
        constructor; [|constructor].
        assert (Hparts : forall p, In p (split "." f) ->
                           contains "." p = false /\ contains "," p = false).
        { intros p Hp. split.
          - now apply split_parts_without_sep with (s := f).
          - now apply split_parts_contain with (sep := "."%char) (s := f). }
        destruct (split "." f) as [|h t] eqn:Es; [now apply split_not_nil in Es|].
        cbn [hd tl List.length].
        assert (Hh : contains "." (tail h) = false /\ contains "," (tail h) = false).
        { destruct (Hparts h (or_introl eq_refl)). split; now apply contains_tail. }
        assert (Ht : Forall (fun p => contains "." p = false /\ contains "," p = false) t).
        { apply Forall_forall. intros p Hp. apply Hparts. now right. }
        destruct t as [|t1 t]; simpl.
        + split; [constructor; [exact Hh | constructor] | exact I].
        + split; [constructor; [exact Hh | exact Ht] | discriminate].
      - split; [|rewrite length_app; simpl; lia].
        split; [|exact He]. apply Forall_app. split; [exact Hi|].
        constructor; [split; [exact Hs | exact Hf] | constructor]. }
    destruct Hstep as [HP' Hlen].
    destruct (IH (parse_field (inc, exc) f) HP') as [H1 H2].
    split; [exact H1|]. rewrite H2, Hlen. lia.
Qed.

(** X11: [parse_fields_parameter] puts every field of the string in
    exactly one of the two lists (their lengths add up to the number of
    commas plus one); an included name does not start with [-] and holds no
    comma; the name and the sub-path parts of an excluded entry hold neither
    a dot nor a comma, and a sub-path is never empty. *)
Theorem X11_parse_fields_partition (fields : string) :
  List.length (fst (parse_fields_parameter (Some fields)))
  + List.length (snd (parse_fields_parameter (Some fields)))
  = S (count "," fields)
  /\ Forall (fun f => startswith f "-" = false /\ contains "," f = false)
            (fst (parse_fields_parameter (Some fields)))
  /\ Forall (fun e =>
               Forall (fun p => contains "." p = false /\ contains "," p = false)
                      (excluded_parts e)
               /\ match e with Path _ sub => sub <> [] | Name _ => True end)
            (snd (parse_fields_parameter (Some fields))).
Proof.
  unfold parse_fields_parameter.
  assert (Hf : Forall (fun f => contains "," f = false) (split "," fields)).
  { apply Forall_forall. intros f. apply split_parts_without_sep. }
  destruct (parse_field_invariant _ Hf ([], [])) as [[H1 H2] H3].
  - split; constructor.
  - split; [|split; assumption].
    rewrite H3, length_split. reflexivity.
Qed.

(** ** The electro-optical summary, continued *)

Lemma eo_loop_outcome (bands : list Band.t) :
  forall eo_bands0 g log,
    match fst (eo_loop bands eo_bands0 g log) with
    | Ok _ => Forall (fun b => Band.eo_resolutions b <> Some []) bands
    | Raise e =>
        e = IndexError /\ Exists (fun b => Band.eo_resolutions b = Some []) bands
    end.
Proof.
  induction bands as [|band rest IH]; intros acc g log; simpl; [constructor|].
  destruct (Band.eo_resolutions band) as [[|r0 res]|] eqn:E; simpl.
  - split; [reflexivity | now left].
  - destruct (PrimFloat.ltb g r0);
      match goal with
      | |- context [eo_loop rest ?a ?b ?c] =>
          specialize (IH a b c); destruct (fst (eo_loop rest a b c))
      end;
      try (constructor; [rewrite E; discriminate | exact IH]);
      (destruct IH as [He Hex]; split; [exact He | now right]).
  - specialize (IH acc g (log ++ [no_resolution_warning band])).
    destruct (fst (eo_loop rest acc g (log ++ [no_resolution_warning band]))).
    + constructor; [rewrite E; discriminate | exact IH].
    + destruct IH as [He Hex]. split; [exact He | now right].
Qed.

(** X12: [get_collection_eo] fails exactly when a band of the collection
    has resolution data that is an empty list, and then with [IndexError];
    it returns in every other case. *)
Theorem X12_eo_summary_fails_on_empty_resolutions (db : DB) (collection_id : Z) :
  match fst (get_collection_eo db collection_id) with
  | Ok _ =>
      Forall (fun b => Band.eo_resolutions b <> Some []) (bands_of db collection_id)
  | Raise e =>
      e = IndexError
      /\ Exists (fun b => Band.eo_resolutions b = Some []) (bands_of db collection_id)
  end.
Proof.
  apply eo_loop_outcome.
Qed.

(** ** Dictionaries *)

Lemma get_set_same (d : dict) (k : string) (v : value) : get (set d k v) k = Some v.
Proof.
  induction d as [|[k' v'] d IH]; simpl.
  - now rewrite String.eqb_refl.
  - destruct (String.eqb k' k) eqn:E; simpl; rewrite E; [reflexivity | exact IH].
Qed.

Lemma get_set_other (d : dict) (k k' : string) (v : value) :
  k <> k' -> get (set d k v) k' = get d k'.
Proof.
  intros N. induction d as [|[k0 v0] d IH]; simpl.
  - apply String.eqb_neq in N. now rewrite N.
  - destruct (String.eqb k0 k) eqn:E; simpl.
    + apply String.eqb_eq in E. subst k0.
      apply String.eqb_neq in N. now rewrite N.
    + destruct (String.eqb k0 k'); [reflexivity | exact IH].
Qed.

Lemma get_app (d d' : dict) (k : string) :
  get (d ++ d') k = match get d k with Some v => Some v | None => get d' k end.
Proof.
  induction d as [|[k0 v0] d IH]; simpl; [reflexivity|].
  destruct (String.eqb k0 k); [reflexivity | exact IH].
Qed.

(** [update] lets the later entry win: the value of a key is its last
    value in the second dictionary, else its value in the first. *)
Lemma get_update (d d' : dict) (k : string) :
  get (update d d') k
  = match get (rev d') k with Some v => Some v | None => get d k end.
Proof.
  unfold update. revert d. induction d' as [|[k1 v1] d' IH]; intros d; simpl.
  - reflexivity.
  - rewrite IH, get_app. destruct (get (rev d') k); [reflexivity|]. simpl.
    destruct (String.eqb_spec k1 k) as [->|N].
    + apply get_set_same.
    + now apply get_set_other.
Qed.

Lemma set_not_empty (d : dict) (k : string) (v : value) : set d k v <> [].
Proof.
  destruct d as [|[k' v'] d]; simpl; [discriminate|].
  destruct (String.eqb k' k); discriminate.
Qed.

(** X13: the free-form properties of a band override the fields computed
    from its columns: a key of [band.properties] has in the band entry the
    value the properties give it (the last one, were it repeated), and a
    computed field such as [name] or [nodata] keeps the value of its column
    only when the properties do not hold that key. *)
Theorem X13_band_properties_override (band : Band.t) (k : string) :
  (forall v, get (rev (Band.properties band)) k = Some v ->
             get (band_meta band) k = Some v)
  /\ (get (rev (Band.properties band)) "name" = None ->
      get (band_meta band) "name" = Some (VStr (Band.name band)))
  /\ (get (rev (Band.properties band)) "nodata" = None ->
      get (band_meta band) "nodata" = Some (opt_float (Band.nodata band))).
Proof.
  unfold band_meta. repeat split.
  - intros v H. now rewrite get_update, H.
  - intros H. now rewrite get_update, H.
  - intros H. now rewrite get_update, H.
Qed.

(** The band [B04] renamed [red] by its properties. *)
Lemma X13_band_properties_override_witness :
  get (band_meta More.renamed_band) "name" = Some (VStr "red")
  /\ get (band_meta More.renamed_band) "nodata" = Some (VFloat (-9999)).
Proof.
  destruct (X13_band_properties_override More.renamed_band "name") as [H1 [_ H3]].
  split; [exact (H1 (VStr "red") eq_refl) | exact (H3 eq_refl)].
Defined.

(** ** Processing lineage *)

Lemma get_item_processors_fold (db : DB) (item_id : Z) :
  get_item_processors db item_id
  = match fold_left processors_step (processors_of db item_id) (None, []) with
    | (Some proc_root, (kv :: obj) as processors_obj) =>
        [("processing:lineage", VStr (Processor.name proc_root));
         ("processing:facility", VStr (Processor.facility proc_root));
         ("processing:level", VInt (Processor.level proc_root));
         ("processing:software", VDict processors_obj)]
    | _ => []
    end.
Proof.
  reflexivity.
Qed.

Lemma processors_step_software (l : list Processor.t) :
  forall st,
    snd (fold_left processors_step l st)
    = update (snd st)
        (map (fun p => (Processor.facility p, VStr (Processor.version p))) l).
Proof.
  induction l as [|p l IH]; intros st; simpl; [reflexivity|].
  rewrite IH. reflexivity.
Qed.

(** The root the loop ends with, started from a root [r]: it is [r] when no
    later record has a higher level, else the first record of the highest
    level. *)
Lemma processors_step_root (l : list Processor.t) :
  forall r obj,
    exists root,
      fst (fold_left processors_step l (Some r, obj)) = Some root
      /\ ((root = r /\ Forall (fun x => (Processor.level x <= Processor.level r)%Z) l)
          \/ exists pre post,
              l = pre ++ root :: post
              /\ (Processor.level r < Processor.level root)%Z
              /\ Forall (fun x => (Processor.level x < Processor.level root)%Z) pre
              /\ Forall (fun x => (Processor.level x <= Processor.level root)%Z) post).
Proof.
  induction l as [|x l IH]; intros r obj.
  - exists r. split; [reflexivity|]. left. split; [reflexivity | constructor].
  - cbn [fold_left]. unfold processors_step at 2. cbn [fst snd].
    destruct (Z.gtb_spec (Processor.level x) (Processor.level r)) as [Hgt|Hle].
    + destruct (IH x (set obj (Processor.facility x) (VStr (Processor.version x))))
        as [root [E [[-> Hall]|[pre [post [El [Hlt [Hpre Hpost]]]]]]]].
      * exists x. split; [exact E|]. right. exists [], l.
        split; [reflexivity|]. split; [lia|]. split; [constructor | exact Hall].
      * exists root. split; [exact E|]. right. exists (x :: pre), post.
        split; [now rewrite El|]. split; [lia|].
        split; [constructor; [lia | exact Hpre] | exact Hpost].
    + destruct (IH r (set obj (Processor.facility x) (VStr (Processor.version x))))
        as [root [E [[-> Hall]|[pre [post [El [Hlt [Hpre Hpost]]]]]]]].
      * exists r. split; [exact E|]. left. split; [reflexivity|].
        constructor; [lia | exact Hall].
      * exists root. split; [exact E|]. right. exists (x :: pre), post.
        split; [now rewrite El|]. split; [lia|].
        split; [constructor; [lia | exact Hpre] | exact Hpost].
Qed.

Lemma get_facility_version (l : list Processor.t) (facility : string) :
  get (map (fun p => (Processor.facility p, VStr (Processor.version p))) l) facility
  = option_map (fun p => VStr (Processor.version p))
      (find (fun p => String.eqb (Processor.facility p) facility) l).
Proof.
  induction l as [|p l IH]; simpl; [reflexivity|].
  destruct (String.eqb (Processor.facility p) facility); [reflexivity | exact IH].
Qed.

Lemma item_processors_shape (db : DB) (item_id : Z) :
  match processors_of db item_id with
  | [] => get_item_processors db item_id = []
  | _ :: _ =>
      exists pre root post software,
        processors_of db item_id = pre ++ root :: post
        /\ Forall (fun x => (Processor.level x < Processor.level root)%Z) pre
        /\ Forall (fun x => (Processor.level x <= Processor.level root)%Z) post
        /\ get_item_processors db item_id
           = [("processing:lineage", VStr (Processor.name root));
              ("processing:facility", VStr (Processor.facility root));
              ("processing:level", VInt (Processor.level root));
              ("processing:software", VDict software)]
        /\ forall facility,
            get software facility
            = option_map (fun p => VStr (Processor.version p))
                (find (fun p => String.eqb (Processor.facility p) facility)
                      (rev (processors_of db item_id)))
  end.
Proof.
  rewrite get_item_processors_fold.
  destruct (processors_of db item_id) as [|p l] eqn:Hp; [reflexivity|].
  cbn [fold_left]. unfold processors_step at 2. cbn [fst snd].
  set (obj0 := set [] (Processor.facility p) (VStr (Processor.version p))).
  destruct (processors_step_root l p obj0) as [root [Eroot Hroot]].
  pose proof (processors_step_software l (Some p, obj0)) as Esoft.
  destruct (fold_left processors_step l (Some p, obj0)) as [o software].
  cbn [fst snd] in Eroot, Esoft. subst o.
  assert (Hget : forall facility,
             get software facility
             = option_map (fun p0 => VStr (Processor.version p0))
                 (find (fun p0 => String.eqb (Processor.facility p0) facility)
                       (rev (p :: l)))).
  { intros facility. rewrite Esoft, get_update, <- get_facility_version.
    cbn [rev]. rewrite map_app, get_app, map_rev. reflexivity. }
  assert (Hne : software <> []).
  { rewrite Esoft. unfold update.
    assert (H0 : obj0 <> []) by apply set_not_empty.
    clear - H0. revert H0. generalize obj0.
    induction l as [|x l IH]; intros d Hd; simpl; [exact Hd|].
    apply IH. apply set_not_empty. }
  destruct software as [|kv software]; [now contradiction Hne|].
  destruct Hroot as [[-> Hall]|[pre [post [El [Hlt [Hpre Hpost]]]]]].
  - exists [], p, l, (kv :: software).
    split; [reflexivity|]. split; [constructor|]. split; [exact Hall|].
    split; [reflexivity | exact Hget].
  - exists (p :: pre), root, post, (kv :: software).
    split; [now rewrite El|]. split; [constructor; [exact Hlt | exact Hpre]|].
    split; [exact Hpost|]. split; [reflexivity | exact Hget].
Qed.

(** X14: the processing fields of an item.  Without processing records the
    result is empty.  Otherwise it holds four keys: lineage, facility and
    level are those of the first record of the highest level, and
    [processing:software] maps every facility to the version of its last
    record. *)
Theorem X14_item_processors (db : DB) (item_id : Z) :
  match processors_of db item_id with
  | [] => get_item_processors db item_id = []
  | _ :: _ =>
      exists pre root post software,
        processors_of db item_id = pre ++ root :: post
        /\ Forall (fun x => (Processor.level x < Processor.level root)%Z) pre
        /\ Forall (fun x => (Processor.level x <= Processor.level root)%Z) post
        /\ get_item_processors db item_id
           = [("processing:lineage", VStr (Processor.name root));
              ("processing:facility", VStr (Processor.facility root));
              ("processing:level", VInt (Processor.level root));
              ("processing:software", VDict software)]
        /\ forall facility,
            get software facility
            = option_map (fun p => VStr (Processor.version p))
                (find (fun p => String.eqb (Processor.facility p) facility)
                      (rev (processors_of db item_id)))
  end.
Proof.
  exact (item_processors_shape db item_id).
Qed.

(** ** Features, continued *)

Lemma pop_id (f : Feature) (k : string) :
  f_id (pop f k) = if String.eqb k "id" then None else f_id f.
Proof.
  pop_cases k.
Qed.

Lemma pop_geometry (f : Feature) (k : string) :
  f_geometry (pop f k) = if String.eqb k "geometry" then None else f_geometry f.
Proof.
  pop_cases k.
Qed.

Lemma pop_bbox (f : Feature) (k : string) :
  f_bbox (pop f k) = if String.eqb k "bbox" then None else f_bbox f.
Proof.
  pop_cases k.
Qed.

Lemma pop_links (f : Feature) (k : string) :
  f_links (pop f k) = if String.eqb k "links" then None else f_links f.
Proof.
  pop_cases k.
Qed.

Ltac pops_field key pop_lemma :=
  let f := fresh "f" in
  let k := fresh "k" in
  let ex := fresh "ex" in
  let IH := fresh "IH" in
  intros ex; induction ex as [|k ex IH]; intros f; [reflexivity|];
  cbn [fold_left];
  change (mem key (k :: ex)) with (String.eqb key k || mem key ex);
  rewrite IH, pop_lemma, (String.eqb_sym key k);
  destruct (String.eqb k key), (mem key ex); reflexivity.

Lemma pops_id :
  forall exclude f,
    f_id (fold_left pop exclude f) = if mem "id" exclude then None else f_id f.
Proof.
  pops_field "id" pop_id.
Qed.

Lemma pops_geometry :
  forall exclude f,
    f_geometry (fold_left pop exclude f)
    = if mem "geometry" exclude then None else f_geometry f.
Proof.
  pops_field "geometry" pop_geometry.
Qed.

Lemma pops_bbox :
  forall exclude f,
    f_bbox (fold_left pop exclude f) = if mem "bbox" exclude then None else f_bbox f.
Proof.
  pops_field "bbox" pop_bbox.
Qed.

Lemma pops_links :
  forall exclude f,
    f_links (fold_left pop exclude f) = if mem "links" exclude then None else f_links f.
Proof.
  pops_field "links" pop_links.
Qed.

(** Exclusion is the last step of [make_feature]. *)
Lemma make_feature_exclude (env : Env) (db : DB) (assets_kwargs : string)
    (exclude : list string) (i : Hit.t) :
  make_feature env db assets_kwargs exclude i
  = match make_feature env db assets_kwargs [] i with
    | Ok f => Ok (fold_left pop exclude f)
    | Raise e => Raise e
    end.
Proof.
  unfold make_feature.
  destruct (or_else (Hit.footprint i) (Hit.bbox i)); [|reflexivity]. cbn [bind].
  destruct (if String.eqb (Hit.category i) "eo" then _ else _); [|reflexivity].
  cbn [bind].
  destruct (Hit.assets i) as [[[|kv l]|]|]; reflexivity.
Qed.

(** X15: excluding keys neither prevents nor causes an error of
    [make_geojson], for one row: the feature is built in full first, and the
    call fails with the excluded keys exactly when it fails without; on
    success the excluded keys, and only they, are removed (here for [id],
    [geometry], [bbox], [links], [assets], [properties] and
    [stac_extensions]). *)
Theorem X15_exclusion_only_removes_keys (env : Env) (db : DB) (assets_kwargs : string)
    (exclude : list string) (i : Hit.t) :
  match make_feature env db assets_kwargs [] i with
  | Raise e => make_feature env db assets_kwargs exclude i = Raise e
  | Ok f =>
      exists f',
        make_feature env db assets_kwargs exclude i = Ok f'
        /\ f_id f' = (if mem "id" exclude then None else f_id f)
        /\ f_geometry f' = (if mem "geometry" exclude then None else f_geometry f)
        /\ f_bbox f' = (if mem "bbox" exclude then None else f_bbox f)
        /\ f_links f' = (if mem "links" exclude then None else f_links f)
        /\ f_assets f' = (if mem "assets" exclude then None else f_assets f)
        /\ f_properties f' = (if mem "properties" exclude then None else f_properties f)
        /\ f_stac_extensions f'
           = (if mem "stac_extensions" exclude then None else f_stac_extensions f)
  end.
Proof.
  rewrite (make_feature_exclude env db assets_kwargs exclude i).
  destruct (make_feature env db assets_kwargs [] i) as [f|e]; [|reflexivity].
  eexists. split; [reflexivity|].
  rewrite pops_id, pops_geometry, pops_bbox, pops_links, pops_assets,
    pops_properties, pops_stac_extensions.
  repeat split.
Qed.

(** X16: [make_geojson] gives one feature per row, in the order of the
    rows, each the feature of its row; it fails with the error of the first
    row whose feature cannot be built. *)
Theorem X16_one_feature_per_row (env : Env) (db : DB) (items : list Hit.t)
    (assets_kwargs : string) (exclude : list string) :
  match make_geojson env db items assets_kwargs exclude with
  | Ok features =>
      Forall2 (fun i f => make_feature env db assets_kwargs exclude i = Ok f)
              items features
  | Raise e =>
      exists before i after,
        items = before ++ i :: after
        /\ Forall (fun j => is_ok (make_feature env db assets_kwargs exclude j) = true)
                  before
        /\ make_feature env db assets_kwargs exclude i = Raise e
  end.
Proof.
  induction items as [|i items IH]; cbn [make_geojson]; [constructor|].
  destruct (make_feature env db assets_kwargs exclude i) as [f|e] eqn:E; cbn [bind].
  - destruct (make_geojson env db items assets_kwargs exclude) as [fs|e]; cbn [bind].
    + constructor; assumption.
    + destruct IH as [before [j [after [E1 [E2 E3]]]]].
      exists (i :: before), j, after.
      split; [now rewrite E1|]. split; [|exact E3].
      constructor; [now rewrite E | exact E2].
  - exists [], i, items. split; [reflexivity|]. split; [constructor | exact E].
Qed.

(** [make_feature], outcome by outcome: no geometry, a failed band lookup,
    no [assets] column, or the feature. *)
Lemma make_feature_outcome (env : Env) (db : DB) (assets_kwargs : string)
    (exclude : list string) (i : Hit.t) :
  make_feature env db assets_kwargs exclude i
  = match or_else (Hit.footprint i) (Hit.bbox i) with
    | None => Raise AttributeError
    | Some g =>
        match feature_bands db i with
        | Raise e => Raise e
        | Ok bands =>
            match Hit.assets i with
            | None => Raise AttributeError
            | Some stored =>
                Ok (fold_left pop exclude
                      (built_feature env db assets_kwargs i g bands stored))
            end
        end
    end.
Proof.
  unfold make_feature, feature_bands.
  destruct (or_else (Hit.footprint i) (Hit.bbox i)) as [g|]; [|reflexivity]. cbn [bind].
  destruct (if String.eqb (Hit.category i) "eo" then _ else _) as [bands|e];
    [|reflexivity].
  cbn [bind].
  destruct (Hit.assets i) as [[[|kv l]|]|]; reflexivity.
Qed.

(** X17: the geometry of a feature.  A row with neither footprint nor
    bounding box makes [make_geojson] fail on it ([AttributeError]).
    Otherwise the [geometry] of the feature is that of the footprint when
    there is one, else that of the bounding box, while its [bbox] is always
    read from the bounding box and is the empty list when there is none. *)
Theorem X17_feature_geometry (env : Env) (db : DB) (assets_kwargs : string)
    (exclude : list string) (i : Hit.t) :
  (Hit.footprint i = None -> Hit.bbox i = None ->
   make_feature env db assets_kwargs exclude i = Raise AttributeError)
  /\ (forall f,
         make_feature env db assets_kwargs exclude i = Ok f ->
         mem "geometry" exclude = false -> mem "bbox" exclude = false ->
         f_geometry f
         = match Hit.footprint i with
           | Some g => Some (shape_mapping env g)
           | None => option_map (shape_mapping env) (Hit.bbox i)
           end
         /\ f_bbox f
            = Some match Hit.bbox i with
                   | Some g => shape_bounds env g
                   | None => VList []
                   end).
Proof.
  rewrite make_feature_outcome. split.
  - intros -> ->. reflexivity.
  - intros f Hf Hg Hb.
    destruct (or_else (Hit.footprint i) (Hit.bbox i)) as [g|] eqn:Eg; [|discriminate].
    destruct (feature_bands db i) as [bands|]; [|discriminate].
    destruct (Hit.assets i) as [stored|]; [|discriminate].
    injection Hf as <-. rewrite pops_geometry, pops_bbox, Hg, Hb. cbn [f_geometry f_bbox built_feature].
    split; [|reflexivity].
    unfold or_else in Eg. destruct (Hit.footprint i) as [fp|].
    + now injection Eg as ->.
    + now rewrite Eg.
Qed.

(** The scene of the internal collection has a footprint and no bounding
    box; a row without either cannot be rendered. *)
Lemma X17_feature_geometry_witness :
  (forall f,
      make_feature Sample.env Sample.db "" []
        (hit_of (mkQuery true [] 1 10 1000) (mkRow Sample.L8 Sample.L8_scene None)) = Ok f ->
      f_geometry f = Some (VStr "POLYGON") /\ f_bbox f = Some (VList []))
  /\ make_feature Sample.env Sample.db "" [] More.no_geometry_hit = Raise AttributeError.
Proof.
  split.
  - intros f Hf.
    exact (proj2 (X17_feature_geometry Sample.env Sample.db "" []
                    (hit_of (mkQuery true [] 1 10 1000)
                            (mkRow Sample.L8 Sample.L8_scene None)))
                 f Hf eq_refl eq_refl).
  - exact (proj1 (X17_feature_geometry Sample.env Sample.db "" [] More.no_geometry_hit)
                 eq_refl eq_refl).
Defined.

(** X18: a search that excludes [assets] leaves the [assets] column out of
    its rows, and [make_geojson] reads that column of every row: on a
    non-empty page of such a search it fails, whatever keys it is asked to
    exclude. *)
Theorem X18_excluded_assets_column_is_still_read
    (env : Env) (db : DB) (a : Args.t) (q : Query) (r : row) (rs : list row)
    (assets_kwargs : string) (exclude : list string) :
  get_collection_items env db a = Ok q ->
  mem "assets" (Args.exclude a) = true ->
  q_assets_column q = false
  /\ is_ok (make_geojson env db (map (hit_of q) (r :: rs)) assets_kwargs exclude) = false.
Proof.
  intros Hq Hex.
  assert (Hcol : q_assets_column q = false).
  { unfold get_collection_items in Hq.
    match type of Hq with
    | bind ?m _ = _ => destruct m; cbn [bind] in Hq; [|discriminate]
    end.
    injection Hq as <-. cbn [q_assets_column]. now rewrite Hex. }
  split; [exact Hcol|].
  cbn [map make_geojson]. rewrite make_feature_outcome.
  assert (Ha : Hit.assets (hit_of q r) = None).
  { unfold hit_of. cbn [Hit.assets]. now rewrite Hcol. }
  rewrite Ha.
  destruct (or_else _ _); [|reflexivity].
  destruct (feature_bands db (hit_of q r)); reflexivity.
Qed.

(** The search without filters that excludes [assets], and the row of
    [S2_scene] it selects. *)
Lemma X18_excluded_assets_column_is_still_read_witness :
  q_assets_column (mkQuery false (base_where []) 1 10 1000) = false
  /\ is_ok (make_geojson Sample.env Sample.db
              (map (hit_of (mkQuery false (base_where []) 1 10 1000))
                   [mkRow Sample.S2 Sample.S2_scene (Some Sample.tile)])
              "" ["assets"]) = false.
Proof.
  apply (X18_excluded_assets_column_is_still_read
           Sample.env Sample.db More.without_assets); reflexivity.
Defined.

Lemma make_asset_hrefs_under (env : Env) (base assets_kwargs : string) (eo : bool)
    (bands : list dict) (l : list (string * Asset.t)) :
  hrefs (map (make_asset env base assets_kwargs eo bands) l)
  = map (fun kv => (fst kv, urljoin env base (Asset.href (snd kv) +++ assets_kwargs))) l.
Proof.
  unfold hrefs. rewrite map_map. apply map_ext. intros [key v]. reflexivity.
Qed.

(** X19: the asset hrefs of an item without a [storage:] key in its
    metadata (or without metadata): each is the stored href followed by the
    preserved query string, joined by [urljoin] to the file root, which is
    the [X-Script-Name] header of the request when there is one and the
    configured file root otherwise. *)
Theorem X19_asset_hrefs_are_joined_to_the_file_root
    (env : Env) (db : DB) (assets_kwargs : string) (exclude : list string)
    (i : Hit.t) (f : Feature) (assets : list (string * Asset.t)) :
  match Hit.item_meta i with
  | Some item_meta => has_storage_key item_meta = false
  | None => True
  end ->
  make_feature env db assets_kwargs exclude i = Ok f ->
  f_assets f = Some assets ->
  exists stored,
    Hit.assets i = Some (Some stored)
    /\ hrefs assets
       = map (fun kv =>
                (fst kv,
                 urljoin env
                   match lookup "X-Script-Name" (request_headers env) with
                   | Some v => v
                   | None => BDC_STAC_FILE_ROOT env
                   end
                   (Asset.href (snd kv) +++ assets_kwargs))) stored.
Proof.
  intros Hmeta Hf Ha. rewrite make_feature_outcome in Hf.
  destruct (or_else (Hit.footprint i) (Hit.bbox i)) as [g|]; [|discriminate].
  destruct (feature_bands db i) as [bands|]; [|discriminate].
  destruct (Hit.assets i) as [stored|]; [|discriminate].
  injection Hf as <-. rewrite pops_assets in Ha.
  destruct (mem "assets" exclude); [discriminate|].
  cbn [f_assets built_feature] in Ha. unfold feature_assets in Ha.
  destruct stored as [[|kv l]|]; try discriminate.
  injection Ha as <-. exists (kv :: l). split; [reflexivity|].
  assert (Hroot : _resolve_item_file_root env i tt
                  = match lookup "X-Script-Name" (request_headers env) with
                    | Some v => v
                    | None => BDC_STAC_FILE_ROOT env
                    end).
  { unfold _resolve_item_file_root.
    destruct (Hit.item_meta i) as [m|]; [rewrite Hmeta|]; reflexivity. }
  rewrite Hroot.
  exact (make_asset_hrefs_under env _ assets_kwargs _ bands (kv :: l)).
Qed.

(** The processing fields never hold the key [storage:platform]. *)
Lemma processors_keys (db : DB) (item_id : Z) (k : string) :
  get (rev (get_item_processors db item_id)) k = get (get_item_processors db item_id) k
  /\ (k <> "processing:lineage" -> k <> "processing:facility" ->
      k <> "processing:level" -> k <> "processing:software" ->
      get (get_item_processors db item_id) k = None).
Proof.
  rewrite get_item_processors_fold.
  destruct (fold_left processors_step (processors_of db item_id) (None, []))
    as [[root|] [|kv obj]]; try (split; reflexivity).
  cbn [rev app get].
  destruct (String.eqb_spec "processing:lineage" k) as [<-|N1]; [split; [reflexivity|congruence]|].
  destruct (String.eqb_spec "processing:facility" k) as [<-|N2]; [split; [reflexivity|congruence]|].
  destruct (String.eqb_spec "processing:level" k) as [<-|N3]; [split; [reflexivity|congruence]|].
  destruct (String.eqb_spec "processing:software" k) as [<-|N4]; [split; [reflexivity|congruence]|].
  split; reflexivity.
Qed.

Lemma processors_empty (db : DB) (item_id : Z) :
  get_item_processors db item_id = [] <-> processors_of db item_id = [].
Proof.
  pose proof (item_processors_shape db item_id) as H.
  destruct (processors_of db item_id) as [|p l].
  - tauto.
  - destruct H as [pre [root [post [software [_ [_ [_ [E _]]]]]]]]. rewrite E.
    split; discriminate.
Qed.

(** The two assets of [plain_scene], whose metadata has no [storage:] key,
    under the configured file root [http://localhost:5001]. *)
Lemma X19_asset_hrefs_are_joined_to_the_file_root_witness :
  exists stored,
    Hit.assets More.plain_hit = Some (Some stored)
    /\ [("B04", "http://localhost:5001//S2/plain_B04.tif");
        ("thumbnail", "http://localhost:5001//S2/plain.png")]
       = map (fun kv =>
                (fst kv,
                 urljoin Sample.env "http://localhost:5001" (Asset.href (snd kv) +++ "")))
             stored.
Proof.
  exact (X19_asset_hrefs_are_joined_to_the_file_root
           Sample.env Sample.db "" [] More.plain_hit
           (built_feature Sample.env Sample.db "" More.plain_hit "POLYGON"
              [band_meta Sample.B04; band_meta Sample.B08]
              (Item.assets More.plain_scene))
           (map (make_asset Sample.env "http://localhost:5001" "" true
                   [band_meta Sample.B04; band_meta Sample.B08])
                [("B04", {| Asset.href := "/S2/plain_B04.tif"; Asset.fields := [] |});
                 ("thumbnail", {| Asset.href := "/S2/plain.png"; Asset.fields := [] |})])
           eq_refl eq_refl eq_refl).
Defined.

(** X20: the extension list of a feature, when it is not excluded: the
    extensions of the category, then the processing extension when the item
    has processing records, then the storage extension when the item
    metadata gives [storage:platform] a value that counts as true (its last
    value, were the key repeated). *)
Theorem X20_feature_extensions (env : Env) (db : DB) (assets_kwargs : string)
    (exclude : list string) (i : Hit.t) (f : Feature) :
  make_feature env db assets_kwargs exclude i = Ok f ->
  mem "stac_extensions" exclude = false ->
  f_stac_extensions f
  = Some (get_stac_extensions env [Hit.category i]
            ++ match processors_of db (Hit.id i) with
               | [] => []
               | _ :: _ => get_stac_extensions env ["processing"]
               end
            ++ match get (rev match Hit.item_meta i with Some d => d | None => [] end)
                         "storage:platform" with
               | Some v => if truthy v then get_stac_extensions env ["storage"] else []
               | None => []
               end).
Proof.
  intros Hf Hex. rewrite make_feature_outcome in Hf.
  destruct (or_else (Hit.footprint i) (Hit.bbox i)) as [g|]; [|discriminate].
  destruct (feature_bands db i) as [bands|]; [|discriminate].
  destruct (Hit.assets i) as [stored|]; [|discriminate].
  injection Hf as <-. rewrite pops_stac_extensions, Hex.
  cbn [f_stac_extensions built_feature]. f_equal. unfold feature_extensions.
  assert (Hsp : get (feature_properties env db i) "storage:platform"
                = get (rev match Hit.item_meta i with Some d => d | None => [] end)
                      "storage:platform").
  { unfold feature_properties.
    assert (Hin : forall d : dict,
               get (if String.eqb (Hit.category i) "eo"
                    then set match Hit.tile i with
                             | Some t => if truthy_str t
                                         then set d "bdc:tiles" (VList [VStr t]) else d
                             | None => d
                             end "eo:cloud_cover" (opt_float (Hit.cloud_cover i))
                    else match Hit.tile i with
                         | Some t => if truthy_str t
                                     then set d "bdc:tiles" (VList [VStr t]) else d
                         | None => d
                         end) "storage:platform"
               = get d "storage:platform").
    { intros d. destruct (String.eqb (Hit.category i) "eo");
        [rewrite get_set_other by discriminate|];
        (destruct (Hit.tile i) as [t|]; [destruct (truthy_str t)|]);
        rewrite ?get_set_other by discriminate; reflexivity. }
    rewrite Hin, !get_update.
    destruct (processors_keys db (Hit.id i) "storage:platform") as [E1 E2].
    rewrite E1, E2 by discriminate.
    match goal with
    | |- match ?m with Some _ => _ | None => _ end = _ =>
        destruct m eqn:Em; symmetry; exact Em
    end. }
  rewrite Hsp.
  assert (Hp : match get_item_processors db (Hit.id i) with
               | [] => []
               | _ :: _ => get_stac_extensions env ["processing"]
               end
               = match processors_of db (Hit.id i) with
                 | [] => []
                 | _ :: _ => get_stac_extensions env ["processing"]
                 end).
  { pose proof (processors_empty db (Hit.id i)) as [H1 H2].
    destruct (processors_of db (Hit.id i)) as [|p l].
    - now rewrite H2.
    - destruct (get_item_processors db (Hit.id i)); [|reflexivity].
      discriminate (H1 eq_refl). }
  rewrite Hp.
  match goal with
  | |- match ?m with Some _ => _ | None => _ end = _ =>
      destruct m as [v|]; [destruct (truthy v)|]
  end; now rewrite ?app_nil_r, <- ?app_assoc.
Qed.

(** The item [S2_scene], with [storage:platform = "AWS"] and, in the
    second catalog, three processing records. *)
Lemma X20_feature_extensions_witness :
  f_stac_extensions
    (built_feature Sample.env More.db_with_processors "" Sample.S2_hit "POLYGON"
       [band_meta Sample.B04; band_meta Sample.B08] (Item.assets Sample.S2_scene))
  = Some ["https://stac-extensions.github.io/eo/v1.0.0/schema.json";
          "https://stac-extensions.github.io/processing/v1.0.0/schema.json";
          "https://stac-extensions.github.io/storage/v1.0.0/schema.json"].
Proof.
  exact (X20_feature_extensions Sample.env More.db_with_processors "" [] Sample.S2_hit
           (built_feature Sample.env More.db_with_processors "" Sample.S2_hit "POLYGON"
              [band_meta Sample.B04; band_meta Sample.B08] (Item.assets Sample.S2_scene))
           eq_refl eq_refl).
Defined.

(** A key of the properties other than the two written last: the
    processing fields first, then the item metadata, then the five
    timestamps. *)
Lemma feature_properties_get (env : Env) (db : DB) (i : Hit.t) (k : string) :
  k <> "bdc:tiles" -> k <> "eo:cloud_cover" ->
  get (feature_properties env db i) k
  = match get (get_item_processors db (Hit.id i)) k with
    | Some v => Some v
    | None =>
        match get (rev match Hit.item_meta i with Some d => d | None => [] end) k with
        | Some v => Some v
        | None =>
            get [("datetime", VStr (strftime env (Hit.start i)));
                 ("start_datetime", VStr (strftime env (Hit.start i)));
                 ("end_datetime", VStr (strftime env (Hit.end_ i)));
                 ("created", VStr (strftime env (Hit.created i)));
                 ("updated", VStr (strftime env (Hit.updated i)))] k
        end
    end.
Proof.
  intros N1 N2. unfold feature_properties.
  assert (N1' : "bdc:tiles" <> k) by congruence.
  assert (N2' : "eo:cloud_cover" <> k) by congruence.
  destruct (String.eqb (Hit.category i) "eo");
    [rewrite get_set_other by exact N2'|];
    (destruct (Hit.tile i) as [t|]; [destruct (truthy_str t)|]);
    rewrite ?get_set_other by exact N1';
    rewrite !get_update, (proj1 (processors_keys db (Hit.id i) k));
    reflexivity.
Qed.

(** X21: the properties of a feature.  The processing fields override the
    item metadata, and the item metadata overrides the five timestamps (so
    a [datetime] key of the metadata replaces the start date); for an item
    of category [eo] the key [eo:cloud_cover] is the column of the row,
    whatever the metadata holds, and the tile of the row is written to
    [bdc:tiles] as a one-element list. *)
Theorem X21_feature_properties (env : Env) (db : DB) (assets_kwargs : string)
    (exclude : list string) (i : Hit.t) (f : Feature) (props : dict) :
  make_feature env db assets_kwargs exclude i = Ok f ->
  f_properties f = Some props ->
  (String.eqb (Hit.category i) "eo" = true ->
   get props "eo:cloud_cover" = Some (opt_float (Hit.cloud_cover i)))
  /\ (forall t, Hit.tile i = Some t -> t <> "" ->
                get props "bdc:tiles" = Some (VList [VStr t]))
  /\ (forall k v, get (get_item_processors db (Hit.id i)) k = Some v ->
                  get props k = Some v)
  /\ get props "datetime"
     = Some match get (rev match Hit.item_meta i with Some d => d | None => [] end)
                      "datetime" with
            | Some v => v
            | None => VStr (strftime env (Hit.start i))
            end.
Proof.
  intros Hf Hp. rewrite make_feature_outcome in Hf.
  destruct (or_else (Hit.footprint i) (Hit.bbox i)) as [g|]; [|discriminate].
  destruct (feature_bands db i) as [bands|]; [|discriminate].
  destruct (Hit.assets i) as [stored|]; [|discriminate].
  injection Hf as <-. rewrite pops_properties in Hp.
  destruct (mem "properties" exclude); [discriminate|].
  cbn [f_properties built_feature] in Hp. injection Hp as <-.
  split; [|split; [|split]].
  - intros Heo. unfold feature_properties. rewrite Heo. apply get_set_same.
  - intros t Ht Hne. unfold feature_properties. rewrite Ht.
    apply String.eqb_neq in Hne. unfold truthy_str. rewrite Hne. cbn [negb].
    destruct (String.eqb (Hit.category i) "eo");
      [rewrite get_set_other by discriminate|]; apply get_set_same.
  - intros k v Hk.
    destruct (processors_keys db (Hit.id i) k) as [_ Hnone].
    assert (N1 : k <> "bdc:tiles").
    { intros ->. rewrite Hnone in Hk by discriminate. discriminate. }
    assert (N2 : k <> "eo:cloud_cover").
    { intros ->. rewrite Hnone in Hk by discriminate. discriminate. }
    now rewrite feature_properties_get, Hk by assumption.
  - rewrite feature_properties_get by discriminate.
    rewrite (proj2 (processors_keys db (Hit.id i) "datetime")) by discriminate.
    match goal with
    | |- match ?m with Some _ => _ | None => _ end = _ => destruct m; reflexivity
    end.
Qed.

(** The row of [plain_scene], of category [eo], whose metadata holds
    [eo:cloud_cover = 99.0] and a [datetime], and whose column is empty. *)
Lemma X21_feature_properties_witness :
  get (feature_properties Sample.env Sample.db More.plain_hit) "eo:cloud_cover"
  = Some VNone
  /\ get (feature_properties Sample.env Sample.db More.plain_hit) "bdc:tiles"
     = Some (VList [VStr "23LLG"])
  /\ get (feature_properties Sample.env Sample.db More.plain_hit) "datetime"
     = Some (VStr "overridden").
Proof.
  destruct (X21_feature_properties Sample.env Sample.db "" [] More.plain_hit
              (built_feature Sample.env Sample.db "" More.plain_hit "POLYGON"
                 [band_meta Sample.B04; band_meta Sample.B08]
                 (Item.assets More.plain_scene))
              (feature_properties Sample.env Sample.db More.plain_hit)
              eq_refl eq_refl) as [H1 [H2 [_ H4]]].
  split; [exact (H1 eq_refl)|]. split; [|exact H4].
  apply (H2 "23LLG" eq_refl). discriminate.
Defined.

(** What [rstrip] returns does not end in the stripped character. *)
Lemma rstrip_last (c : ascii) (s : string) : last_char (rstrip c s) <> Some c.
Proof.
  induction s as [|a s IH]; cbn [rstrip]; [discriminate|].
  destruct (rstrip c s) as [|b r] eqn:E.
  - destruct (Ascii.eqb a c) eqn:Ea; cbn; [discriminate|].
    apply Ascii.eqb_neq in Ea. congruence.
  - exact IH.
Qed.

(** [rstrip "/"] removes a run of slashes at the end, and nothing else. *)
Lemma rstrip_slashes (s : string) : exists n, s = rstrip "/" s +++ slashes n.
Proof.
  induction s as [|a s [n IH]]; cbn [rstrip].
  - now exists 0.
  - destruct (rstrip "/" s) as [|b r] eqn:E.
    + destruct (Ascii.eqb a "/") eqn:Ea.
      * apply Ascii.eqb_eq in Ea. subst a. exists (S n). cbn. now f_equal.
      * exists n. cbn. now f_equal.
    + exists n. cbn. cbn in IH. now f_equal.
Qed.

(** X22: the base URL of the links.  [resolve_stac_url] never ends in a
    slash; it differs from the [X-Stac-Url] header (or, without the header,
    from [BDC_STAC_BASE_URL]) only by a run of slashes at the end, so a
    value made only of slashes gives the empty string; and the [root] link
    of every feature is that URL followed by one slash, with the
    [assets_kwargs] left out. *)
Theorem X22_stac_url_has_no_trailing_slash (env : Env) (i : Hit.t) (assets_kwargs : string) :
  last_char (resolve_stac_url env tt) <> Some "/"%char
  /\ (exists n, header env "X-Stac-Url" (BDC_STAC_BASE_URL env)
                = resolve_stac_url env tt +++ slashes n)
  /\ (forall n, header env "X-Stac-Url" (BDC_STAC_BASE_URL env) = slashes n ->
                resolve_stac_url env tt = "")
  /\ In (mkLink (resolve_stac_url env tt +++ "/") "root") (make_links env i assets_kwargs).
Proof.
  unfold resolve_stac_url. split; [apply rstrip_last|].
  split; [apply rstrip_slashes|]. split.
  - intros n ->. induction n as [|n IH]; [reflexivity|].
    cbn [slashes rstrip]. rewrite IH. reflexivity.
  - unfold make_links, resolve_stac_url. cbn [In]. now do 3 right; left.
Qed.

(** The loop over the bands for one asset: the last band named as the
    asset key is attached, and the other fields are left alone. *)
Lemma asset_bands_fold (key : string) (bands : list dict) (fs : dict) :
  let r := fold_left (fun fs band =>
                        if band_named key band
                        then set fs "eo:bands" (VList [VDict band]) else fs)
                     bands fs in
  (forall k, k <> "eo:bands" -> get r k = get fs k)
  /\ get r "eo:bands"
     = match find (band_named key) (rev bands) with
       | Some band => Some (VList [VDict band])
       | None => get fs "eo:bands"
       end.
Proof.
  induction bands as [|band bands IH] using rev_ind; [now split|].
  cbn zeta in *. rewrite fold_left_app, rev_app_distr. cbn [fold_left rev app find].
  destruct (band_named key band).
  - split.
    + intros k N. rewrite get_set_other by congruence. now apply IH.
    + apply get_set_same.
  - exact IH.
Qed.

(** X23: the bands attached to the assets of an [eo] item.  An asset gets
    the key [eo:bands] only from a band whose name is the asset key, and
    then holds a one-element list with the last such band of the
    collection; without such a band the stored value of [eo:bands], if any,
    is kept.  Every other field of the asset is the stored one, and the key
    of the asset is never changed. *)
Theorem X23_asset_bands (env : Env) (base assets_kwargs : string)
    (bands : list dict) (key : string) (v : Asset.t) :
  fst (make_asset env base assets_kwargs true bands (key, v)) = key
  /\ (forall k, k <> "eo:bands" ->
        get (Asset.fields (snd (make_asset env base assets_kwargs true bands (key, v)))) k
        = get (Asset.fields v) k)
  /\ get (Asset.fields (snd (make_asset env base assets_kwargs true bands (key, v))))
         "eo:bands"
     = match find (band_named key) (rev bands) with
       | Some band => Some (VList [VDict band])
       | None => get (Asset.fields v) "eo:bands"
       end
  /\ (forall band, find (band_named key) (rev bands) = Some band ->
        In band bands /\ get band "name" = Some (VStr key)).
Proof.
  split; [reflexivity|]. cbn [make_asset snd Asset.fields].
  destruct (asset_bands_fold key bands (Asset.fields v)) as [H1 H2].
  split; [exact H1|]. split; [exact H2|].
  intros band Hf. apply find_some in Hf. destruct Hf as [Hin Hn].
  split; [now apply in_rev|].
  unfold band_named in Hn. destruct (get band "name") as [[]|]; try discriminate.
  apply String.eqb_eq in Hn. now subst.
Qed.

(** ** The collection documents *)

Lemma get_dict_pop_same (d : dict) (k : string) (default : value) :
  get (snd (dict_pop d k default)) k = None.
Proof.
  unfold dict_pop. cbn [snd]. induction d as [|[k0 v0] d IH]; [reflexivity|].
  cbn [filter fst]. destruct (String.eqb k0 k) eqn:E; cbn [negb]; [exact IH|].
  cbn [get]. now rewrite E.
Qed.

Lemma get_dict_pop_other (d : dict) (k k' : string) (default : value) :
  k <> k' -> get (snd (dict_pop d k default)) k' = get d k'.
Proof.
  intros N. unfold dict_pop. cbn [snd]. induction d as [|[k0 v0] d IH]; [reflexivity|].
  cbn [filter fst]. destruct (String.eqb_spec k0 k) as [->|N0]; cbn [negb get].
  - apply String.eqb_neq in N. now rewrite N.
  - now rewrite IH.
Qed.

Lemma for_each_outcome {A B} (f : A -> outcome B) (l : list A) :
  match for_each f l with
  | Returns bs => Forall2 (fun a b => f a = Returns b) l bs
  | Raises e => exists a, In a l /\ f a = Raises e
  end.
Proof.
  induction l as [|a l IH]; cbn [for_each and_then]; [constructor|].
  destruct (f a) as [b|e] eqn:E; cbn [and_then].
  - destruct (for_each f l) as [bs|e]; cbn [and_then].
    + now constructor.
    + destruct IH as [a' [Hin Ha']]. exists a'. split; [now right | exact Ha'].
  - exists a. split; [now left | exact E].
Qed.

(** [properties or {}] is the stored dictionary, or the empty one. *)
Lemma stored_properties_kept (d : Detail.t) :
  match Detail.properties d with
  | Some ((_ :: _) as p) => p
  | _ => []
  end = stored_properties d.
Proof.
  unfold stored_properties. now destruct (Detail.properties d) as [[|kv p]|].
Qed.

(** The names under which the controller writes to the properties do not
    touch the other keys. *)
Lemma document_properties_other (env : Env) (d : Detail.t) (collection_eo : option EO)
    (k : string) :
  k <> "created" -> k <> "updated" -> k <> "license" -> k <> "links" ->
  k <> "eo:gsd" -> k <> "eo:bands" ->
  get (document_properties env d collection_eo) k = get (stored_properties d) k.
Proof.
  intros N1 N2 N3 N4 N5 N6. unfold document_properties.
  assert (H : get (snd (dict_pop
                (snd (dict_pop
                   (set (set (stored_properties d) "created"
                             (VStr (strftime env (Detail.created d))))
                        "updated" (VStr (strftime env (Detail.updated d))))
                   "license" (VStr ""))) "links" (VList []))) k
              = get (stored_properties d) k).
  { rewrite !get_dict_pop_other, !get_set_other by congruence. reflexivity. }
  destruct collection_eo as [eo|]; [|exact H].
  rewrite get_update. cbn [rev app get].
  apply not_eq_sym in N5, N6. apply String.eqb_neq in N5, N6. now rewrite N5, N6.
Qed.

Lemma popped_links (env : Env) (d : Detail.t) :
  fst (dict_pop
         (snd (dict_pop
            (set (set (stored_properties d) "created"
                      (VStr (strftime env (Detail.created d))))
                 "updated" (VStr (strftime env (Detail.updated d))))
            "license" (VStr ""))) "links" (VList []))
  = stored d "links" (VList []).
Proof.
  unfold stored, dict_pop at 1. cbn [fst].
  rewrite get_dict_pop_other, !get_set_other by discriminate. reflexivity.
Qed.

Lemma popped_license (env : Env) (d : Detail.t) :
  fst (dict_pop
         (set (set (stored_properties d) "created"
                   (VStr (strftime env (Detail.created d))))
              "updated" (VStr (strftime env (Detail.updated d))))
         "license" (VStr ""))
  = stored d "license" (VStr "").
Proof.
  unfold stored, dict_pop. cbn [fst].
  rewrite !get_set_other by discriminate. reflexivity.
Qed.

(** Reading the CRS from the dictionary the controller has changed gives
    what the stored properties give. *)
Lemma crs_of_changed_properties (env : Env) (d : Detail.t) (collection_eo : option EO) :
  get_collection_crs (Detail.grs d)
    match Detail.properties d with
    | Some (_ :: _) => Some (document_properties env d collection_eo)
    | stored => stored
    end
  = get_collection_crs (Detail.grs d) (Detail.properties d).
Proof.
  unfold get_collection_crs. destruct (Detail.grs d); [reflexivity|].
  destruct (Detail.properties d) as [[|kv p]|] eqn:E; try reflexivity.
  rewrite document_properties_other by discriminate.
  unfold stored_properties. now rewrite E.
Qed.

(** A key written only when a column is set leaves the other keys as they
    are. *)
Lemma get_set_when {A} (o : option A) (f : A -> value) (d : dict) (k k' : string) :
  k <> k' ->
  get match o with Some a => set d k (f a) | None => d end k' = get d k'.
Proof.
  intros N. destruct o; [now apply get_set_other | reflexivity].
Qed.

Lemma get_set_when_not_empty (o : option dict) (d : dict) (k k' : string) :
  k <> k' ->
  get match o with Some ((_ :: _) as m) => set d k (VDict m) | _ => d end k' = get d k'.
Proof.
  intros N. destruct o as [[|kv m]|]; [reflexivity | now apply get_set_other | reflexivity].
Qed.

Lemma get_set_other_b (d : dict) (k k' : string) (v : value) :
  String.eqb k k' = false -> get (set d k v) k' = get d k'.
Proof.
  intros N. apply get_set_other. now apply String.eqb_neq.
Qed.

Lemma get_set_when_b {A} (o : option A) (f : A -> value) (d : dict) (k k' : string) :
  String.eqb k k' = false ->
  get match o with Some a => set d k (f a) | None => d end k' = get d k'.
Proof.
  intros N. apply get_set_when. now apply String.eqb_neq.
Qed.

Lemma get_set_when_not_empty_b (o : option dict) (d : dict) (k k' : string) :
  String.eqb k k' = false ->
  get match o with Some ((_ :: _) as m) => set d k (VDict m) | _ => d end k' = get d k'.
Proof.
  intros N. apply get_set_when_not_empty. now apply String.eqb_neq.
Qed.

Ltac through_sets :=
  rewrite ?get_set_same;
  repeat first [ rewrite get_set_other_b by reflexivity
               | rewrite get_set_when_b by reflexivity
               | rewrite get_set_when_not_empty_b by reflexivity
               | rewrite get_set_same ];
  try first [reflexivity | assumption].

Lemma collection_document_outcome (env : Env) (day : timestamp -> string) (cat : Catalog)
    (cmap : list Collection.t) (qs : option string) (r : Collection.t) :
  let d := cat_detail cat (Collection.id r) in
  match collection_document env day cat cmap qs r with
  | Returns doc =>
      exists property_links collection_eo,
        iterate (stored d "links" (VList [])) = Returns property_links
        /\ collection_summary cat r = Returns collection_eo
        /\ (if is_cube r
            then exists datacube,
                cube_dimensions day d (spatial_bbox env d)
                  (get_collection_crs (Detail.grs d) (Detail.properties d))
                  (fst (temporal_interval env d)) (snd (temporal_interval env d))
                  collection_eo = Returns datacube
                /\ get doc "cube:dimensions" = Some (VDict datacube)
                /\ get doc "bdc:crs"
                   = Some (get_collection_crs (Detail.grs d) (Detail.properties d))
                /\ get doc "bdc:temporal_composition"
                   = Some (Detail.temporal_composition_schema d)
            else get doc "cube:dimensions" = None
                 /\ get doc "bdc:crs" = None
                 /\ get doc "bdc:temporal_composition" = None)
        /\ get doc "id" = Some (VStr (Collection.identifier r))
        /\ get doc "links"
           = Some (VList (own_links env r qs ++ version_links env cmap qs d ++ property_links))
        /\ get doc "deprecated"
           = Some (deprecated_of (successor_of cmap d) (Detail.metadata_ d))
        /\ get doc "license" = Some (stored d "license" (VStr ""))
        /\ get doc "properties" = Some (VDict (document_properties env d collection_eo))
        /\ get doc "extent"
           = Some (VDict [("spatial", VDict [("bbox", VList [spatial_bbox env d])]);
                          ("temporal",
                           VDict [("interval",
                                   VList [VList [fst (temporal_interval env d);
                                                 snd (temporal_interval env d)]])])])
        /\ get doc "stac_extensions"
           = Some (VList (map VStr
                 (get_stac_extensions env ["version"; "processing"; "item-assets"]
                    ++ get_stac_extensions env (collection_extensions r)
                    ++ (if is_cube r then get_stac_extensions env ["datacube"] else []))))
  | Raises e =>
      iterate (stored d "links" (VList [])) = Raises e
      \/ (exists property_links,
             iterate (stored d "links" (VList [])) = Returns property_links
             /\ collection_summary cat r = Raises e)
      \/ (exists property_links collection_eo,
             iterate (stored d "links" (VList [])) = Returns property_links
             /\ collection_summary cat r = Returns collection_eo
             /\ is_cube r = true
             /\ cube_dimensions day d (spatial_bbox env d)
                  (get_collection_crs (Detail.grs d) (Detail.properties d))
                  (fst (temporal_interval env d)) (snd (temporal_interval env d))
                  collection_eo = Raises e)
  end.
Proof.
  intros d. unfold collection_document. fold d.
  rewrite stored_properties_kept, popped_links, popped_license.
  destruct (iterate (stored d "links" (VList []))) as [property_links|e] eqn:Elinks;
    cbn [and_then]; [|now left].
  fold (is_eo r). fold (collection_summary cat r).
  destruct (collection_summary cat r) as [collection_eo|e] eqn:Eeo; cbn [and_then].
  2:{ right; left. now exists property_links. }
  fold (document_properties env d collection_eo).
  rewrite crs_of_changed_properties. fold (is_cube r).
  match goal with
  | |- context [set ?b "bdc:composite_function" _] =>
      match b with
      | context [set ?lit "bdc:grs" _] => set (base := lit)
      end
  end.
  assert (Hid : get base "id" = Some (VStr (Collection.identifier r))) by reflexivity.
  assert (Hdep : get base "deprecated"
                 = Some (deprecated_of (successor_of cmap d) (Detail.metadata_ d)))
    by reflexivity.
  assert (Hcube : get base "cube:dimensions" = None) by reflexivity.
  assert (Hcrs : get base "bdc:crs" = None) by reflexivity.
  assert (Htc : get base "bdc:temporal_composition" = None) by reflexivity.
  clearbody base.
  destruct (is_cube r) eqn:Ecube.
  - destruct (cube_dimensions day d (spatial_bbox env d) _
                (fst (temporal_interval env d)) (snd (temporal_interval env d))
                collection_eo) as [datacube|e] eqn:Edims; cbn [and_then fst snd].
    + exists property_links, collection_eo.
      split; [reflexivity|]. split; [reflexivity|].
      split; [exists datacube; split; [exact Edims|]; repeat split; through_sets|].
      rewrite <- !app_assoc. repeat split; through_sets.
    + right; right. now exists property_links, collection_eo.
  - cbn [and_then fst snd]. exists property_links, collection_eo.
    split; [reflexivity|]. split; [reflexivity|].
    split; [repeat split; through_sets|].
    rewrite app_nil_r. repeat split; through_sets.
Qed.

(** Whenever a document is built, the collection map holds the available
    collections that the roles can see, with or without a [collection_id]. *)
Lemma collection_map_visible (cat : Catalog) (collection_id : option string)
    (roles : option (list string)) :
  get_collections_rows (cat_db cat) collection_id roles <> [] ->
  collection_map cat collection_id roles = get_collections_rows (cat_db cat) None roles.
Proof.
  intros Hne. unfold collection_map.
  destruct collection_id as [s|]; cbn [truthy_opt_str andb]; [|reflexivity].
  unfold get_collections_rows in *. destruct (truthy_str s); cbn [andb]; [|reflexivity].
  destruct (select_collections (cat_db cat) _) as [|c l] eqn:E; [now elim Hne|].
  reflexivity.
Qed.

Lemma get_collections_outcome (env : Env) (day : timestamp -> string) (cat : Catalog)
    (collection_id : option string) (roles : option (list string))
    (assets_kwargs : option string) :
  match get_collections env day cat collection_id roles assets_kwargs with
  | Returns docs =>
      Forall2 (fun r doc =>
                 collection_document env day cat
                   (get_collections_rows (cat_db cat) None roles) assets_kwargs r
                 = Returns doc)
              (get_collections_rows (cat_db cat) collection_id roles) docs
  | Raises e =>
      exists r,
        In r (get_collections_rows (cat_db cat) collection_id roles)
        /\ collection_document env day cat
             (get_collections_rows (cat_db cat) None roles) assets_kwargs r
           = Raises e
  end.
Proof.
  unfold get_collections. cbv zeta.
  destruct (get_collections_rows (cat_db cat) collection_id roles) as [|r0 rows] eqn:E.
  - constructor.
  - rewrite collection_map_visible by (rewrite E; discriminate).
    apply for_each_outcome.
Qed.

Lemma get_collections_returns (env : Env) (day : timestamp -> string) (cat : Catalog)
    (collection_id : option string) (roles : option (list string))
    (assets_kwargs : option string) (docs : list dict) :
  get_collections env day cat collection_id roles assets_kwargs = Returns docs ->
  Forall2 (fun r doc =>
             collection_document env day cat
               (get_collections_rows (cat_db cat) None roles) assets_kwargs r
             = Returns doc)
          (get_collections_rows (cat_db cat) collection_id roles) docs.
Proof.
  intros H.
  pose proof (get_collections_outcome env day cat collection_id roles assets_kwargs) as Ho.
  now rewrite H in Ho.
Qed.

(** Every band entry has a name. *)
Lemma band_meta_name (band : Band.t) :
  get (band_meta band) "name"
  = Some (entry_name band).
Proof.
  unfold band_meta, entry_name. rewrite get_update.
  now destruct (get (rev (Band.properties band)) "name").
Qed.

Lemma band_names_returns (bands : list Band.t) :
  band_names (map band_meta bands)
  = Returns (map entry_name bands).
Proof.
  unfold band_names. induction bands as [|band bands IH]; [reflexivity|].
  cbn [map for_each]. rewrite band_meta_name. cbn [and_then].
  rewrite IH. reflexivity.
Qed.

(** A summary that is returned holds the entries of the bands with
    resolution data. *)
Lemma summary_bands (db : DB) (collection_id : Z) (eo : EO) :
  fst (get_collection_eo db collection_id) = Ok eo ->
  eo_bands eo = map band_meta (filter has_resolution (bands_of db collection_id)).
Proof.
  intros H. unfold get_collection_eo in *.
  pose proof (eo_loop_outcome (bands_of db collection_id) [] 0%float []) as Ho.
  rewrite H in Ho.
  destruct (eo_loop_result (bands_of db collection_id) Ho [] 0%float [] eq_refl)
    as [g [E _]].
  rewrite E in H. cbn [fst] in H. injection H as <-. reflexivity.
Qed.

Lemma collection_summary_outcome (cat : Catalog) (r : Collection.t) :
  match collection_summary cat r with
  | Returns None => is_eo r = false
  | Returns (Some eo) =>
      is_eo r = true
      /\ fst (get_collection_eo (cat_db cat) (Collection.id r)) = Ok eo
      /\ Forall (fun b => Band.eo_resolutions b <> Some [])
                (bands_of (cat_db cat) (Collection.id r))
  | Raises e =>
      is_eo r = true /\ e = Exn IndexError
      /\ Exists (fun b => Band.eo_resolutions b = Some [])
                (bands_of (cat_db cat) (Collection.id r))
  end.
Proof.
  unfold collection_summary. destruct (is_eo r); [|reflexivity].
  pose proof (eo_loop_outcome (bands_of (cat_db cat) (Collection.id r)) [] 0%float [])
    as Ho.
  fold (get_collection_eo (cat_db cat) (Collection.id r)) in Ho.
  destruct (fst (get_collection_eo (cat_db cat) (Collection.id r))) as [eo|e];
    cbn [raising and_then].
  - now repeat split.
  - destruct Ho as [-> Hex]. now repeat split.
Qed.

(** The dimensions of a cube fail only on the bounds of the spatial
    extent. *)
Lemma cube_dimensions_outcome (day : timestamp -> string) (cat : Catalog)
    (r : Collection.t) (d : Detail.t) (bbox proj4text start end_ : value)
    (collection_eo : option EO) :
  collection_summary cat r = Returns collection_eo ->
  match cube_dimensions day d bbox proj4text start end_ collection_eo with
  | Returns datacube =>
      exists x0 x1 y0 y1,
        subscript bbox 0 = Returns x0 /\ subscript bbox 2 = Returns x1
        /\ subscript bbox 1 = Returns y0 /\ subscript bbox 3 = Returns y1
        /\ get datacube "x"
           = Some (VDict [("type", VStr "spatial"); ("axis", VStr "x");
                          ("extent", VList [x0; x1]); ("reference_system", proj4text)])
        /\ get datacube "y"
           = Some (VDict [("type", VStr "spatial"); ("axis", VStr "y");
                          ("extent", VList [y0; y1]); ("reference_system", proj4text)])
        /\ get datacube "temporal"
           = Some (VDict [("type", VStr "temporal"); ("extent", VList [start; end_]);
                          ("values",
                           VList (map VStr (format_timeline day (Detail.timeline d))))])
        /\ get datacube "bands"
           = match collection_eo with
             | Some eo =>
                 Some (VDict [("type", VStr "bands");
                              ("values",
                               VList (map entry_name
                                          (filter has_resolution
                                             (bands_of (cat_db cat) (Collection.id r)))))])
             | None => None
             end
  | Raises e => exists n, (n < 4)%nat /\ subscript bbox n = Raises e
  end.
Proof.
  intros Hsum. unfold cube_dimensions.
  destruct (subscript bbox 0) as [x0|e] eqn:E0; cbn [and_then];
    [|exists 0%nat; split; [lia | exact E0]].
  destruct (subscript bbox 2) as [x1|e] eqn:E2; cbn [and_then];
    [|exists 2%nat; split; [lia | exact E2]].
  destruct (subscript bbox 1) as [y0|e] eqn:E1; cbn [and_then];
    [|exists 1%nat; split; [lia | exact E1]].
  destruct (subscript bbox 3) as [y1|e] eqn:E3; cbn [and_then];
    [|exists 3%nat; split; [lia | exact E3]].
  pose proof (collection_summary_outcome cat r) as Ho. rewrite Hsum in Ho.
  destruct collection_eo as [eo|].
  - destruct Ho as [_ [Heo _]]. rewrite (summary_bands _ _ _ Heo), band_names_returns.
    cbn [and_then]. exists x0, x1, y0, y1. repeat split; reflexivity.
  - exists x0, x1, y0, y1. repeat split; reflexivity.
Qed.

Lemma iterate_outcome (v : value) :
  match iterate v with
  | Returns _ => iterable v = true
  | Raises e => e = TypeError /\ iterable v = false
  end.
Proof.
  destruct v; cbn; auto.
Qed.

(** X24: the listing of [get_collections].  When it returns, it holds one
    document per selected collection, in the order of the rows; the
    document carries the identifier of its collection and starts its links
    with the four links of the collection, whose hrefs end in the text of
    [assets_kwargs] (the text [None] for the default); the [links] entry of
    the stored properties of every selected collection can then be walked
    over, and no band of a selected [eo] collection has an empty resolution
    list.  When it raises, one selected collection is the cause: its
    properties hold under [links] a value that is no list, dictionary or
    string ([TypeError]), or it is an [eo] collection with a band whose
    resolution list is empty ([IndexError]), or it is a cube and the bounds
    of its spatial extent cannot be indexed up to the fourth entry. *)
Theorem X24_collection_listing_outcome (env : Env) (day : timestamp -> string)
    (cat : Catalog) (collection_id : option string) (roles : option (list string))
    (assets_kwargs : option string) :
  match get_collections env day cat collection_id roles assets_kwargs with
  | Returns docs =>
      Forall2 (fun r doc =>
                 get doc "id" = Some (VStr (Collection.identifier r))
                 /\ (exists extra_links,
                        get doc "links"
                        = Some (VList (own_links env r assets_kwargs ++ extra_links)))
                 /\ iterable (stored (cat_detail cat (Collection.id r)) "links" (VList []))
                    = true
                 /\ (is_eo r = true ->
                     Forall (fun b => Band.eo_resolutions b <> Some [])
                            (bands_of (cat_db cat) (Collection.id r))))
              (get_collections_rows (cat_db cat) collection_id roles) docs
  | Raises e =>
      exists r,
        In r (get_collections_rows (cat_db cat) collection_id roles)
        /\ (e = TypeError
            /\ iterable (stored (cat_detail cat (Collection.id r)) "links" (VList []))
               = false
            \/ e = Exn IndexError /\ is_eo r = true
               /\ Exists (fun b => Band.eo_resolutions b = Some [])
                         (bands_of (cat_db cat) (Collection.id r))
            \/ is_cube r = true
               /\ exists n, (n < 4)%nat
                    /\ subscript (spatial_bbox env (cat_detail cat (Collection.id r))) n
                       = Raises e)
  end
  /\ forall r,
       In (VDict [("href", VStr (resolve_stac_url env tt +++ "/collections/"
                                   +++ Collection.identifier r +++ "None"));
                  ("rel", VStr "self");
                  ("type", VStr "application/json");
                  ("title", VStr "Link to this document")])
          (own_links env r None).
Proof.
  split; [|intros r; now left].
  pose proof (get_collections_outcome env day cat collection_id roles assets_kwargs) as Ho.
  destruct (get_collections env day cat collection_id roles assets_kwargs) as [docs|e].
  - eapply Forall2_impl; [|exact Ho]. intros r doc Hdoc. cbv beta in Hdoc.
    pose proof (collection_document_outcome env day cat
                  (get_collections_rows (cat_db cat) None roles) assets_kwargs r) as Hd.
    rewrite Hdoc in Hd. cbv zeta in Hd.
    destruct Hd as (pl & ceo & Hpl & Hsum & _ & Hid & Hlinks & _).
    split; [exact Hid|]. split; [eexists; exact Hlinks|]. split.
    + pose proof (iterate_outcome (stored (cat_detail cat (Collection.id r)) "links"
                                          (VList []))) as Hi.
      now rewrite Hpl in Hi.
    + intros Heo. pose proof (collection_summary_outcome cat r) as Hs.
      rewrite Hsum in Hs. destruct ceo as [eo|]; [apply Hs | congruence].
  - destruct Ho as [r [Hin Hdoc]]. exists r. split; [exact Hin|].
    pose proof (collection_document_outcome env day cat
                  (get_collections_rows (cat_db cat) None roles) assets_kwargs r) as Hd.
    rewrite Hdoc in Hd. cbv zeta in Hd.
    destruct Hd as [Hi | [(pl & Hpl & Hsum) | (pl & ceo & Hpl & Hsum & Hcube & Hdims)]].
    + left. pose proof (iterate_outcome (stored (cat_detail cat (Collection.id r)) "links"
                                                (VList []))) as Ho.
      now rewrite Hi in Ho.
    + right; left. pose proof (collection_summary_outcome cat r) as Hs.
      rewrite Hsum in Hs. destruct Hs as (Heo & -> & Hex). auto.
    + right; right. split; [exact Hcube|].
      pose proof (cube_dimensions_outcome day cat r (cat_detail cat (Collection.id r))
                    (spatial_bbox env (cat_detail cat (Collection.id r)))
                    (get_collection_crs (Detail.grs (cat_detail cat (Collection.id r)))
                       (Detail.properties (cat_detail cat (Collection.id r))))
                    (fst (temporal_interval env (cat_detail cat (Collection.id r))))
                    (snd (temporal_interval env (cat_detail cat (Collection.id r))))
                    ceo Hsum) as Hc.
      now rewrite Hdims in Hc.
Qed.

Lemma Forall2_combine {A B} (R : A -> B -> Prop) (l : list A) (l' : list B) :
  Forall2 R l l' -> forall a b, In (a, b) (combine l l') -> R a b.
Proof.
  induction 1 as [|x y l l' Hxy _ IH]; intros a b Hin; [destruct Hin|].
  destruct Hin as [E|Hin]; [now injection E as <- <- | now apply IH].
Qed.

(** The document of a selected collection, as [get_collections] returns
    it. *)
Lemma listed_document (env : Env) (day : timestamp -> string) (cat : Catalog)
    (collection_id : option string) (roles : option (list string))
    (assets_kwargs : option string) (docs : list dict) (r : Collection.t) (doc : dict) :
  get_collections env day cat collection_id roles assets_kwargs = Returns docs ->
  In (r, doc) (combine (get_collections_rows (cat_db cat) collection_id roles) docs) ->
  collection_document env day cat (get_collections_rows (cat_db cat) None roles)
                      assets_kwargs r
  = Returns doc.
Proof.
  intros H Hin. apply get_collections_returns in H.
  exact (Forall2_combine _ _ _ H r doc Hin).
Qed.

Lemma map_get_some (m : list Collection.t) (k : Z) (c : Collection.t) :
  map_get m k = Some c -> In c m /\ Collection.id c = k.
Proof.
  unfold map_get. intros H. apply find_some in H. destruct H as [Hin Hk].
  split; [now apply in_rev | now apply Z.eqb_eq].
Qed.

Lemma map_get_none (m : list Collection.t) (k : Z) :
  map_get m k = None -> forall c, In c m -> Collection.id c <> k.
Proof.
  unfold map_get. intros H c Hin E. apply Z.eqb_eq in E.
  rewrite (find_none _ _ H c) in E; [discriminate | now apply -> in_rev].
Qed.

Lemma visible_rows (db : DB) (roles : option (list string)) (c : Collection.t) :
  In c (get_collections_rows db None roles) ->
  In c (db_collections db)
  /\ Collection.is_available c = true
  /\ cholds (_add_roles_constraint (roles_or_empty roles)) c = true.
Proof.
  unfold get_collections_rows, select_collections, roles_or_empty.
  rewrite filter_In. cbn [forallb cholds]. rewrite !andb_true_iff. tauto.
Qed.

(** X25: the version links of a collection document and its [deprecated]
    flag read only collections the caller may see.  The links of a document
    are its four own links, then the version links, then the links of the
    stored properties.  Every version link is the link of a collection of
    the catalog that is available and visible under the roles, and that the
    successor or predecessor column of the row names by its id.  The
    document is [deprecated] with [True] when the successor column names
    such a visible collection, whatever the metadata say; when it names
    none, the flag is what the metadata give: [None] without metadata, the
    empty dictionary for empty metadata, else their [deprecated] entry, or
    [False]. *)
Theorem X25_version_links_name_visible_collections (env : Env)
    (day : timestamp -> string) (cat : Catalog) (collection_id : option string)
    (roles : option (list string)) (assets_kwargs : option string)
    (docs : list dict) (r : Collection.t) (doc : dict) :
  get_collections env day cat collection_id roles assets_kwargs = Returns docs ->
  In (r, doc) (combine (get_collections_rows (cat_db cat) collection_id roles) docs) ->
  (exists version_links property_links,
      get doc "links"
      = Some (VList (own_links env r assets_kwargs ++ version_links ++ property_links))
      /\ iterate (stored (cat_detail cat (Collection.id r)) "links" (VList []))
         = Returns property_links
      /\ forall l, In l version_links ->
           exists c rel,
             l = _collection_link env c rel assets_kwargs
             /\ In c (db_collections (cat_db cat))
             /\ Collection.is_available c = true
             /\ cholds (_add_roles_constraint (roles_or_empty roles)) c = true
             /\ (rel = "successor-version"
                 /\ Detail.version_successor (cat_detail cat (Collection.id r))
                    = Some (Collection.id c)
                 \/ rel = "predecessor-version"
                    /\ Detail.version_predecessor (cat_detail cat (Collection.id r))
                       = Some (Collection.id c)))
  /\ ((exists c, In c (get_collections_rows (cat_db cat) None roles)
                 /\ Detail.version_successor (cat_detail cat (Collection.id r))
                    = Some (Collection.id c)) ->
      get doc "deprecated" = Some (VBool true))
  /\ ((forall c, In c (get_collections_rows (cat_db cat) None roles) ->
                 Detail.version_successor (cat_detail cat (Collection.id r))
                 <> Some (Collection.id c)) ->
      get doc "deprecated"
      = Some match Detail.metadata_ (cat_detail cat (Collection.id r)) with
             | None => VNone
             | Some [] => VDict []
             | Some m => match get m "deprecated" with Some v => v | None => VBool false end
             end).
Proof.
  intros H Hin. pose proof (listed_document _ _ _ _ _ _ _ _ _ H Hin) as Hdoc.
  pose proof (collection_document_outcome env day cat
                (get_collections_rows (cat_db cat) None roles) assets_kwargs r) as Hd.
  rewrite Hdoc in Hd. cbv zeta in Hd.
  destruct Hd as (pl & ceo & Hpl & _ & _ & _ & Hlinks & Hdep & _).
  set (d := cat_detail cat (Collection.id r)) in *.
  set (visible := get_collections_rows (cat_db cat) None roles) in *.
  split; [|split].
  - exists (version_links env visible assets_kwargs d), pl.
    split; [exact Hlinks|]. split; [exact Hpl|].
    intros l Hl. unfold version_links in Hl. apply in_app_or in Hl.
    destruct Hl as [Hl|Hl].
    + unfold successor_of in Hl.
      destruct (Detail.version_successor d) as [k|] eqn:Ek; [|destruct Hl].
      destruct (map_get visible k) as [c|] eqn:Ec; [|destruct Hl].
      destruct Hl as [<-|[]]. apply map_get_some in Ec. destruct Ec as [Hc <-].
      apply visible_rows in Hc. destruct Hc as (H1 & H2 & H3).
      exists c, "successor-version". repeat split; auto.
    + unfold predecessor_of in Hl.
      destruct (Detail.version_predecessor d) as [k|] eqn:Ek; [|destruct Hl].
      destruct (map_get visible k) as [c|] eqn:Ec; [|destruct Hl].
      destruct Hl as [<-|[]]. apply map_get_some in Ec. destruct Ec as [Hc <-].
      apply visible_rows in Hc. destruct Hc as (H1 & H2 & H3).
      exists c, "predecessor-version". repeat split; auto.
  - intros [c [Hc Ek]]. rewrite Hdep. unfold successor_of. rewrite Ek.
    destruct (map_get visible (Collection.id c)) as [c'|] eqn:Ec; [reflexivity|].
    now elim (map_get_none _ _ Ec c Hc).
  - intros Hnone. rewrite Hdep. unfold successor_of.
    destruct (Detail.version_successor d) as [k|] eqn:Ek; [|reflexivity].
    destruct (map_get visible k) as [c|] eqn:Ec; [|reflexivity].
    apply map_get_some in Ec. destruct Ec as [Hc <-]. now elim (Hnone c Hc).
Qed.

(** In the anonymous listing [S2], whose successor [L8] is internal, is not
    deprecated; in the listing for the role [L8-1] it is. *)
Lemma X25_version_links_name_visible_collections_witness :
  get (nth 0 anonymous_listing []) "deprecated" = Some (VBool false)
  /\ get (nth 0 insider_listing []) "deprecated" = Some (VBool true).
Proof.
  split.
  - apply (X25_version_links_name_visible_collections Sample.env Listing.day
             Listing.catalog None None (Some "") anonymous_listing Sample.S2
             (nth 0 anonymous_listing []) eq_refl); [now left|].
    intros c [<-|[<-|[]]]; discriminate.
  - apply (X25_version_links_name_visible_collections Sample.env Listing.day
             Listing.catalog None (Some ["L8-1"]) (Some "") insider_listing Sample.S2
             (nth 0 insider_listing []) eq_refl); [now left|].
    exists Sample.L8. split; [right; now left | reflexivity].
Defined.

(** The keys the controller writes to or removes from the properties. *)
Lemma document_properties_written (env : Env) (d : Detail.t) (collection_eo : option EO) :
  get (document_properties env d collection_eo) "license" = None
  /\ get (document_properties env d collection_eo) "links" = None
  /\ get (document_properties env d collection_eo) "created"
     = Some (VStr (strftime env (Detail.created d)))
  /\ get (document_properties env d collection_eo) "updated"
     = Some (VStr (strftime env (Detail.updated d)))
  /\ match collection_eo with
     | Some eo =>
         get (document_properties env d collection_eo) "eo:gsd" = Some (VFloat (eo_gsd eo))
         /\ get (document_properties env d collection_eo) "eo:bands"
            = Some (VList (map VDict (eo_bands eo)))
     | None =>
         get (document_properties env d collection_eo) "eo:gsd"
         = get (stored_properties d) "eo:gsd"
         /\ get (document_properties env d collection_eo) "eo:bands"
            = get (stored_properties d) "eo:bands"
     end.
Proof.
  unfold document_properties.
  set (p := set (set (stored_properties d) "created" _) "updated" _).
  assert (H1 : get (snd (dict_pop (snd (dict_pop p "license" (VStr ""))) "links" (VList [])))
                   "license" = None).
  { rewrite get_dict_pop_other by discriminate. apply get_dict_pop_same. }
  assert (H2 : get (snd (dict_pop (snd (dict_pop p "license" (VStr ""))) "links" (VList [])))
                   "links" = None) by apply get_dict_pop_same.
  assert (H3 : get (snd (dict_pop (snd (dict_pop p "license" (VStr ""))) "links" (VList [])))
                   "created" = Some (VStr (strftime env (Detail.created d)))).
  { rewrite !get_dict_pop_other by discriminate. unfold p.
    rewrite get_set_other by discriminate. apply get_set_same. }
  assert (H4 : get (snd (dict_pop (snd (dict_pop p "license" (VStr ""))) "links" (VList [])))
                   "updated" = Some (VStr (strftime env (Detail.updated d)))).
  { rewrite !get_dict_pop_other by discriminate. apply get_set_same. }
  destruct collection_eo as [eo|].
  - rewrite !get_update. cbn [rev app]. repeat split; try assumption; reflexivity.
  - repeat split; try assumption;
      rewrite !get_dict_pop_other by discriminate; unfold p;
      rewrite !get_set_other by discriminate; reflexivity.
Qed.

(** X26: the properties and the license of a collection document.  The
    [license] of the document is the one of the stored properties, or the
    empty string; the properties of the document hold neither [license] nor
    [links]; their [created] and [updated] are the dates of the row,
    whatever the stored properties hold under these names; for an [eo]
    collection [eo:gsd] and [eo:bands] are those of the summary of the
    collection, whatever is stored; every other key is as stored. *)
Theorem X26_document_properties (env : Env) (day : timestamp -> string) (cat : Catalog)
    (collection_id : option string) (roles : option (list string))
    (assets_kwargs : option string) (docs : list dict) (r : Collection.t) (doc : dict) :
  get_collections env day cat collection_id roles assets_kwargs = Returns docs ->
  In (r, doc) (combine (get_collections_rows (cat_db cat) collection_id roles) docs) ->
  exists properties,
    get doc "properties" = Some (VDict properties)
    /\ get doc "license"
       = Some match get (stored_properties (cat_detail cat (Collection.id r))) "license" with
              | Some v => v
              | None => VStr ""
              end
    /\ get properties "license" = None
    /\ get properties "links" = None
    /\ get properties "created"
       = Some (VStr (strftime env (Detail.created (cat_detail cat (Collection.id r)))))
    /\ get properties "updated"
       = Some (VStr (strftime env (Detail.updated (cat_detail cat (Collection.id r)))))
    /\ (forall k,
           k <> "created" -> k <> "updated" -> k <> "license" -> k <> "links" ->
           k <> "eo:gsd" -> k <> "eo:bands" ->
           get properties k = get (stored_properties (cat_detail cat (Collection.id r))) k)
    /\ (if is_eo r
        then exists eo,
            fst (get_collection_eo (cat_db cat) (Collection.id r)) = Ok eo
            /\ get properties "eo:gsd" = Some (VFloat (eo_gsd eo))
            /\ get properties "eo:bands" = Some (VList (map VDict (eo_bands eo)))
        else get properties "eo:gsd"
             = get (stored_properties (cat_detail cat (Collection.id r))) "eo:gsd"
             /\ get properties "eo:bands"
                = get (stored_properties (cat_detail cat (Collection.id r))) "eo:bands").
Proof.
  intros H Hin. pose proof (listed_document _ _ _ _ _ _ _ _ _ H Hin) as Hdoc.
  pose proof (collection_document_outcome env day cat
                (get_collections_rows (cat_db cat) None roles) assets_kwargs r) as Hd.
  rewrite Hdoc in Hd. cbv zeta in Hd.
  destruct Hd as (pl & ceo & _ & Hsum & _ & _ & _ & _ & Hlic & Hprops & _).
  set (d := cat_detail cat (Collection.id r)) in *.
  exists (document_properties env d ceo).
  destruct (document_properties_written env d ceo) as (H1 & H2 & H3 & H4 & H5).
  split; [exact Hprops|]. split; [exact Hlic|].
  split; [exact H1|]. split; [exact H2|]. split; [exact H3|]. split; [exact H4|].
  split; [intros k; apply document_properties_other|].
  pose proof (collection_summary_outcome cat r) as Hs. rewrite Hsum in Hs.
  destruct ceo as [eo|].
  - destruct Hs as (-> & Heo & _). exists eo. split; [exact Heo | exact H5].
  - rewrite Hs. exact H5.
Qed.

(** The document of [S2] in the anonymous listing: the stored [created] is
    replaced by the date of the row and the license has moved to the
    document. *)
Lemma X26_document_properties_witness :
  exists properties,
    get (nth 0 anonymous_listing []) "properties" = Some (VDict properties)
    /\ get (nth 0 anonymous_listing []) "license" = Some (VStr "CC-BY-4.0")
    /\ get properties "license" = None
    /\ get properties "created" = Some (VStr "2020-01-01T00:00:00.000000Z")
    /\ get properties "bdc:crs" = Some (VStr "+proj=aea").
Proof.
  destruct (X26_document_properties Sample.env Listing.day Listing.catalog None None
              (Some "") anonymous_listing Sample.S2 (nth 0 anonymous_listing [])
              eq_refl (or_introl eq_refl))
    as (properties & H1 & H2 & H3 & _ & H5 & _ & H7 & _).
  exists properties. split; [exact H1|]. split; [exact H2|]. split; [exact H3|].
  split; [exact H5|]. rewrite H7 by discriminate. reflexivity.
Defined.

(** X27: the extent and the extensions of a collection document.  The
    temporal interval gives the start date and the end date of the row, and
    drops the end date of a row without a start date; the spatial box is
    the bounds of the spatial extent, or four times [None].  The extension
    list is the three default extensions, then those named by the
    collection ([datacube] for the type [datacube], the category for [sar]
    and [eo]), then the [datacube] extension for the type [cube]; and the
    document has [cube:dimensions] exactly for the type [cube]. *)
Theorem X27_document_extent_and_extensions (env : Env) (day : timestamp -> string)
    (cat : Catalog) (collection_id : option string) (roles : option (list string))
    (assets_kwargs : option string) (docs : list dict) (r : Collection.t) (doc : dict) :
  get_collections env day cat collection_id roles assets_kwargs = Returns docs ->
  In (r, doc) (combine (get_collections_rows (cat_db cat) collection_id roles) docs) ->
  get doc "extent"
  = Some (VDict
      [("spatial",
        VDict [("bbox",
                VList [match Detail.spatial_extent (cat_detail cat (Collection.id r)) with
                       | Some g => shape_bounds env g
                       | None => VList [VNone; VNone; VNone; VNone]
                       end])]);
       ("temporal",
        VDict [("interval",
                VList [VList
                  [match Detail.start_date (cat_detail cat (Collection.id r)) with
                   | Some s => VStr (strftime env s)
                   | None => VNone
                   end;
                   match Detail.start_date (cat_detail cat (Collection.id r)),
                         Detail.end_date (cat_detail cat (Collection.id r)) with
                   | Some _, Some e => VStr (strftime env e)
                   | _, _ => VNone
                   end]])])])
  /\ get doc "stac_extensions"
     = Some (VList (map VStr
         (get_stac_extensions env ["version"; "processing"; "item-assets"]
            ++ get_stac_extensions env
                 ((if String.eqb (Collection.collection_type r) "datacube"
                   then ["datacube"] else [])
                    ++ (if String.eqb (Collection.category r) "sar"
                           || String.eqb (Collection.category r) "eo"
                        then [Collection.category r] else []))
            ++ (if String.eqb (Collection.collection_type r) "cube"
                then get_stac_extensions env ["datacube"] else []))))
  /\ (get doc "cube:dimensions" = None <-> Collection.collection_type r <> "cube").
Proof.
  intros H Hin. pose proof (listed_document _ _ _ _ _ _ _ _ _ H Hin) as Hdoc.
  pose proof (collection_document_outcome env day cat
                (get_collections_rows (cat_db cat) None roles) assets_kwargs r) as Hd.
  rewrite Hdoc in Hd. cbv zeta in Hd.
  destruct Hd as (pl & ceo & _ & _ & Hcube & _ & _ & _ & _ & _ & Hextent & Hext).
  split; [|split].
  - rewrite Hextent. unfold spatial_bbox, temporal_interval.
    destruct (Detail.start_date (cat_detail cat (Collection.id r)));
      destruct (Detail.end_date (cat_detail cat (Collection.id r))); reflexivity.
  - exact Hext.
  - unfold is_cube in Hcube.
    destruct (String.eqb_spec (Collection.collection_type r) "cube") as [E|N].
    + destruct Hcube as (datacube & _ & Hdims & _). rewrite Hdims.
      split; [discriminate | intros N; now elim N].
    + destruct Hcube as (Hdims & _). now split.
Qed.

(** The document of [S2] in the anonymous listing: the end date of a row
    without start date is not reported. *)
Lemma X27_document_extent_and_extensions_witness :
  get (nth 0 anonymous_listing []) "extent"
  = Some (VDict
      [("spatial", VDict [("bbox", VList [VList [VNone; VNone; VNone; VNone]])]);
       ("temporal", VDict [("interval", VList [VList [VNone; VNone]])])]).
Proof.
  exact (proj1 (X27_document_extent_and_extensions Sample.env Listing.day Listing.catalog
                  None None (Some "") anonymous_listing Sample.S2
                  (nth 0 anonymous_listing []) eq_refl (or_introl eq_refl))).
Defined.

(** X28: the dimensions of a cube.  In the document of a collection of
    type [cube] the extents of [x] and [y] are the first and third, and the
    second and fourth, entries of the spatial box (so [None] without a
    spatial extent); the temporal dimension has the interval of the extent
    and the days of the timeline; the dimension [bands] exists only for an
    [eo] collection and lists the names of the band entries, so a band
    without resolution data is not among them; and the reference system of
    [x] and [y], also given as [bdc:crs], is the CRS of the grid of the
    collection, else the [bdc:crs] of its stored properties, else [None]. *)
Theorem X28_cube_dimensions (env : Env) (day : timestamp -> string) (cat : Catalog)
    (collection_id : option string) (roles : option (list string))
    (assets_kwargs : option string) (docs : list dict) (r : Collection.t) (doc : dict) :
  get_collections env day cat collection_id roles assets_kwargs = Returns docs ->
  In (r, doc) (combine (get_collections_rows (cat_db cat) collection_id roles) docs) ->
  Collection.collection_type r = "cube" ->
  exists datacube x0 x1 y0 y1 crs interval,
    get doc "cube:dimensions" = Some (VDict datacube)
    /\ get doc "bdc:crs" = Some crs
    /\ crs = match Detail.grs (cat_detail cat (Collection.id r)) with
             | Some g => Grs.crs g
             | None =>
                 match get (stored_properties (cat_detail cat (Collection.id r))) "bdc:crs"
                 with
                 | Some v => v
                 | None => VNone
                 end
             end
    /\ get doc "extent"
       = Some (VDict [("spatial",
                       VDict [("bbox",
                               VList [spatial_bbox env (cat_detail cat (Collection.id r))])]);
                      ("temporal", VDict [("interval", VList [VList interval])])])
    /\ subscript (spatial_bbox env (cat_detail cat (Collection.id r))) 0 = Returns x0
    /\ subscript (spatial_bbox env (cat_detail cat (Collection.id r))) 2 = Returns x1
    /\ subscript (spatial_bbox env (cat_detail cat (Collection.id r))) 1 = Returns y0
    /\ subscript (spatial_bbox env (cat_detail cat (Collection.id r))) 3 = Returns y1
    /\ (Detail.spatial_extent (cat_detail cat (Collection.id r)) = None ->
        x0 = VNone /\ x1 = VNone /\ y0 = VNone /\ y1 = VNone)
    /\ get datacube "x"
       = Some (VDict [("type", VStr "spatial"); ("axis", VStr "x");
                      ("extent", VList [x0; x1]); ("reference_system", crs)])
    /\ get datacube "y"
       = Some (VDict [("type", VStr "spatial"); ("axis", VStr "y");
                      ("extent", VList [y0; y1]); ("reference_system", crs)])
    /\ get datacube "temporal"
       = Some (VDict [("type", VStr "temporal"); ("extent", VList interval);
                      ("values",
                       VList (map VStr
                                (match Detail.timeline (cat_detail cat (Collection.id r)) with
                                 | Some l => map day l
                                 | None => []
                                 end)))])
    /\ get datacube "bands"
       = if String.eqb (Collection.category r) "eo"
         then Some (VDict [("type", VStr "bands");
                           ("values",
                            VList (map entry_name
                                     (filter has_resolution
                                        (bands_of (cat_db cat) (Collection.id r)))))])
         else None.
Proof.
  intros H Hin Htype. pose proof (listed_document _ _ _ _ _ _ _ _ _ H Hin) as Hdoc.
  pose proof (collection_document_outcome env day cat
                (get_collections_rows (cat_db cat) None roles) assets_kwargs r) as Hd.
  rewrite Hdoc in Hd. cbv zeta in Hd.
  destruct Hd as (pl & ceo & _ & Hsum & Hcube & _ & _ & _ & _ & _ & Hextent & _).
  unfold is_cube in Hcube. rewrite Htype in Hcube. cbn [String.eqb Ascii.eqb Bool.eqb] in Hcube.
  destruct Hcube as (datacube & Hdims & Hget & Hcrs & _).
  set (d := cat_detail cat (Collection.id r)) in *.
  pose proof (cube_dimensions_outcome day cat r d (spatial_bbox env d)
                (get_collection_crs (Detail.grs d) (Detail.properties d))
                (fst (temporal_interval env d)) (snd (temporal_interval env d))
                ceo Hsum) as Hc.
  rewrite Hdims in Hc.
  destruct Hc as (x0 & x1 & y0 & y1 & E0 & E2 & E1 & E3 & Hx & Hy & Ht & Hb).
  exists datacube, x0, x1, y0, y1,
    (get_collection_crs (Detail.grs d) (Detail.properties d)),
    [fst (temporal_interval env d); snd (temporal_interval env d)].
  split; [exact Hget|]. split; [exact Hcrs|]. split.
  { unfold get_collection_crs, stored_properties.
    destruct (Detail.grs d); [reflexivity|]. now destruct (Detail.properties d). }
  split; [exact Hextent|].
  split; [exact E0|]. split; [exact E2|]. split; [exact E1|]. split; [exact E3|].
  split.
  { intros Hnone. unfold spatial_bbox in E0, E1, E2, E3. rewrite Hnone in E0, E1, E2, E3.
    cbn in E0, E1, E2, E3.
    injection E0 as <-. injection E1 as <-. injection E2 as <-. injection E3 as <-.
    now repeat split. }
  split; [exact Hx|]. split; [exact Hy|]. split; [exact Ht|].
  rewrite Hb. pose proof (collection_summary_outcome cat r) as Hs. rewrite Hsum in Hs.
  unfold is_eo in Hs. destruct ceo as [eo|].
  - destruct Hs as (-> & _). reflexivity.
  - rewrite Hs. reflexivity.
Qed.

(** The cube of [S2] in the anonymous listing: no spatial extent, the CRS
    of the stored properties, and the two bands with resolution data. *)
Lemma X28_cube_dimensions_witness :
  exists datacube,
    get (nth 0 anonymous_listing []) "cube:dimensions" = Some (VDict datacube)
    /\ get (nth 0 anonymous_listing []) "bdc:crs" = Some (VStr "+proj=aea")
    /\ get datacube "x"
       = Some (VDict [("type", VStr "spatial"); ("axis", VStr "x");
                      ("extent", VList [VNone; VNone]);
                      ("reference_system", VStr "+proj=aea")])
    /\ get datacube "bands"
       = Some (VDict [("type", VStr "bands"); ("values", VList [VStr "B04"; VStr "B08"])]).
Proof.
  destruct (X28_cube_dimensions Sample.env Listing.day Listing.catalog None None
              (Some "") anonymous_listing Sample.S2 (nth 0 anonymous_listing [])
              eq_refl (or_introl eq_refl) eq_refl)
    as (datacube & x0 & x1 & y0 & y1 & crs & interval
        & H1 & H2 & H3 & _ & _ & _ & _ & _ & H9 & H10 & _ & _ & H13).
  destruct (H9 eq_refl) as (-> & -> & _). subst crs.
  exists datacube. split; [exact H1|]. split; [exact H2|]. split; [exact H10 | exact H13].
Defined.
